(** * Langara Swing Schedule Exporter: the parsing and calendar pipeline

    A shallow embedding of [content.js]: the Banner format decoders, the
    column resolver, the row parser, the session aggregator and the ICS
    generator, followed by the properties of the specification that were
    checked against them.

    Conventions of the embedding.
    - A JavaScript string is a [string]: the sequence of its code units,
      the character of code [n] standing for the code unit [n].  The model
      holds the strings whose code units lie between U+0000 and U+00FF;
      the no-break space U+00A0, which is the text of an HTML [&nbsp;], is
      the character of code 160.  [trim], [toUpperCase], [split],
      [padStart], [substring], [includes], [replace] and [join] are
      transcribed below with the behaviour ECMA-262 gives them on such
      strings.  The upper case of U+00B5 and of U+00FF lies above U+00FF:
      these two code units are left as they are, and are the only ones on
      which [toUpperCase] differs from the engine's.
    - [null], [NaN] and a thrown exception are [None] of the relevant
      option type; each definition says which.
    - A table is what the script sees of it: for every [tr], in document
      order, the text contents of its [th] cells and of its [td] cells.
    - The extension runs in Chrome and Edge (README, Browser
      Compatibility), so [new Date(string)] is V8's: its ISO parser accepts
      a date-only string [YYYY-MM-DD] when [1 <= MM <= 12] and
      [1 <= DD <= 31]; what it does with any other string is left to a
      parameter of the development. *)

From Stdlib Require Import ZArith NArith String Ascii Bool Lia DecimalString.
From stdpp Require Import base list.

Open Scope string_scope.
Open Scope Z_scope.

(** Case analysis on the comparisons of character codes in the goal. *)
Ltac compare_codes :=
  repeat match goal with
         | |- context [N.leb ?a ?b] =>
             destruct (N.leb_spec a b); try (exfalso; lia)
         | |- context [N.eqb ?a ?b] =>
             destruct (N.eqb_spec a b); try (exfalso; lia)
         end;
  cbn [andb orb negb]; intros;
  try reflexivity; try discriminate; try congruence; try lia.

(** ** JavaScript strings *)

Module JS.

Definition code (c : ascii) : N := N_of_ascii c.

Definition isDigit (c : ascii) : bool := ((48 <=? code c) && (code c <=? 57))%N.
Definition isUpper (c : ascii) : bool := ((65 <=? code c) && (code c <=? 90))%N.
Definition isLower (c : ascii) : bool := ((97 <=? code c) && (code c <=? 122))%N.
Definition isLetter (c : ascii) : bool := isUpper c || isLower c.

(** The white space and the line terminators of ECMA-262 up to U+00FF,
    which [String.prototype.trim] and [parseInt] remove: TAB, LF, VT, FF,
    CR, SP and NBSP (U+00A0). *)
Definition isWhiteSpace (c : ascii) : bool :=
  (((9 <=? code c) && (code c <=? 13)) || (code c =? 32) || (code c =? 160))%N.

(** The small letters U+00E0 to U+00FE, the division sign U+00F7 apart:
    their capitals are 32 code units below, as for [a] to [z]. *)
Definition isLatinLower (c : ascii) : bool :=
  (((224 <=? code c) && (code c <=? 246))
   || ((248 <=? code c) && (code c <=? 254)))%N.

Definition upperChar (c : ascii) : ascii :=
  if isLower c || isLatinLower c then ascii_of_N (code c - 32) else c.

(** The upper case of one code unit: the sharp s U+00DF becomes [SS]. *)
Definition upperUnit (c : ascii) : string :=
  if (code c =? 223)%N then String "S" (String "S" EmptyString)
  else String (upperChar c) EmptyString.

Fixpoint toUpperCase (s : string) : string :=
  match s with
  | EmptyString => EmptyString
  | String c s' => upperUnit c ++ toUpperCase s'
  end.

Fixpoint trimStart (s : string) : string :=
  match s with
  | EmptyString => EmptyString
  | String c s' => if isWhiteSpace c then trimStart s' else s
  end.

(** [allWhite s]: [s] consists of white space only. *)
Fixpoint allWhite (s : string) : bool :=
  match s with
  | EmptyString => true
  | String c s' => isWhiteSpace c && allWhite s'
  end.

Fixpoint trimEnd (s : string) : string :=
  match s with
  | EmptyString => EmptyString
  | String c s' => if allWhite s then EmptyString else String c (trimEnd s')
  end.

Definition trim (s : string) : string := trimEnd (trimStart s).

(** [s.split(sep)] for a one-character separator. *)
Fixpoint split (sep : ascii) (s : string) : list string :=
  match s with
  | EmptyString => [EmptyString]
  | String c s' =>
      if Ascii.eqb c sep then EmptyString :: split sep s'
      else match split sep s' with
           | h :: t => String c h :: t
           | [] => [String c EmptyString]
           end
  end.

Fixpoint repeatChar (c : ascii) (n : nat) : string :=
  match n with
  | O => EmptyString
  | S n' => String c (repeatChar c n')
  end.

(** [s.padStart(n, c)] for a one-character filler. *)
Definition padStart (n : nat) (c : ascii) (s : string) : string :=
  repeatChar c (n - String.length s) ++ s.

(** [s.substring(a, b)]: both ends clamped to the length, swapped when
    [a > b]. *)
Definition substring (a b : nat) (s : string) : string :=
  let len := String.length s in
  let a' := Nat.min a len in
  let b' := Nat.min b len in
  String.substring (Nat.min a' b') (Nat.max a' b' - Nat.min a' b') s.

(** [s.substring(a)]. *)
Definition substringFrom (a : nat) (s : string) : string :=
  substring a (String.length s) s.

Fixpoint startsWith (p s : string) : bool :=
  match p, s with
  | EmptyString, _ => true
  | String a p', String b s' => Ascii.eqb a b && startsWith p' s'
  | String _ _, EmptyString => false
  end.

(** [s.includes(needle)]. *)
Fixpoint includes (s needle : string) : bool :=
  startsWith needle s ||
  match s with
  | EmptyString => false
  | String _ s' => includes s' needle
  end.

(** [l.join(sep)]. *)
Definition join (sep : string) (l : list string) : string := String.concat sep l.

(** Truthiness of a string: only the empty string is falsy. *)
Definition truthy (s : string) : bool :=
  match s with EmptyString => false | _ => true end.

(** [a || b] on strings. *)
Definition or (a b : string) : string := if truthy a then a else b.

(** [s.replace(/c/g, rep)] for a one-character pattern and a replacement
    without [$]. *)
Fixpoint replaceAllChar (c : ascii) (rep : string) (s : string) : string :=
  match s with
  | EmptyString => EmptyString
  | String a s' =>
      if Ascii.eqb a c then rep ++ replaceAllChar c rep s'
      else String a (replaceAllChar c rep s')
  end.

(** Position of the first occurrence of [needle] in [s]. *)
Fixpoint indexOf (needle s : string) : option nat :=
  if startsWith needle s then Some O
  else match s with
       | EmptyString => None
       | String _ s' => S <$> indexOf needle s'
       end.

(** GetSubstitution for a string pattern (no captures): in the replacement
    text, [$$] is a dollar sign, [$&] the matched text, [$`] the text before
    the match and [$'] the text after it; any other [$] stands for itself. *)
Fixpoint getSubstitution (matched before after repl : string) : string :=
  match repl with
  | EmptyString => EmptyString
  | String c r =>
      if Ascii.eqb c "$" then
        match r with
        | String d r' =>
            if Ascii.eqb d "$" then
              String "$" (getSubstitution matched before after r')
            else if Ascii.eqb d "&" then
              matched ++ getSubstitution matched before after r'
            else if Ascii.eqb d "`" then
              before ++ getSubstitution matched before after r'
            else if Ascii.eqb d "'" then
              after ++ getSubstitution matched before after r'
            else String c (getSubstitution matched before after r)
        | EmptyString => String c EmptyString
        end
      else String c (getSubstitution matched before after r)
  end.

(** [s.replace(pat, repl)] for a string pattern: only the first occurrence
    is replaced. *)
Definition replace (pat repl s : string) : string :=
  match indexOf pat s with
  | None => s
  | Some i =>
      let before := String.substring 0 i s in
      let after := substringFrom (i + String.length pat) s in
      before ++ getSubstitution pat before after repl ++ after
  end.

Definition digitVal (c : ascii) : Z := Z.of_N (code c) - 48.

Fixpoint digitsValue (acc : Z) (s : string) : Z :=
  match s with
  | EmptyString => acc
  | String c s' => if isDigit c then digitsValue (acc * 10 + digitVal c) s' else acc
  end.

(** [parseInt(s, 10)]: leading white space, an optional sign, then the
    longest run of digits; [None] is [NaN]. *)
Definition parseInt (s : string) : option Z :=
  let body sign t :=
    match t with
    | String c _ => if isDigit c then Some (sign * digitsValue 0 t) else None
    | EmptyString => None
    end in
  match trimStart s with
  | String c t =>
      if Ascii.eqb c "-" then body (-1) t
      else if Ascii.eqb c "+" then body 1 t
      else body 1 (String c t)
  | EmptyString => None
  end.

(** [String(n)] for an integer, and for [NaN]. *)
Definition numberToString (n : option Z) : string :=
  match n with
  | Some z => NilZero.string_of_int (Z.to_int z)
  | None => "NaN"
  end.

Definition allDigits (s : string) : bool :=
  forallb isDigit (list_ascii_of_string s).

End JS.

(** ** Time values of ECMA-262 (section "Date Objects")

    A time value is a number of milliseconds since the epoch, or [NaN]
    ([None]).  Only the UTC half of the Date interface is used by the
    script. *)

Module JSDate.

Definition msPerDay : Z := 86400000.
Definition msPerHour : Z := 3600000.
Definition msPerMinute : Z := 60000.
Definition msPerSecond : Z := 1000.

Definition Day (t : Z) : Z := t / msPerDay.
Definition TimeWithinDay (t : Z) : Z := t mod msPerDay.

Definition DaysInYear (y : Z) : Z :=
  if negb (y mod 4 =? 0) then 365
  else if negb (y mod 100 =? 0) then 366
  else if negb (y mod 400 =? 0) then 365
  else 366.

Definition DayFromYear (y : Z) : Z :=
  365 * (y - 1970) + (y - 1969) / 4 - (y - 1901) / 100 + (y - 1601) / 400.

(** The year containing day number [d]: the largest [y] with
    [DayFromYear y <= d].  The quotient by the mean year length is off by
    at most one, which the two comparisons repair. *)
Definition YearFromDay (d : Z) : Z :=
  let y := 1970 + (d * 400) / 146097 in
  if d <? DayFromYear y then y - 1
  else if DayFromYear (y + 1) <=? d then y + 1
  else y.

Definition YearFromTime (t : Z) : Z := YearFromDay (Day t).
Definition InLeapYear (t : Z) : Z :=
  if DaysInYear (YearFromTime t) =? 366 then 1 else 0.
Definition DayWithinYear (t : Z) : Z := Day t - DayFromYear (YearFromTime t).

(** Day number, within its year, of the first day of month [m] (0-based);
    [leap] is 0 or 1. *)
Definition monthStart (leap m : Z) : Z :=
  match m with
  | 0 => 0 | 1 => 31 | 2 => 59 + leap | 3 => 90 + leap | 4 => 120 + leap
  | 5 => 151 + leap | 6 => 181 + leap | 7 => 212 + leap | 8 => 243 + leap
  | 9 => 273 + leap | 10 => 304 + leap | 11 => 334 + leap
  | _ => 365 + leap
  end.

Definition MonthFromTime (t : Z) : Z :=
  let d := DayWithinYear t in
  let leap := InLeapYear t in
  if d <? monthStart leap 1 then 0
  else if d <? monthStart leap 2 then 1
  else if d <? monthStart leap 3 then 2
  else if d <? monthStart leap 4 then 3
  else if d <? monthStart leap 5 then 4
  else if d <? monthStart leap 6 then 5
  else if d <? monthStart leap 7 then 6
  else if d <? monthStart leap 8 then 7
  else if d <? monthStart leap 9 then 8
  else if d <? monthStart leap 10 then 9
  else if d <? monthStart leap 11 then 10
  else 11.

Definition DateFromTime (t : Z) : Z :=
  DayWithinYear t - monthStart (InLeapYear t) (MonthFromTime t) + 1.

Definition HourFromTime (t : Z) : Z := (t / msPerHour) mod 24.
Definition MinFromTime (t : Z) : Z := (t / msPerMinute) mod 60.
Definition SecFromTime (t : Z) : Z := (t / msPerSecond) mod 60.
Definition msFromTime (t : Z) : Z := t mod msPerSecond.

Definition MakeTime (hour min sec ms : Z) : Z :=
  hour * msPerHour + min * msPerMinute + sec * msPerSecond + ms.

(** [month] is 0-based and may lie outside 0..11; [date] may lie outside
    the month: both carry over. *)
Definition MakeDay (year month date : Z) : Z :=
  let ym := year + month / 12 in
  let mn := month mod 12 in
  let leap := if DaysInYear ym =? 366 then 1 else 0 in
  DayFromYear ym + monthStart leap mn + date - 1.

Definition MakeDate (day time : Z) : Z := day * msPerDay + time.

Definition TimeClip (t : Z) : option Z :=
  if 8640000000000000 <? Z.abs t then None else Some t.

Definition MakeFullYear (y : Z) : Z :=
  if (0 <=? y) && (y <=? 99) then 1900 + y else y.

(** [Date.UTC(year, month, day, hour, minute, second)]; an argument that
    is [NaN] makes the result [NaN]. *)
Definition UTC (year month day hour minute second : option Z) : option Z :=
  y ← year; m ← month; dt ← day; h ← hour; mi ← minute; s ← second;
  TimeClip (MakeDate (MakeDay (MakeFullYear y) m dt) (MakeTime h mi s 0)).

Definition getUTCFullYear (t : option Z) : option Z := YearFromTime <$> t.
Definition getUTCMonth (t : option Z) : option Z := MonthFromTime <$> t.
Definition getUTCDate (t : option Z) : option Z := DateFromTime <$> t.
Definition getUTCHours (t : option Z) : option Z := HourFromTime <$> t.
Definition getUTCMinutes (t : option Z) : option Z := MinFromTime <$> t.

(** [d.setUTCHours(hour)]: the new time value of [d]. *)
Definition setUTCHours (t hour : option Z) : option Z :=
  t' ← t; h ← hour;
  TimeClip (MakeDate (Day t')
              (MakeTime h (MinFromTime t') (SecFromTime t') (msFromTime t'))).

(** The date-only ISO form [YYYY-MM-DD]: four digits, two digits, two
    digits, separated by hyphens, and nothing else. *)
Definition isoDateOnly (s : string) : option (Z * Z * Z) :=
  let y := String.substring 0 4 s in
  let m := String.substring 5 2 s in
  let d := String.substring 8 2 s in
  if (String.length s =? 10)%nat
     && JS.allDigits y && JS.allDigits m && JS.allDigits d
     && String.eqb (String.substring 4 1 s) "-"
     && String.eqb (String.substring 7 1 s) "-"
  then Some (JS.digitsValue 0 y, JS.digitsValue 0 m, JS.digitsValue 0 d)
  else None.

Section Parse.

(** What the engine makes of a string that its ISO parser does not
    accept as a date-only string (ECMA-262 leaves this to the
    implementation): a time value or [NaN]. *)
Variable legacyParse : string -> option Z.

(** [new Date(s).getTime()] in V8.  The ISO parser ([ParseES5DateTime]
    of V8's date parser, which tests the day with [DayComposer::IsDay])
    takes a date-only string whose month is in 1..12 and whose day is in
    1..31, whatever the month, and lets [MakeDay] carry an overlong month
    into the next one: [new Date("2024-02-30")] is the 1st of March 2024.
    Every other string goes to the legacy parser. *)
Definition parse (s : string) : option Z :=
  match isoDateOnly s with
  | Some (y, m, d) =>
      if (1 <=? m) && (m <=? 12) && (1 <=? d) && (d <=? 31)
      then TimeClip (MakeDate (MakeDay y (m - 1) d) 0)
      else legacyParse s
  | None => legacyParse s
  end.

End Parse.

End JSDate.

(** ** The regular expressions of the row parser

    The three patterns of [parseTableRow] are anchored sequences of
    character classes with bounded repetition; [matches] decides whether
    the whole string is matched. *)

Module Regex.

Record item := Rep { cls : ascii -> bool; lo : nat; hi : nat }.

(** [c{lo,hi}] followed by the continuation [k]. *)
Fixpoint matchRep (cls : ascii -> bool) (lo hi : nat) (k : string -> bool)
    (s : string) {struct hi} : bool :=
  ((lo =? 0)%nat && k s) ||
  match hi, s with
  | S hi', String c s' => cls c && matchRep cls (Nat.pred lo) hi' k s'
  | _, _ => false
  end.

(** [^ items $] *)
Definition matches (items : list item) (s : string) : bool :=
  fold_right (fun it k => matchRep (cls it) (lo it) (hi it) k)
    (fun s => negb (JS.truthy s)) items s.

Definition chr (c : ascii) : ascii -> bool := Ascii.eqb c.

Fixpoint oneOf (set : string) (c : ascii) : bool :=
  match set with
  | EmptyString => false
  | String a set' => Ascii.eqb a c || oneOf set' c
  end.

(** [/^\d{1,2}-[A-Z]{3}-\d{4}$/i] *)
Definition datePattern : list item :=
  [Rep JS.isDigit 1 2; Rep (chr "-") 1 1; Rep JS.isLetter 3 3;
   Rep (chr "-") 1 1; Rep JS.isDigit 4 4].

(** [/^\d{3,4}-\d{3,4}$/] *)
Definition timePattern : list item :=
  [Rep JS.isDigit 3 4; Rep (chr "-") 1 1; Rep JS.isDigit 3 4].

(** [/^[-MTWRFSUmtwfrsu]{7}$/] *)
Definition daysPattern : list item :=
  [Rep (oneOf "-MTWRFSUmtwfrsu") 7 7].

End Regex.

(** ** Data of the script *)

(** What the script reads of a [tr]: the text contents of its [th]
    descendants and of its [td] descendants, in document order. *)
Record Row := { ths : list string; tds : list string }.

(** The value of [currentCourseInfo]. *)
Record CourseInfo := {
  ci_subject : string; ci_course : string;
  ci_section : string; ci_title : string }.

(** The object returned by [parseTableRow]. *)
Record CourseData := {
  cd_subject : string; cd_course : string; cd_section : string;
  cd_title : string; cd_type : string; cd_days : string; cd_time : string;
  cd_start : string; cd_end : string; cd_room : string }.

(** The object returned by [parseBannerTime]. *)
Record TimeData := { td_start : string; td_end : string }.

Definition CR : ascii := "013"%char.
Definition LF : ascii := "010"%char.
Definition CRLF : string := String CR (String LF EmptyString).

(** An object literal with string keys and string values, in source
    order.  The keys looked up below are upper-cased first, so no property
    inherited from [Object.prototype] (all of which contain a lower-case
    letter) is ever found. *)
Fixpoint lookupKey (m : list (string * string)) (key : string) : option string :=
  match m with
  | [] => None
  | (k, v) :: m' => if String.eqb k key then Some v else lookupKey m' key
  end.

Definition MONTH_MAP : list (string * string) :=
  [("JAN", "01"); ("FEB", "02"); ("MAR", "03"); ("APR", "04");
   ("MAY", "05"); ("JUN", "06"); ("JUL", "07"); ("AUG", "08");
   ("SEP", "09"); ("OCT", "10"); ("NOV", "11"); ("DEC", "12")].

Definition DAY_MAP : list (string * string) :=
  [("M", "MO"); ("T", "TU"); ("W", "WE"); ("R", "TH");
   ("F", "FR"); ("S", "SA"); ("U", "SU")].

(** ** Format decoders *)

(** [formatTime] of [parseBannerTime]. *)
Definition formatTime (time : string) : string :=
  let padded := JS.padStart 4 "0" time in
  let hours := JS.substring 0 (String.length padded - 2) padded in
  let minutes := JS.substringFrom (String.length padded - 2) padded in
  JS.padStart 2 "0" hours ++ ":" ++ minutes.

(** [None] is [null]. *)
Definition parseBannerTime (timeStr : string) : option TimeData :=
  if negb (JS.truthy timeStr) then None
  else
    let trimmed := JS.trim timeStr in
    match JS.split "-" trimmed with
    | [p0; p1] =>
        let startRaw := JS.trim p0 in
        let endRaw := JS.trim p1 in
        Some {| td_start := formatTime startRaw; td_end := formatTime endRaw |}
    | _ => None
    end.

Definition positions : list string := ["M"; "T"; "W"; "R"; "F"; "S"; "U"].

(** One turn of the loop of [parseBannerDays]. *)
Definition daysStep (trimmed : string) (days : list string) (p : string)
    : list string :=
  if JS.includes trimmed p then
    match lookupKey DAY_MAP p with
    | Some icsDay => if JS.truthy icsDay then (days ++ [icsDay])%list else days
    | None => days
    end
  else days.

Definition parseBannerDays (daysStr : string) : list string :=
  if negb (JS.truthy daysStr) then []
  else
    let trimmed := JS.toUpperCase (JS.trim daysStr) in
    fold_left (daysStep trimmed) positions [].

(** ** Column resolver *)

Definition hasTh (r : Row) : bool :=
  match ths r with [] => false | _ => true end.

Fixpoint findIndex {A} (p : A -> bool) (l : list A) : option nat :=
  match l with
  | [] => None
  | x :: l' => if p x then Some O else S <$> findIndex p l'
  end.

(** The test applied to a header cell. *)
Definition headerMatches (headerTextUpper cell : string) : bool :=
  JS.includes (JS.toUpperCase (JS.trim cell)) headerTextUpper.

(** The second loop of [getColumnIndex]: rows from the top, until one has
    no header cell. *)
Fixpoint scanHeaderRows (headerTextUpper : string) (rows : list Row) : Z :=
  match rows with
  | [] => -1
  | row :: rest =>
      if hasTh row then
        match findIndex (headerMatches headerTextUpper) (ths row) with
        | Some i => Z.of_nat i
        | None => scanHeaderRows headerTextUpper rest
        end
      else -1
  end.

Definition getColumnIndex (table : list Row) (headerText : string) : Z :=
  let headerRows := table in
  let headerTextUpper := JS.toUpperCase headerText in
  let firstHeaderRow := List.find hasTh headerRows in
  match firstHeaderRow ≫= (fun row =>
          findIndex (headerMatches headerTextUpper) (ths row)) with
  | Some i => Z.of_nat i
  | None => scanHeaderRows headerTextUpper headerRows
  end.

(** ** Row parser *)

(** [cells[i].textContent.trim()] *)
Definition cellAt (cells : list string) (i : nat) : string :=
  JS.trim (default EmptyString (cells !! i)).

(** [getCellText] of [parseTableRow]. *)
Definition getCellText (cells : list string) (idx fallbackIdx : Z) : string :=
  let len := Z.of_nat (length cells) in
  if (0 <=? idx) && (idx <? len) then cellAt cells (Z.to_nat idx)
  else if (0 <=? fallbackIdx) && (fallbackIdx <? len)
       then cellAt cells (Z.to_nat fallbackIdx)
  else EmptyString.

Definition isTypeWord (cellText : string) : bool :=
  String.eqb cellText "LECTURE" || String.eqb cellText "LAB"
  || String.eqb cellText "EXAM".

Definition isDate (cellText : string) : bool :=
  Regex.matches Regex.datePattern cellText.
Definition isTime (cellText : string) : bool :=
  Regex.matches Regex.timePattern cellText.
Definition isDays (cellText : string) : bool :=
  Regex.matches Regex.daysPattern cellText.

(** A loop [for i: if (test(cells[i].textContent.trim())) { v = that text;
    break; }] starting from [v = '']. *)
Definition firstCell (test : string -> bool) (cells : list string) : string :=
  match List.find (fun cell => test (JS.trim cell)) cells with
  | Some cell => JS.trim cell
  | None => EmptyString
  end.

(** The type of the row: the first cell that reads LECTURE, LAB or EXAM in
    any case, else the cell of the Type column. *)
Definition rowType (cells : list string) (table : list Row) : string :=
  let type := firstCell (fun t => isTypeWord (JS.toUpperCase t)) cells in
  if negb (JS.truthy type) then getCellText cells (getColumnIndex table "Type") 9
  else type.

(** The loop that looks for the start date; the end date is the next cell
    when that cell is a date too. *)
Fixpoint scanStartEnd (cells : list string) : string * string :=
  match cells with
  | [] => (EmptyString, EmptyString)
  | cell :: rest =>
      let cellText := JS.trim cell in
      if isDate cellText then
        (cellText,
         match rest with
         | next :: _ =>
             let endText := JS.trim next in
             if isDate endText then endText else EmptyString
         | [] => EmptyString
         end)
      else scanStartEnd rest
  end.

Definition rowStartEnd (cells : list string) (table : list Row)
    : string * string :=
  let '(start, end_) := scanStartEnd cells in
  if negb (JS.truthy start) then
    (getCellText cells (getColumnIndex table "Start") 7,
     getCellText cells (getColumnIndex table "End") 8)
  else (start, end_).

Definition rowTime (cells : list string) (table : list Row) : string :=
  let time := firstCell isTime cells in
  if negb (JS.truthy time) then getCellText cells (getColumnIndex table "Time") 11
  else time.

Definition rowDays (cells : list string) (table : list Row) : string :=
  let days := firstCell isDays cells in
  if negb (JS.truthy days) then getCellText cells (getColumnIndex table "Days") 10
  else days.

(** [None] is [null]. *)
Definition parseTableRow (row : Row) (table : list Row)
    (currentCourseInfo : CourseInfo) : option CourseData :=
  let cells := tds row in
  if (length cells <? 3)%nat then None
  else
    let type := rowType cells table in
    let '(start, end_) := rowStartEnd cells table in
    let time := rowTime cells table in
    let days := rowDays cells table in
    let subj := getCellText cells (getColumnIndex table "Subj") 1 in
    let crse := getCellText cells (getColumnIndex table "Crse") 2 in
    let sec := getCellText cells (getColumnIndex table "Sec") 3 in
    let title := getCellText cells (getColumnIndex table "Title") 6 in
    let room := getCellText cells (getColumnIndex table "Room") 12 in
    let finalSubj := JS.or subj (JS.or (ci_subject currentCourseInfo) "") in
    let finalCrse := JS.or crse (JS.or (ci_course currentCourseInfo) "") in
    let finalSec := JS.or sec (JS.or (ci_section currentCourseInfo) "") in
    let finalTitle := JS.or title (JS.or (ci_title currentCourseInfo) "") in
    if negb (JS.truthy type) || String.eqb (JS.trim type) "" then None
    else if negb (JS.truthy start) && negb (JS.truthy time) then None
    else
      let normalizedType := JS.trim (JS.toUpperCase type) in
      let courseIdentifier :=
        if JS.truthy finalSubj && JS.truthy finalCrse
        then JS.trim (finalSubj ++ " " ++ finalCrse)
        else if JS.truthy finalSubj then finalSubj else "Course" in
      let sectionPart := if JS.truthy finalSec then " " ++ finalSec else "" in
      let courseCode := JS.trim (courseIdentifier ++ sectionPart) in
      Some {| cd_subject := finalSubj; cd_course := finalCrse;
              cd_section := finalSec; cd_title := JS.or finalTitle courseCode;
              cd_type := normalizedType; cd_days := days; cd_time := time;
              cd_start := start; cd_end := end_; cd_room := room |}.

(** ** Calendar generator *)

(** [None] is the [TypeError] raised by [minutes.padStart] when [timeStr]
    has no colon. *)
Definition formatICSDateTime (dateStr timeStr : string) : option string :=
  if negb (JS.truthy dateStr) || negb (JS.truthy timeStr) then Some EmptyString
  else
    match JS.split ":" timeStr with
    | hours :: minutes :: _ =>
        Some (dateStr ++ "T" ++ JS.padStart 2 "0" hours
                ++ JS.padStart 2 "0" minutes ++ "00")
    | _ => None
    end.

Definition formatICSDateTimeUTC (dateStr timeStr : string) : string :=
  if negb (JS.truthy dateStr) || negb (JS.truthy timeStr) then EmptyString
  else
    let parts := JS.split ":" timeStr in
    let hour := parts !! 0%nat ≫= JS.parseInt in
    let minute := parts !! 1%nat ≫= JS.parseInt in
    let year := JS.parseInt (JS.substring 0 4 dateStr) in
    let month := (fun m => m - 1) <$> JS.parseInt (JS.substring 4 6 dateStr) in
    let day := JS.parseInt (JS.substring 6 8 dateStr) in
    let pstDate := JSDate.UTC year month day hour minute (Some 0) in
    let pstDate :=
      JSDate.setUTCHours pstDate ((fun h => h + 8) <$> JSDate.getUTCHours pstDate) in
    let utcYear := JSDate.getUTCFullYear pstDate in
    let utcMonth :=
      JS.padStart 2 "0"
        (JS.numberToString ((fun m => m + 1) <$> JSDate.getUTCMonth pstDate)) in
    let utcDay := JS.padStart 2 "0" (JS.numberToString (JSDate.getUTCDate pstDate)) in
    let utcHours := JS.padStart 2 "0" (JS.numberToString (JSDate.getUTCHours pstDate)) in
    let utcMinutes :=
      JS.padStart 2 "0" (JS.numberToString (JSDate.getUTCMinutes pstDate)) in
    JS.numberToString utcYear ++ utcMonth ++ utcDay ++ "T" ++ utcHours
      ++ utcMinutes ++ "00Z".

Definition escapeICSText (text : string) : string :=
  if negb (JS.truthy text) then EmptyString
  else
    JS.replaceAllChar LF "\n"
      (JS.replaceAllChar "," "\,"
         (JS.replaceAllChar ";" "\;"
            (JS.replaceAllChar "\" "\\" text))).

Definition calendarHeader : string :=
  "BEGIN:VCALENDAR" ++ CRLF ++ "VERSION:2.0" ++ CRLF
  ++ "PRODID:-//Langara Swing Schedule Exporter//EN" ++ CRLF
  ++ "CALSCALE:GREGORIAN" ++ CRLF
  ++ "X-WR-TIMEZONE:America/Los_Angeles" ++ CRLF.

Definition calendarFooter : string := "END:VCALENDAR" ++ CRLF.

Section Engine.

(** The engine's verdict on the strings its ISO parser does not take
    (see [JSDate.parse]). *)
Variable legacyParse : string -> option Z.

(** [None] is [null]. *)
Definition parseBannerDate (dateStr : string) : option string :=
  if negb (JS.truthy dateStr) then None
  else
    let trimmed := JS.trim dateStr in
    match JS.split "-" trimmed with
    | [p0; p1; p2] =>
        let day := JS.padStart 2 "0" p0 in
        let monthAbbr := JS.toUpperCase p1 in
        let year := p2 in
        match lookupKey MONTH_MAP monthAbbr with
        | Some month =>
            if negb (JS.truthy month) then None
            else
              match JSDate.parse legacyParse (year ++ "-" ++ month ++ "-" ++ day) with
              | None => None
              | Some _ => Some (year ++ month ++ day)
              end
        | None => None
        end
    | _ => None
    end.

(** The body of [createEvent] once the start date and the time range are
    decoded. *)
Definition buildEvent (courseData : CourseData) (startDate : string)
    (endDate : option string) (timeData : TimeData) : option string :=
  let subject := cd_subject courseData in
  let course := cd_course courseData in
  let section := cd_section courseData in
  let title := cd_title courseData in
  let type := cd_type courseData in
  let room := cd_room courseData in
  let withSection code :=
    if JS.truthy section then code ++ " " ++ section else code in
  let courseCode :=
    if JS.truthy subject && JS.truthy course
    then withSection (JS.trim (subject ++ " " ++ course))
    else if JS.truthy subject then withSection subject
    else if JS.truthy course then withSection course
    else JS.or title "Course" in
  let summary :=
    if String.eqb type "EXAM" then "FINAL EXAM - " ++ courseCode
    else courseCode ++ " " ++ type in
  let description := JS.or title courseCode in
  let location :=
    if JS.truthy room then "Langara College, Room " ++ room
    else "Langara College" in
  dtStart ← formatICSDateTime startDate (td_start timeData);
  dtEnd ← formatICSDateTime startDate (td_end timeData);
  let icsEvent := "BEGIN:VEVENT" ++ CRLF in
  let icsEvent :=
    icsEvent ++ "DTSTART;TZID=America/Los_Angeles:" ++ dtStart ++ CRLF in
  let icsEvent :=
    icsEvent ++ "DTEND;TZID=America/Los_Angeles:" ++ dtEnd ++ CRLF in
  icsEvent ←
    (if negb (String.eqb type "EXAM") then
       let icsDays := parseBannerDays (cd_days courseData) in
       match endDate with
       | Some endDate =>
           if (0 <? length icsDays)%nat && JS.truthy endDate then
             let untilDate := formatICSDateTimeUTC endDate "23:59" in
             Some (icsEvent ++ "RRULE:FREQ=WEEKLY;BYDAY=" ++ JS.join "," icsDays
                     ++ ";UNTIL=" ++ untilDate ++ CRLF)
           else Some icsEvent
       | None => Some icsEvent
       end
     else
       match endDate with
       | Some endDate =>
           if JS.truthy endDate && negb (String.eqb endDate startDate) then
             examEnd ← formatICSDateTime endDate (td_end timeData);
             Some (JS.replace ("DTEND;TZID=America/Los_Angeles:" ++ dtEnd)
                     ("DTEND;TZID=America/Los_Angeles:" ++ examEnd) icsEvent)
           else Some icsEvent
       | None => Some icsEvent
       end);
  let icsEvent := icsEvent ++ "SUMMARY:" ++ escapeICSText summary ++ CRLF in
  let icsEvent :=
    icsEvent ++ "DESCRIPTION:" ++ escapeICSText description ++ CRLF in
  let icsEvent := icsEvent ++ "LOCATION:" ++ escapeICSText location ++ CRLF in
  Some (icsEvent ++ "END:VEVENT" ++ CRLF).

(** The VEVENT block of a session, or the empty string when the session
    is skipped; [None] is an exception escaping the function. *)
Definition createEvent (courseData : CourseData) : option string :=
  let startDate := parseBannerDate (cd_start courseData) in
  let endDate := parseBannerDate (cd_end courseData) in
  let timeData := parseBannerTime (cd_time courseData) in
  match startDate, timeData with
  | Some startDate, Some timeData =>
      if negb (JS.truthy startDate) then Some EmptyString
      else buildEvent courseData startDate endDate timeData
  | _, _ => Some EmptyString
  end.

(** One turn of the loop of [generateICS]. *)
Definition icsStep (ics : option string) (course : CourseData)
    : option string :=
  ics ← ics;
  event ← createEvent course;
  Some (if JS.truthy event then ics ++ event else ics).

(** [None] is an exception escaping the function. *)
Definition generateICS (courses : list CourseData) : option string :=
  ics ← fold_left icsStep courses (Some calendarHeader);
  Some (ics ++ calendarFooter).

End Engine.

(** ** Session aggregator *)

(** The variables of the loop of [scrapeCourseData].  [parserCalls] is not
    in the script: it records, for the statements below, each call of
    [parseTableRow] with the row, the carry-over identity passed to it and
    its result. *)
Record Scrape := {
  courses : list CourseData;
  skippedRows : nat;
  invalidRows : nat;
  currentCourseInfo : CourseInfo;
  parserCalls : list (Row * CourseInfo * option CourseData) }.

Definition emptyCourseInfo : CourseInfo :=
  {| ci_subject := ""; ci_course := ""; ci_section := ""; ci_title := "" |}.

Definition scrapeStart : Scrape :=
  {| courses := []; skippedRows := 0; invalidRows := 0;
     currentCourseInfo := emptyCourseInfo; parserCalls := [] |}.

(** The number of leading rows that have a header cell. *)
Fixpoint countHeaderRows (rows : list Row) : nat :=
  match rows with
  | row :: rest => if hasTh row then S (countHeaderRows rest) else O
  | [] => O
  end.

(** [cells.length > i ? cells[i].textContent.trim() : ''] *)
Definition cellOrEmpty (cells : list string) (i : nat) : string :=
  if (i <? length cells)%nat then cellAt cells i else EmptyString.

(** One turn of the loop over the data rows. *)
Definition scrapeStep (table : list Row) (st : Scrape) (row : Row) : Scrape :=
  let cells := tds row in
  if (length cells <? 3)%nat then
    {| courses := courses st; skippedRows := S (skippedRows st);
       invalidRows := invalidRows st;
       currentCourseInfo := currentCourseInfo st;
       parserCalls := parserCalls st |}
  else
    let subjText := cellOrEmpty cells 1 in
    let crseText := cellOrEmpty cells 2 in
    let secText := cellOrEmpty cells 3 in
    let titleText := cellOrEmpty cells 6 in
    let info :=
      if JS.truthy subjText && JS.truthy crseText then
        {| ci_subject := subjText; ci_course := crseText;
           ci_section := secText; ci_title := titleText |}
      else currentCourseInfo st in
    let courseData := parseTableRow row table info in
    let calls := (parserCalls st ++ [(row, info, courseData)])%list in
    match courseData with
    | Some cd =>
        {| courses := (courses st ++ [cd])%list; skippedRows := skippedRows st;
           invalidRows := invalidRows st;
           currentCourseInfo :=
             if JS.truthy (cd_subject cd) && JS.truthy (cd_course cd) then
               {| ci_subject := cd_subject cd; ci_course := cd_course cd;
                  ci_section := cd_section cd; ci_title := cd_title cd |}
             else info;
           parserCalls := calls |}
    | None =>
        {| courses := courses st; skippedRows := skippedRows st;
           invalidRows := S (invalidRows st);
           currentCourseInfo := info; parserCalls := calls |}
    end.

(** The state of the loop after the rows [rows] of [table]. *)
Definition scrapeLoop (table rows : list Row) (st : Scrape) : Scrape :=
  fold_left (scrapeStep table) rows st.

(** The state at the end of the loop of [scrapeCourseData]: the leading
    header rows are passed over, the others are visited in order. *)
Definition scrapeRows (table : list Row) : Scrape :=
  scrapeLoop table (drop (countHeaderRows table) table) scrapeStart.

Inductive Outcome :=
| Returned (result : list CourseData)
| Thrown (message : string).

Definition DQUOTE : string := String "034"%char EmptyString.

Definition natToString (n : nat) : string :=
  JS.numberToString (Some (Z.of_nat n)).

(** [found] is the result of [findDataTable()]. *)
Definition scrapeCourseData (found : option (list Row)) : Outcome :=
  match found with
  | None => Thrown "Could not find course schedule table on this page."
  | Some table =>
      let st := scrapeRows table in
      if (length (courses st) =? 0)%nat then
        Thrown ("No course data found in the table. Found "
                ++ natToString (length table) ++ " total rows, "
                ++ natToString (countHeaderRows table) ++ " header rows, "
                ++ natToString (skippedRows st) ++ " empty rows, "
                ++ natToString (invalidRows st) ++ " invalid data rows. "
                ++ "Please ensure you are on the " ++ DQUOTE ++ "By Course View"
                ++ DQUOTE ++ " page with registered courses visible.")
      else Returned (courses st)
  end.

(** ** Notions used to state the properties *)

(** *** Strings *)

(** The number of occurrences of a character in a string. *)
Fixpoint countChar (c : ascii) (s : string) : nat :=
  match s with
  | EmptyString => O
  | String a s' => if Ascii.eqb a c then S (countChar c s') else countChar c s'
  end.

(** No white space occurs in [s]. *)
Fixpoint noWhite (s : string) : bool :=
  match s with
  | EmptyString => true
  | String c s' => negb (JS.isWhiteSpace c) && noWhite s'
  end.

(** No line feed occurs in [s]. *)
Fixpoint noLF (s : string) : bool :=
  match s with
  | EmptyString => true
  | String c s' => negb (Ascii.eqb c LF) && noLF s'
  end.

(** [s] consists of letters only. *)
Definition allLetters (s : string) : bool :=
  forallb JS.isLetter (list_ascii_of_string s).

(** The first character of [n], if any, is not white space. *)
Definition startsNonWhite (n : string) : bool :=
  match n with
  | EmptyString => true
  | String c _ => negb (JS.isWhiteSpace c)
  end.

(** The last character of [n], if any, is not white space. *)
Fixpoint endsNonWhite (n : string) : bool :=
  match n with
  | EmptyString => true
  | String c EmptyString => negb (JS.isWhiteSpace c)
  | String _ n' => endsNonWhite n'
  end.

(** The concatenation of the given texts. *)
Definition concatStrings (l : list string) : string :=
  fold_right append EmptyString l.

(** *** Dates, times and days *)

(** A date in the proleptic Gregorian calendar. *)
Definition daysInMonth (y m : Z) : Z :=
  match m with
  | 2 => if JSDate.DaysInYear y =? 366 then 29 else 28
  | 4 | 6 | 9 | 11 => 30
  | _ => 31
  end.

Definition calendarValid (y m d : Z) : bool :=
  (1 <=? m) && (m <=? 12) && (1 <=? d) && (d <=? daysInMonth y m).

(** The day field of a Banner date: one or two digits. *)
Definition isDayField (s : string) : bool :=
  JS.allDigits s && ((String.length s =? 1)%nat || (String.length s =? 2)%nat).

(** The year field of a Banner date: four digits. *)
Definition isYearField (s : string) : bool :=
  JS.allDigits s && (String.length s =? 4)%nat.

(** One side of a time range: three or four digits. *)
Definition isSide (s : string) : bool :=
  JS.allDigits s && ((String.length s =? 3)%nat || (String.length s =? 4)%nat).

(** The reading of one side in the words of the specification: the last
    two characters are the minutes, what precedes them is the hours, padded
    with zeros to two digits. *)
Definition hoursMinutes (side : string) : string :=
  let n := String.length side in
  JS.padStart 2 "0" (String.substring 0 (n - 2) side) ++ ":"
  ++ String.substring (n - 2) 2 side.

(** The weekday codes, Monday first. *)
Definition weekdayCodes : list string :=
  ["MO"; "TU"; "WE"; "TH"; "FR"; "SA"; "SU"].

(** A weekday mask: seven characters, each a weekday letter or the
    placeholder. *)
Definition isMask (s : string) : bool :=
  (String.length s =? 7)%nat
  && forallb (Regex.oneOf "MTWRFSU-") (list_ascii_of_string s).

(** *** Escaping *)

(** The escape of one character, and the escape of a text in one pass. *)
Definition escapeChar (c : ascii) : string :=
  if Ascii.eqb c "\" then "\\"
  else if Ascii.eqb c ";" then "\;"
  else if Ascii.eqb c "," then "\,"
  else if Ascii.eqb c LF then "\n"
  else String c EmptyString.

Fixpoint escapeOnePass (s : string) : string :=
  match s with
  | EmptyString => EmptyString
  | String c s' => escapeChar c ++ escapeOnePass s'
  end.

(** The inverse of [escapeICSText]: a backslash announces an escaped
    character, [n] after it standing for a line feed. *)
Fixpoint unescapeICSText (s : string) : string :=
  match s with
  | EmptyString => EmptyString
  | String c s' =>
      if Ascii.eqb c "\" then
        match s' with
        | String d s'' =>
            String (if Ascii.eqb d "n" then LF else d) (unescapeICSText s'')
        | EmptyString => String c EmptyString
        end
      else String c (unescapeICSText s')
  end.

(** *** Calendar documents *)

Definition consHead (c : ascii) (l : list string) : list string :=
  match l with
  | h :: t => String c h :: t
  | [] => [String c EmptyString]
  end.

(** The lines of a document: the pieces between CRLF sequences. *)
Fixpoint lines (s : string) : list string :=
  match s with
  | EmptyString => [EmptyString]
  | String c s' =>
      match s' with
      | String d s'' =>
          if Ascii.eqb c CR && Ascii.eqb d LF then EmptyString :: lines s''
          else consHead c (lines s')
      | EmptyString => [String c EmptyString]
      end
  end.

(** The number of lines of [doc] that read [l]. *)
Definition countLines (l doc : string) : nat :=
  length (List.filter (String.eqb l) (lines doc)).

(** The document made of the given lines, each closed by CRLF. *)
Fixpoint unlines (ls : list string) : string :=
  match ls with
  | [] => EmptyString
  | l :: ls' => l ++ CRLF ++ unlines ls'
  end.

(** A VEVENT block: text between the opening and the closing line. *)
Definition beginEvent : string := "BEGIN:VEVENT" ++ CRLF.
Definition endEvent : string := "END:VEVENT" ++ CRLF.

Definition isEventBlock (event : string) : Prop :=
  exists body, event = beginEvent ++ body ++ endEvent.

(** A text that opens a VEVENT block. *)
Definition startsBegin (e : string) : Prop := exists r, e = beginEvent ++ r.

(** The start date and the time range of the session both decode. *)
Definition decodes (legacyParse : string -> option Z) (course : CourseData)
    : bool :=
  match parseBannerDate legacyParse (cd_start course),
        parseBannerTime (cd_time course) with
  | Some _, Some _ => true
  | _, _ => false
  end.

(** The session of the round-trip example: a lecture on Tuesdays and
    Thursdays, 12:30 to 14:20, from 6 May to 9 August 2024. *)
Definition lectureSession (subject course section title room : string)
    : CourseData :=
  {| cd_subject := subject; cd_course := course; cd_section := section;
     cd_title := title; cd_type := "LECTURE"; cd_days := "-T-R---";
     cd_time := "1230-1420"; cd_start := "06-MAY-2024";
     cd_end := "09-AUG-2024"; cd_room := room |}.

(** *** Column resolution *)

(** The test of the column resolver in the words of the specification:
    the text of the cell contains the field name, case ignored. *)
Definition containsIgnoringCase (cell name : string) : bool :=
  JS.includes (JS.toUpperCase (JS.trim cell)) (JS.toUpperCase name).

(** The index of the first cell of a header row that contains the name. *)
Definition firstMatching (name : string) (cells : list string) : option nat :=
  fst <$> list_find (fun cell => containsIgnoringCase cell name = true) cells.

(** The header rows met from the top before the first row without a
    header cell. *)
Definition leadingHeaderRows (table : list Row) : list Row :=
  take (countHeaderRows table) table.

(** The column resolver in the words of the specification: the first row
    with header cells is checked first; failing that, the leading header
    rows are checked from the top; failing that, the field is not found. *)
Definition resolveColumn (table : list Row) (name : string) : Z :=
  match List.find hasTh table ≫= (fun row => firstMatching name (ths row)) with
  | Some i => Z.of_nat i
  | None =>
      match head (omap (fun row => firstMatching name (ths row))
                    (leadingHeaderRows table)) with
      | Some i => Z.of_nat i
      | None => -1
      end
  end.

(** *** Aggregation *)

(** A row too short to be parsed. *)
Definition isShort (row : Row) : bool := (length (tds row) <? 3)%nat.

(** The calls of the row parser that returned no record. *)
Definition noRecord (call : Row * CourseInfo * option CourseData) : bool :=
  match call with (_, _, None) => true | _ => false end.

(** The parts of a recorded call of the row parser. *)
Definition callRow (call : Row * CourseInfo * option CourseData) : Row :=
  fst (fst call).
Definition callInfo (call : Row * CourseInfo * option CourseData) : CourseInfo :=
  snd (fst call).
Definition callResult (call : Row * CourseInfo * option CourseData)
    : option CourseData := snd call.

(** What holds of the loop variables of the aggregator whatever the rows
    visited so far: the invalid rows are the calls that returned no record,
    the sessions are the records returned, and every call was made on a row
    of three cells or more. *)
Definition scrapeInvariant (table : list Row) (st : Scrape) : Prop :=
  invalidRows st = length (List.filter noRecord (parserCalls st))
  /\ courses st = omap callResult (parserCalls st)
  /\ Forall (fun call =>
               isShort (callRow call) = false
               /\ callResult call
                  = parseTableRow (callRow call) table (callInfo call))
       (parserCalls st).

(** *** A sample table *)

(** A table in the layout the script is written for: two header rows,
    a session row, a spacer row and a row without session data. *)
Definition sampleRow : Row :=
  {| ths := [];
     tds := ["10001"; "CPSC"; "1150"; "001"; "Registered"; "3.0";
             "Program Design"; "06-MAY-2024"; "09-AUG-2024"; "Lecture";
             "-T-R---"; "1230-1420"; "A123"; "Smith"] |}.

Definition sampleTable : list Row :=
  [ {| ths := ["CRN"; "Subj"; "Crse"; "Sec"; "Status"; "Cred"; "Title"; ""];
       tds := [] |};
    {| ths := [""; ""; ""; ""; ""; ""; ""; "Start"; "End"; "Type"; "Days";
               "Time"; "Room"; "Instructor"];
       tds := [] |};
    sampleRow;
    {| ths := []; tds := [""] |};
    {| ths := []; tds := ["Total"; ""; ""; "3.0"] |} ].

(** *** Notions of the further properties *)

(** [/^\d{2}:\d{2}$/]: the shape [HH:MM]. *)
Definition hhmmPattern : list Regex.item :=
  [Regex.Rep JS.isDigit 2 2; Regex.Rep (Regex.chr ":") 1 1;
   Regex.Rep JS.isDigit 2 2].

(** A DTSTART or DTEND line: the date, then the side of the time range
    padded to four digits, then the seconds. *)
Definition dateTimeLine (name date side : string) : string :=
  name ++ ";TZID=America/Los_Angeles:" ++ date ++ "T"
  ++ JS.padStart 4 "0" side ++ "00".

(** The recurrence line of a weekly session, when it has one. *)
Definition rruleLines (days : list string) (endDate : option string)
    : list string :=
  match endDate, days with
  | Some endDate, _ :: _ =>
      ["RRULE:FREQ=WEEKLY;BYDAY=" ++ JS.join "," days ++ ";UNTIL="
       ++ formatICSDateTimeUTC endDate "23:59"]
  | _, _ => []
  end.

(** The course label of [createEvent]. *)
Definition courseLabel (c : CourseData) : string :=
  let withSection code :=
    if JS.truthy (cd_section c) then code ++ " " ++ cd_section c else code in
  if JS.truthy (cd_subject c) && JS.truthy (cd_course c)
  then withSection (JS.trim (cd_subject c ++ " " ++ cd_course c))
  else if JS.truthy (cd_subject c) then withSection (cd_subject c)
  else if JS.truthy (cd_course c) then withSection (cd_course c)
  else JS.or (cd_title c) "Course".

(** The three text lines that close an event. *)
Definition textLines (c : CourseData) (summary : string) : list string :=
  ["SUMMARY:" ++ escapeICSText summary;
   "DESCRIPTION:" ++ escapeICSText (JS.or (cd_title c) (courseLabel c));
   "LOCATION:"
   ++ escapeICSText (if JS.truthy (cd_room c)
                     then "Langara College, Room " ++ cd_room c
                     else "Langara College");
   "END:VEVENT"].

(** No place of [x] can start an occurrence of a text that begins with
    the characters [c1], [c2], [c3]. *)
Fixpoint noTriple (c1 c2 c3 : ascii) (x : string) : bool :=
  match x with
  | EmptyString => true
  | String a x' =>
      negb (Ascii.eqb c1 a
            && match x' with
               | EmptyString => true
               | String b x'' =>
                   Ascii.eqb c2 b
                   && match x'' with
                      | EmptyString => true
                      | String d _ => Ascii.eqb c3 d
                      end
               end)
      && noTriple c1 c2 c3 x'
  end.

(** The day after a date of the calendar. *)
Definition nextDay (y m d : Z) : Z * Z * Z :=
  if d <? daysInMonth y m then (y, m, d + 1)
  else if m <? 12 then (y, m + 1, 1)
  else (y + 1, 1, 1).

(** A row that gives a session: three cells or more, a type, and a start
    date or a time range. *)
Definition hasSession (table : list Row) (row : Row) : bool :=
  negb (isShort row) && JS.truthy (rowType (tds row) table)
  && (JS.truthy (fst (rowStartEnd (tds row) table))
      || JS.truthy (rowTime (tds row) table)).

(** The fields of a record that do not name the course:
    type, days, time, start date, end date and room. *)
Definition ownFields (r : CourseData)
    : string * string * string * string * string * string :=
  (cd_type r, cd_days r, cd_time r, cd_start r, cd_end r, cd_room r).

(** The same fields as [parseTableRow] reads them from the cells of a row. *)
Definition rowFields (table : list Row) (row : Row)
    : string * string * string * string * string * string :=
  let cells := tds row in
  (JS.trim (JS.toUpperCase (rowType cells table)), rowDays cells table,
   rowTime cells table, fst (rowStartEnd cells table),
   snd (rowStartEnd cells table),
   getCellText cells (getColumnIndex table "Room") 12).

(** A row that names no course: it is short, or the cells that would name
    the subject and the course are empty. *)
Definition continuation (table : list Row) (row : Row) : bool :=
  let cells := tds row in
  isShort row
  || negb (JS.truthy (cellOrEmpty cells 1) && JS.truthy (cellOrEmpty cells 2))
     && negb (JS.truthy (getCellText cells (getColumnIndex table "Subj") 1))
     && negb (JS.truthy (getCellText cells (getColumnIndex table "Crse") 2)).

(** The context that [scrapeCourseData] gives to the row parser on [row]. *)
Definition rowContext (st : Scrape) (row : Row) : CourseInfo :=
  let cells := tds row in
  if JS.truthy (cellOrEmpty cells 1) && JS.truthy (cellOrEmpty cells 2) then
    {| ci_subject := cellOrEmpty cells 1; ci_course := cellOrEmpty cells 2;
       ci_section := cellOrEmpty cells 3; ci_title := cellOrEmpty cells 6 |}
  else currentCourseInfo st.

(** A character that the escaping leaves as it is. *)
Definition isPlain (c : ascii) : bool :=
  negb (Ascii.eqb c "\" || Ascii.eqb c ";" || Ascii.eqb c "," || Ascii.eqb c LF).

Definition examSession : CourseData :=
  {| cd_subject := "CPSC"; cd_course := "1150"; cd_section := "001";
     cd_title := "Program Design"; cd_type := "EXAM"; cd_days := "";
     cd_time := "900-1200"; cd_start := "12-AUG-2024";
     cd_end := "13-AUG-2024"; cd_room := "A123" |}.

Definition labRow : Row :=
  {| ths := [];
     tds := [""; ""; ""; ""; ""; ""; ""; "06-MAY-2024"; "09-AUG-2024"; "Lab";
             "---R---"; "1430-1620"; "B020"; "Smith"] |}.

Definition noEngine : string -> option Z := fun _ => None.

(** The text of an [&nbsp;] cell, and a spacer row of such cells. *)
Definition NBSP : string := String "160"%char EmptyString.

Definition spacerRow : Row :=
  {| ths := []; tds := [NBSP; NBSP; NBSP; NBSP] |}.

(** * Properties *)

(** ** Strings *)

Lemma append_nil_r (s : string) : s ++ "" = s.
Proof. induction s; simpl; congruence. Qed.

Lemma append_assoc (a b c : string) : (a ++ b) ++ c = a ++ (b ++ c).
Proof. induction a; simpl; congruence. Qed.

Lemma truthy_false (s : string) : JS.truthy s = false <-> s = "".
Proof. destruct s; simpl; split; congruence. Qed.

Lemma truthy_true (s : string) : JS.truthy s = true <-> s <> "".
Proof. destruct s; simpl; split; congruence. Qed.

(** ** The days decoder *)

(** The loop of [parseBannerDays] keeps, in the order of [DAY_MAP], the
    code of every letter that occurs in the trimmed, upper-cased input. *)
Lemma parseBannerDays_codes (daysStr : string) :
  parseBannerDays daysStr =
  omap (fun '(letter, code) =>
          if JS.includes (JS.toUpperCase (JS.trim daysStr)) letter
          then Some code else None) DAY_MAP.
Proof.
  unfold parseBannerDays.
  destruct (JS.truthy daysStr) eqn:E; simpl negb; cbv iota.
  - generalize (JS.toUpperCase (JS.trim daysStr)); intro t.
    unfold positions, DAY_MAP; cbn [fold_left omap list_omap].
    unfold daysStep; cbn [lookupKey DAY_MAP String.eqb Ascii.eqb Bool.eqb JS.truthy].
    destruct (JS.includes t "M"), (JS.includes t "T"), (JS.includes t "W"),
      (JS.includes t "R"), (JS.includes t "F"), (JS.includes t "S"),
      (JS.includes t "U"); reflexivity.
  - apply truthy_false in E; subst daysStr; reflexivity.
Qed.

Lemma omap_sublist_map {A B} (f : A -> option B) (g : A -> B) (l : list A) :
  (forall x y, f x = Some y -> y = g x) -> sublist (omap f l) (g <$> l).
Proof.
  intros Hfg; induction l as [|x l IH]; cbn.
  - constructor.
  - destruct (f x) as [y|] eqn:E.
    + rewrite (Hfg _ _ E); now constructor.
    + now constructor.
Qed.

(** C9. Whatever the input string, the output of the days decoder is a
    subsequence of MO, TU, WE, TH, FR, SA, SU without repetition: every code
    occurs at most once and the order is Monday first. *)
Theorem parseBannerDays_ordered_nodup (daysStr : string) :
  sublist (parseBannerDays daysStr) weekdayCodes
  /\ NoDup (parseBannerDays daysStr).
Proof.
  assert (Hsub : sublist (parseBannerDays daysStr) weekdayCodes).
  { rewrite parseBannerDays_codes.
    change weekdayCodes with (snd <$> DAY_MAP).
    apply omap_sublist_map.
    intros [letter code] y; simpl.
    destruct (JS.includes _ letter); congruence. }
  split; [exact Hsub|].
  refine (sublist_NoDup _ _ _ Hsub).
  unfold weekdayCodes.
  repeat (apply NoDup_cons_2;
          [ rewrite ?elem_of_cons, elem_of_nil; intuition discriminate |]).
  apply NoDup_nil_2.
Qed.

(** C3, as the claim states it, fails: [TBA] is not a weekday mask, and
    the decoder answers Tuesday for it. *)
Lemma parseBannerDays_invalid_nonempty :
  isMask "TBA" = false /\ parseBannerDays "TBA" = ["TU"].
Proof. split; reflexivity. Qed.

(** C3, amended. The days decoder returns the empty sequence for the empty
    string.  For any input it returns the codes of the letters among M, T,
    W, R, F, S, U that the input, trimmed and upper-cased, contains, Monday
    first, whether or not the input is a mask of seven characters; it
    returns the empty sequence exactly when the input contains none of
    these letters. *)
Theorem parseBannerDays_letters :
  parseBannerDays "" = []
  /\ (forall daysStr : string,
        let has letter :=
          JS.includes (JS.toUpperCase (JS.trim daysStr)) letter in
        parseBannerDays daysStr
        = ((if has "M" then ["MO"] else []) ++ (if has "T" then ["TU"] else [])
           ++ (if has "W" then ["WE"] else []) ++ (if has "R" then ["TH"] else [])
           ++ (if has "F" then ["FR"] else []) ++ (if has "S" then ["SA"] else [])
           ++ (if has "U" then ["SU"] else []))%list)
  /\ (forall daysStr : string,
        parseBannerDays daysStr = [] <->
        Forall (fun letter =>
                  JS.includes (JS.toUpperCase (JS.trim daysStr)) letter = false)
          positions).
Proof.
  split; [reflexivity|]. split.
  - intros daysStr has; subst has; cbv beta.
    rewrite parseBannerDays_codes.
    generalize (JS.toUpperCase (JS.trim daysStr)); intro t.
    unfold DAY_MAP; cbn [omap list_omap].
    destruct (JS.includes t "M"), (JS.includes t "T"), (JS.includes t "W"),
      (JS.includes t "R"), (JS.includes t "F"), (JS.includes t "S"),
      (JS.includes t "U"); reflexivity.
  - intros daysStr; rewrite parseBannerDays_codes.
    generalize (JS.toUpperCase (JS.trim daysStr)); intro t.
    unfold positions, DAY_MAP; cbn [omap list_omap].
    split.
    + intros H.
      destruct (JS.includes t "M") eqn:E1; [discriminate H|].
      destruct (JS.includes t "T") eqn:E2; [discriminate H|].
      destruct (JS.includes t "W") eqn:E3; [discriminate H|].
      destruct (JS.includes t "R") eqn:E4; [discriminate H|].
      destruct (JS.includes t "F") eqn:E5; [discriminate H|].
      destruct (JS.includes t "S") eqn:E6; [discriminate H|].
      destruct (JS.includes t "U") eqn:E7; [discriminate H|].
      repeat constructor; assumption.
    + intros H.
      repeat match goal with
             | H : Forall _ (_ :: _) |- _ =>
                 apply Forall_cons_1 in H; destruct H as [? H]
             end.
      repeat match goal with E : JS.includes t _ = false |- _ => rewrite E; clear E end.
      reflexivity.
Qed.

(** ** Text escaping *)

Lemma replaceAllChar_app (c : ascii) (rep a b : string) :
  JS.replaceAllChar c rep (a ++ b)
  = JS.replaceAllChar c rep a ++ JS.replaceAllChar c rep b.
Proof.
  induction a as [|x a IH]; simpl; [reflexivity|].
  destruct (Ascii.eqb x c); rewrite IH; simpl;
    [now rewrite append_assoc | reflexivity].
Qed.

(** The four successive replacements amount to one pass over the text:
    the backslashes they insert are never escaped again, because the
    backslashes of the text are doubled first. *)
Lemma escapeICSText_onePass (text : string) :
  escapeICSText text = escapeOnePass text.
Proof.
  unfold escapeICSText.
  destruct text as [|c0 text0]; [reflexivity|].
  simpl negb; cbv iota.
  generalize (String c0 text0); clear c0 text0; intro text.
  induction text as [|c text IH]; [reflexivity|].
  cbn [escapeOnePass]; rewrite <- IH; clear IH.
  cbn [JS.replaceAllChar]; unfold escapeChar.
  destruct (Ascii.eqb c "\") eqn:E1.
  { rewrite !replaceAllChar_app; reflexivity. }
  cbn [JS.replaceAllChar].
  destruct (Ascii.eqb c ";") eqn:E2.
  { rewrite !replaceAllChar_app; reflexivity. }
  cbn [JS.replaceAllChar].
  destruct (Ascii.eqb c ",") eqn:E3.
  { rewrite !replaceAllChar_app; reflexivity. }
  cbn [JS.replaceAllChar].
  destruct (Ascii.eqb c LF) eqn:E4; reflexivity.
Qed.

Lemma unescape_escapeOnePass (text : string) :
  unescapeICSText (escapeOnePass text) = text.
Proof.
  induction text as [|c text IH]; [reflexivity|].
  cbn [escapeOnePass]; unfold escapeChar.
  destruct (Ascii.eqb c "\") eqn:E1.
  { apply Ascii.eqb_eq in E1; subst c; simpl; now rewrite IH. }
  destruct (Ascii.eqb c ";") eqn:E2.
  { apply Ascii.eqb_eq in E2; subst c; simpl; now rewrite IH. }
  destruct (Ascii.eqb c ",") eqn:E3.
  { apply Ascii.eqb_eq in E3; subst c; simpl; now rewrite IH. }
  destruct (Ascii.eqb c LF) eqn:E4.
  { apply Ascii.eqb_eq in E4; subst c; simpl; now rewrite IH. }
  cbn [append unescapeICSText]; rewrite E1, IH; reflexivity.
Qed.

(** C10. The escaping of calendar text can be undone: [unescapeICSText]
    recovers every text from its escaped form, so that two texts with the
    same escaped form are equal. *)
Theorem escapeICSText_roundtrip :
  (forall text : string, unescapeICSText (escapeICSText text) = text)
  /\ (forall a b : string, escapeICSText a = escapeICSText b -> a = b).
Proof.
  assert (R : forall text, unescapeICSText (escapeICSText text) = text).
  { intros text; rewrite escapeICSText_onePass; apply unescape_escapeOnePass. }
  split; [exact R|].
  intros a b E.
  rewrite <- (R a), <- (R b), E; reflexivity.
Qed.

(** ** Splitting and trimming *)

Lemma split_length (c : ascii) (s : string) :
  length (JS.split c s) = S (countChar c s).
Proof.
  induction s as [|a s IH]; simpl; [reflexivity|].
  destruct (Ascii.eqb a c); simpl; [now rewrite IH|].
  destruct (JS.split c s); simpl in *; congruence.
Qed.

Lemma split_join (c : ascii) (s : string) :
  String.concat (String c "") (JS.split c s) = s.
Proof.
  induction s as [|a s IH]; [reflexivity|].
  cbn [JS.split].
  pose proof (split_length c s) as L.
  destruct (JS.split c s) as [|h t]; [discriminate L|].
  destruct (Ascii.eqb a c) eqn:E.
  - apply Ascii.eqb_eq in E; subst a.
    change (String.concat (String c "") ("" :: h :: t))
      with (String c (String.concat (String c "") (h :: t))).
    now rewrite IH.
  - destruct t as [|h2 t].
    + simpl in *; now rewrite IH.
    + change (String.concat (String c "") (String a h :: h2 :: t))
        with (String a (String.concat (String c "") (h :: h2 :: t))).
      now rewrite IH.
Qed.

Lemma split_none (c : ascii) (s : string) :
  countChar c s = O -> JS.split c s = [s].
Proof.
  induction s as [|a s IH]; simpl; [reflexivity|].
  destruct (Ascii.eqb a c); [discriminate|].
  intros H; now rewrite (IH H).
Qed.

Lemma split_app (c : ascii) (a b : string) :
  countChar c a = O -> JS.split c (a ++ String c b) = a :: JS.split c b.
Proof.
  induction a as [|x a IH]; simpl.
  - now rewrite Ascii.eqb_refl.
  - destruct (Ascii.eqb x c); [discriminate|].
    intros H; now rewrite (IH H).
Qed.

Lemma countChar_app (c : ascii) (a b : string) :
  countChar c (a ++ b) = (countChar c a + countChar c b)%nat.
Proof.
  induction a as [|x a IH]; simpl; [reflexivity|].
  destruct (Ascii.eqb x c); simpl; now rewrite IH.
Qed.

Lemma allWhite_countChar (c : ascii) (s : string) :
  JS.isWhiteSpace c = false -> JS.allWhite s = true -> countChar c s = O.
Proof.
  intros Hc; induction s as [|a s IH]; simpl; [reflexivity|].
  intros H; apply andb_true_iff in H as [Ha Hs].
  destruct (Ascii.eqb a c) eqn:E; [|now apply IH].
  apply Ascii.eqb_eq in E; subst a; congruence.
Qed.

Lemma countChar_trimStart (c : ascii) (s : string) :
  JS.isWhiteSpace c = false -> countChar c (JS.trimStart s) = countChar c s.
Proof.
  intros Hc; induction s as [|a s IH]; simpl; [reflexivity|].
  destruct (JS.isWhiteSpace a) eqn:Ea; simpl; [|reflexivity].
  destruct (Ascii.eqb a c) eqn:E; [|exact IH].
  apply Ascii.eqb_eq in E; subst a; congruence.
Qed.

Lemma countChar_trimEnd (c : ascii) (s : string) :
  JS.isWhiteSpace c = false -> countChar c (JS.trimEnd s) = countChar c s.
Proof.
  intros Hc; induction s as [|a s IH]; [reflexivity|].
  cbn [JS.trimEnd].
  destruct (JS.allWhite (String a s)) eqn:W.
  - symmetry; now apply allWhite_countChar.
  - simpl; now rewrite IH.
Qed.

Lemma countChar_trim (c : ascii) (s : string) :
  JS.isWhiteSpace c = false -> countChar c (JS.trim s) = countChar c s.
Proof.
  intros Hc; unfold JS.trim.
  now rewrite countChar_trimEnd, countChar_trimStart.
Qed.

Lemma noWhite_app (a b : string) :
  noWhite (a ++ b) = noWhite a && noWhite b.
Proof.
  induction a as [|x a IH]; simpl; [reflexivity|].
  now rewrite IH, andb_assoc.
Qed.

Lemma noWhite_allWhite (c : ascii) (s : string) :
  noWhite (String c s) = true -> JS.allWhite (String c s) = false.
Proof.
  simpl; intros H; apply andb_true_iff in H as [H _].
  now destruct (JS.isWhiteSpace c).
Qed.

Lemma noWhite_trim (s : string) : noWhite s = true -> JS.trim s = s.
Proof.
  intros H; unfold JS.trim.
  assert (S1 : JS.trimStart s = s).
  { destruct s as [|c s]; [reflexivity|].
    simpl in *. now destruct (JS.isWhiteSpace c). }
  rewrite S1; clear S1.
  induction s as [|c s IH]; [reflexivity|].
  cbn [JS.trimEnd]; rewrite (noWhite_allWhite _ _ H).
  simpl in H; apply andb_true_iff in H as [_ H].
  now rewrite (IH H).
Qed.

Lemma isDigit_not_white (c : ascii) :
  JS.isDigit c = true -> JS.isWhiteSpace c = false.
Proof.
  unfold JS.isDigit, JS.isWhiteSpace; compare_codes.
Qed.

Lemma allDigits_cons (c : ascii) (s : string) :
  JS.allDigits (String c s) = JS.isDigit c && JS.allDigits s.
Proof. reflexivity. Qed.

Lemma allDigits_noWhite (s : string) :
  JS.allDigits s = true -> noWhite s = true.
Proof.
  induction s as [|c s IH]; [reflexivity|].
  rewrite allDigits_cons; intros H; apply andb_true_iff in H as [Hc Hs].
  simpl; now rewrite (isDigit_not_white _ Hc), (IH Hs).
Qed.

Lemma isDigit_not_char (c x : ascii) :
  JS.isDigit x = false -> JS.isDigit c = true -> Ascii.eqb c x = false.
Proof.
  intros Hx Hc; destruct (Ascii.eqb c x) eqn:E; [|reflexivity].
  apply Ascii.eqb_eq in E; subst; congruence.
Qed.

Lemma allDigits_countChar (x : ascii) (s : string) :
  JS.isDigit x = false -> JS.allDigits s = true -> countChar x s = O.
Proof.
  intros Hx; induction s as [|c s IH]; [reflexivity|].
  rewrite allDigits_cons; intros H; apply andb_true_iff in H as [Hc Hs].
  simpl; now rewrite (isDigit_not_char _ _ Hx Hc), (IH Hs).
Qed.

(** ** The time decoder *)

Lemma isSide_digits (a : string) : isSide a = true -> JS.allDigits a = true.
Proof. unfold isSide; intros H; now apply andb_true_iff in H as [H _]. Qed.

(** On a side of three or four digits, padding to four characters and
    cutting before the last two is the reading of the specification. *)
Lemma formatTime_side (a : string) :
  isSide a = true -> formatTime a = hoursMinutes a.
Proof.
  unfold isSide; intros H; apply andb_true_iff in H as [_ H].
  destruct a as [|c1 [|c2 [|c3 [|c4 [|c5 r]]]]];
    try discriminate H; reflexivity.
Qed.

Lemma parseBannerTime_two_sides (timeStr a b : string) :
  JS.split "-" timeStr = [a; b] -> isSide a = true -> isSide b = true ->
  parseBannerTime timeStr
  = Some {| td_start := hoursMinutes a; td_end := hoursMinutes b |}.
Proof.
  intros Hsplit Ha Hb.
  pose proof (isSide_digits _ Ha) as Da.
  pose proof (isSide_digits _ Hb) as Db.
  assert (Hs : timeStr = a ++ "-" ++ b).
  { rewrite <- (split_join "-" timeStr), Hsplit; reflexivity. }
  assert (Ht : JS.trim timeStr = timeStr).
  { apply noWhite_trim; subst timeStr.
    rewrite !noWhite_app, (allDigits_noWhite _ Da), (allDigits_noWhite _ Db).
    reflexivity. }
  unfold parseBannerTime.
  replace (JS.truthy timeStr) with true
    by (subst timeStr; now destruct a).
  cbn [negb]; cbv iota.
  rewrite Ht, Hsplit.
  rewrite (noWhite_trim a (allDigits_noWhite _ Da)).
  rewrite (noWhite_trim b (allDigits_noWhite _ Db)).
  now rewrite (formatTime_side _ Ha), (formatTime_side _ Hb).
Qed.

Lemma parseBannerTime_not_two_parts (timeStr : string) :
  length (JS.split "-" timeStr) <> 2%nat -> parseBannerTime timeStr = None.
Proof.
  intros H; unfold parseBannerTime.
  destruct (JS.truthy timeStr); [|reflexivity].
  cbn [negb]; cbv iota.
  assert (L : length (JS.split "-" (JS.trim timeStr)) <> 2%nat).
  { rewrite split_length, countChar_trim by reflexivity.
    now rewrite <- split_length. }
  destruct (JS.split "-" (JS.trim timeStr)) as [|p0 [|p1 [|p2 l]]];
    try reflexivity.
  now contradiction L.
Qed.

(** C7. On an input that splits at the hyphen into two sides of three or
    four digits, the time decoder returns for each side the hours (what
    precedes the last two characters, padded to two digits) and the minutes
    (the last two characters); on an input that does not split into exactly
    two parts it returns the invalid value. *)
Theorem parseBannerTime_decodes :
  (forall timeStr a b : string,
     JS.split "-" timeStr = [a; b] -> isSide a = true -> isSide b = true ->
     parseBannerTime timeStr
     = Some {| td_start := hoursMinutes a; td_end := hoursMinutes b |})
  /\ (forall timeStr : string,
        length (JS.split "-" timeStr) <> 2%nat -> parseBannerTime timeStr = None)
  /\ parseBannerTime "1230-1420" = Some {| td_start := "12:30"; td_end := "14:20" |}
  /\ parseBannerTime "830-1025" = Some {| td_start := "08:30"; td_end := "10:25" |}.
Proof.
  split; [exact parseBannerTime_two_sides|].
  split; [exact parseBannerTime_not_two_parts|].
  split; reflexivity.
Qed.

(** ** Time values *)

(** [YearFromDay] is the year of the day: the year starts on or before the
    day and the next year starts after it. *)
Lemma YearFromDay_spec (d : Z) :
  JSDate.DayFromYear (JSDate.YearFromDay d) <= d
  < JSDate.DayFromYear (JSDate.YearFromDay d + 1).
Proof.
  unfold JSDate.YearFromDay.
  set (y := 1970 + d * 400 / 146097).
  assert (Hy : 146097 * (y - 1970) <= d * 400 < 146097 * (y - 1970) + 146097).
  { subst y. Z.div_mod_to_equations. lia. }
  clearbody y.
  destruct (Z.ltb_spec d (JSDate.DayFromYear y)) as [L|L].
  - replace (y - 1 + 1) with y by lia. split; [|exact L].
    revert L. unfold JSDate.DayFromYear. Z.div_mod_to_equations. lia.
  - destruct (Z.leb_spec (JSDate.DayFromYear (y + 1)) d) as [M|M].
    + split; [exact M|].
      revert M. unfold JSDate.DayFromYear. Z.div_mod_to_equations. lia.
    + split; assumption.
Qed.

Lemma DayFromYear_next (y : Z) :
  JSDate.DayFromYear (y + 1) = JSDate.DayFromYear y + JSDate.DaysInYear y.
Proof.
  unfold JSDate.DayFromYear, JSDate.DaysInYear.
  repeat match goal with
         | |- context [?a =? ?b] => destruct (Z.eqb_spec a b)
         end; cbn [negb]; Z.div_mod_to_equations; lia.
Qed.

Lemma DayFromYear_mono (a b : Z) :
  a <= b -> JSDate.DayFromYear a <= JSDate.DayFromYear b.
Proof.
  intros H; unfold JSDate.DayFromYear. Z.div_mod_to_equations; lia.
Qed.

Lemma YearFromDay_unique (y d : Z) :
  JSDate.DayFromYear y <= d < JSDate.DayFromYear (y + 1) ->
  JSDate.YearFromDay d = y.
Proof.
  intros H; pose proof (YearFromDay_spec d) as S.
  set (Y := JSDate.YearFromDay d) in *; clearbody Y.
  destruct (Z.lt_trichotomy Y y) as [L|[E|G]]; [|exact E|].
  - pose proof (DayFromYear_mono (Y + 1) y ltac:(lia)). lia.
  - pose proof (DayFromYear_mono (y + 1) Y ltac:(lia)). lia.
Qed.

Lemma month_cases (m : Z) :
  0 <= m <= 11 ->
  m = 0 \/ m = 1 \/ m = 2 \/ m = 3 \/ m = 4 \/ m = 5 \/ m = 6 \/ m = 7
  \/ m = 8 \/ m = 9 \/ m = 10 \/ m = 11.
Proof. lia. Qed.

Lemma monthStart_next (y m : Z) :
  0 <= m <= 11 ->
  let leap := if JSDate.DaysInYear y =? 366 then 1 else 0 in
  JSDate.monthStart leap (m + 1)
  = JSDate.monthStart leap m + daysInMonth y (m + 1)
  /\ 0 <= JSDate.monthStart leap m
  /\ JSDate.monthStart leap (m + 1) <= JSDate.DaysInYear y.
Proof.
  intros Hm; cbv zeta.
  assert (L : JSDate.DaysInYear y = 365 \/ JSDate.DaysInYear y = 366).
  { unfold JSDate.DaysInYear.
    destruct (y mod 4 =? 0), (y mod 100 =? 0), (y mod 400 =? 0); cbn; lia. }
  unfold daysInMonth.
  destruct (month_cases m Hm) as [-> | [-> | [-> | [-> | [-> | [-> | [-> | [-> | [-> | [-> | [-> | ->]]]]]]]]]]];
    destruct L as [-> | ->]; vm_compute; repeat split; easy.
Qed.

Lemma monthFromDay (leap dw m : Z) :
  0 <= m <= 11 ->
  JSDate.monthStart leap m <= dw < JSDate.monthStart leap (m + 1) ->
  0 <= leap <= 1 ->
  (if dw <? JSDate.monthStart leap 1 then 0
   else if dw <? JSDate.monthStart leap 2 then 1
   else if dw <? JSDate.monthStart leap 3 then 2
   else if dw <? JSDate.monthStart leap 4 then 3
   else if dw <? JSDate.monthStart leap 5 then 4
   else if dw <? JSDate.monthStart leap 6 then 5
   else if dw <? JSDate.monthStart leap 7 then 6
   else if dw <? JSDate.monthStart leap 8 then 7
   else if dw <? JSDate.monthStart leap 9 then 8
   else if dw <? JSDate.monthStart leap 10 then 9
   else if dw <? JSDate.monthStart leap 11 then 10
   else 11) = m.
Proof.
  intros Hm Hd Hl.
  cbn [JSDate.monthStart].
  destruct (month_cases m Hm) as [-> | [-> | [-> | [-> | [-> | [-> | [-> | [-> | [-> | [-> | [-> | ->]]]]]]]]]]];
    match type of Hd with
    | context [(?a + 1)] =>
        let v := eval vm_compute in (a + 1) in change (a + 1) with v in Hd
    end;
    cbn [JSDate.monthStart] in Hd;
    repeat match goal with
           | |- context [?a <? ?b] => destruct (Z.ltb_spec a b); try lia
           end.
Qed.

(** The calendar fields of the time value made from a date of the calendar
    are that date. *)
Lemma civil_roundtrip (y m d t : Z) :
  calendarValid y (m + 1) d = true -> 0 <= t < JSDate.msPerDay ->
  let tv := JSDate.MakeDate (JSDate.MakeDay y m d) t in
  JSDate.YearFromTime tv = y /\ JSDate.MonthFromTime tv = m
  /\ JSDate.DateFromTime tv = d.
Proof.
  unfold calendarValid; intros V Ht.
  repeat (apply andb_true_iff in V as [V ?]).
  assert (Hm : 0 <= m <= 11) by lia.
  assert (Hd : 1 <= d <= daysInMonth y (m + 1)) by lia.
  clear V H H0 H1.
  cbv zeta.
  set (tv := JSDate.MakeDate (JSDate.MakeDay y m d) t).
  destruct (monthStart_next y m Hm) as (N & P & Q); cbv zeta in *.
  set (leap := if JSDate.DaysInYear y =? 366 then 1 else 0) in *.
  assert (Hl : 0 <= leap <= 1) by (subst leap; destruct (_ =? _); lia).
  assert (Dy : JSDate.Day tv = JSDate.DayFromYear y + JSDate.monthStart leap m + d - 1).
  { subst tv; unfold JSDate.MakeDay.
    rewrite (Z.div_small m 12), (Z.mod_small m 12), Z.add_0_r by lia.
    fold leap. clearbody leap.
    unfold JSDate.Day, JSDate.MakeDate, JSDate.msPerDay in *.
    Z.div_mod_to_equations; lia. }
  assert (Yr : JSDate.YearFromTime tv = y).
  { unfold JSDate.YearFromTime; rewrite Dy.
    apply YearFromDay_unique; rewrite DayFromYear_next.
    clearbody leap; lia. }
  assert (Dw : JSDate.DayWithinYear tv = JSDate.monthStart leap m + d - 1).
  { unfold JSDate.DayWithinYear; rewrite Dy, Yr; lia. }
  assert (Il : JSDate.InLeapYear tv = leap).
  { unfold JSDate.InLeapYear; rewrite Yr; reflexivity. }
  assert (Mo : JSDate.MonthFromTime tv = m).
  { unfold JSDate.MonthFromTime; rewrite Dw, Il.
    apply monthFromDay; try assumption. clearbody leap; lia. }
  repeat split; try assumption.
  unfold JSDate.DateFromTime; rewrite Dw, Il, Mo; lia.
Qed.

(** ** The date decoder *)

Lemma forallb_countChar (P : ascii -> bool) (x : ascii) (s : string) :
  P x = false -> forallb P (list_ascii_of_string s) = true -> countChar x s = O.
Proof.
  intros Hx; induction s as [|c s IH]; [reflexivity|].
  cbn [list_ascii_of_string forallb countChar].
  intros H; apply andb_true_iff in H as [Hc Hs].
  destruct (Ascii.eqb c x) eqn:E; [|now apply IH].
  apply Ascii.eqb_eq in E; subst c; congruence.
Qed.

Lemma forallb_noWhite (P : ascii -> bool) (s : string) :
  (forall c, P c = true -> JS.isWhiteSpace c = false) ->
  forallb P (list_ascii_of_string s) = true -> noWhite s = true.
Proof.
  intros HP; induction s as [|c s IH]; [reflexivity|].
  cbn [list_ascii_of_string forallb noWhite].
  intros H; apply andb_true_iff in H as [Hc Hs].
  now rewrite (HP _ Hc), (IH Hs).
Qed.

Lemma isLetter_not_white (c : ascii) :
  JS.isLetter c = true -> JS.isWhiteSpace c = false.
Proof.
  unfold JS.isLetter, JS.isUpper, JS.isLower, JS.isWhiteSpace; compare_codes.
Qed.

Lemma digitVal_range (c : ascii) :
  JS.isDigit c = true -> 0 <= JS.digitVal c <= 9.
Proof.
  unfold JS.isDigit, JS.digitVal; intros H.
  apply andb_true_iff in H as [H1 H2]; apply N.leb_le in H1, H2; lia.
Qed.

Lemma monthStart_range (leap mn : Z) :
  0 <= leap <= 1 -> 0 <= mn <= 11 -> 0 <= JSDate.monthStart leap mn <= 335.
Proof.
  intros Hl Hm; unfold JSDate.monthStart.
  destruct mn as [|p|p]; try lia.
  do 4 (destruct p as [p|p|]; try lia).
Qed.

(** Between the years 0 and 9999 every date-only string of the accepted
    shape has a time value: the range of time values is not exceeded. *)
Lemma isoDate_in_range (y m d : Z) :
  0 <= y <= 9999 -> 1 <= m <= 12 -> 1 <= d <= 31 ->
  exists t, JSDate.TimeClip (JSDate.MakeDate (JSDate.MakeDay y (m - 1) d) 0) = Some t.
Proof.
  intros Hy Hm Hd.
  unfold JSDate.TimeClip.
  match goal with |- context [?a <? ?b] => destruct (Z.ltb_spec a b) as [L|L] end;
    [exfalso|eauto].
  revert L; unfold JSDate.MakeDate, JSDate.MakeDay, JSDate.msPerDay.
  rewrite (Z.div_small (m - 1) 12), (Z.mod_small (m - 1) 12) by lia.
  rewrite !Z.add_0_r.
  set (leap := if JSDate.DaysInYear y =? 366 then 1 else 0).
  assert (Hl : 0 <= leap <= 1) by (subst leap; destruct (_ =? _); lia).
  pose proof (monthStart_range leap (m - 1) Hl ltac:(lia)) as Hs.
  unfold JSDate.DayFromYear.
  Z.div_mod_to_equations; lia.
Qed.

Lemma isoDateOnly_shape (y1 y2 y3 y4 m1 m2 d1 d2 : ascii) :
  JS.isDigit y1 = true -> JS.isDigit y2 = true -> JS.isDigit y3 = true ->
  JS.isDigit y4 = true -> JS.isDigit m1 = true -> JS.isDigit m2 = true ->
  JS.isDigit d1 = true -> JS.isDigit d2 = true ->
  JSDate.isoDateOnly
    (String y1 (String y2 (String y3 (String y4 (String "-"
      (String m1 (String m2 (String "-" (String d1 (String d2 ""))))))))))
  = Some (JS.digitsValue 0 (String y1 (String y2 (String y3 (String y4 "")))),
          JS.digitsValue 0 (String m1 (String m2 "")),
          JS.digitsValue 0 (String d1 (String d2 ""))).
Proof.
  intros Y1 Y2 Y3 Y4 M1 M2 D1 D2.
  unfold JSDate.isoDateOnly, JS.allDigits.
  cbn [String.length String.substring Nat.eqb list_ascii_of_string forallb].
  rewrite Y1, Y2, Y3, Y4, M1, M2, D1, D2.
  reflexivity.
Qed.

Lemma monthValue (k mm : string) :
  lookupKey MONTH_MAP k = Some mm ->
  exists m1 m2,
    mm = String m1 (String m2 "") /\ JS.isDigit m1 = true /\ JS.isDigit m2 = true
    /\ 1 <= JS.digitsValue 0 mm <= 12.
Proof.
  unfold MONTH_MAP; cbn [lookupKey].
  repeat (destruct (String.eqb _ k);
          [ intros [= <-]; do 2 eexists;
            repeat split; try reflexivity; vm_compute; discriminate |]).
  discriminate.
Qed.

Lemma digitsValue_padded (dd : string) :
  isDayField dd = true ->
  exists d1 d2,
    JS.padStart 2 "0" dd = String d1 (String d2 "")
    /\ JS.isDigit d1 = true /\ JS.isDigit d2 = true
    /\ JS.digitsValue 0 (String d1 (String d2 "")) = JS.digitsValue 0 dd.
Proof.
  unfold isDayField; intros H; apply andb_true_iff in H as [D L].
  destruct dd as [|c1 [|c2 [|c3 r]]]; try discriminate L.
  - exists "0"%char, c1.
    rewrite allDigits_cons in D; apply andb_true_iff in D as [D1 _].
    repeat split; try reflexivity; assumption.
  - exists c1, c2.
    rewrite !allDigits_cons in D.
    apply andb_true_iff in D as [D1 D]; apply andb_true_iff in D as [D2 _].
    repeat split; try reflexivity; assumption.
Qed.

Lemma yearField_shape (yyyy : string) :
  isYearField yyyy = true ->
  exists y1 y2 y3 y4,
    yyyy = String y1 (String y2 (String y3 (String y4 "")))
    /\ JS.isDigit y1 = true /\ JS.isDigit y2 = true
    /\ JS.isDigit y3 = true /\ JS.isDigit y4 = true
    /\ 0 <= JS.digitsValue 0 yyyy <= 9999.
Proof.
  unfold isYearField; intros H; apply andb_true_iff in H as [D L].
  destruct yyyy as [|y1 [|y2 [|y3 [|y4 [|y5 r]]]]]; try discriminate L.
  rewrite !allDigits_cons in D.
  apply andb_true_iff in D as [D1 D]; apply andb_true_iff in D as [D2 D].
  apply andb_true_iff in D as [D3 D]; apply andb_true_iff in D as [D4 _].
  exists y1, y2, y3, y4; repeat split; try assumption;
    cbn [JS.digitsValue]; rewrite D1, D2, D3, D4;
    pose proof (digitVal_range _ D1); pose proof (digitVal_range _ D2);
    pose proof (digitVal_range _ D3); pose proof (digitVal_range _ D4); lia.
Qed.

Section DateDecoder.

Variable legacyParse : string -> option Z.

(** A date-only string built from a year field, a month of the table and
    a padded day field from 1 to 31 is taken by the ISO parser. *)
Lemma parse_fields (yyyy mm dd k : string) :
  isYearField yyyy = true -> lookupKey MONTH_MAP k = Some mm ->
  isDayField dd = true -> 1 <= JS.digitsValue 0 dd <= 31 ->
  exists t,
    JSDate.parse legacyParse (yyyy ++ "-" ++ mm ++ "-" ++ JS.padStart 2 "0" dd)
    = Some t.
Proof.
  intros Hy Hk Hd Hv.
  destruct (yearField_shape _ Hy) as (y1 & y2 & y3 & y4 & -> & Y1 & Y2 & Y3 & Y4 & Yr).
  destruct (monthValue _ _ Hk) as (m1 & m2 & -> & M1 & M2 & Mr).
  destruct (digitsValue_padded _ Hd) as (d1 & d2 & -> & D1 & D2 & Dv).
  rewrite <- Dv in Hv.
  cbn [append]; unfold JSDate.parse.
  rewrite isoDateOnly_shape by assumption.
  destruct Mr as [Ma Mb]; destruct Hv as [Da Db].
  apply Z.leb_le in Ma, Mb, Da, Db; rewrite Ma, Mb, Da, Db.
  cbn [andb]; apply Z.leb_le in Ma, Mb, Da, Db.
  apply isoDate_in_range; lia.
Qed.

Lemma banner_date_split (dd mon yyyy : string) :
  isDayField dd = true -> allLetters mon = true -> isYearField yyyy = true ->
  let dateStr := dd ++ "-" ++ mon ++ "-" ++ yyyy in
  JS.truthy dateStr = true /\ JS.trim dateStr = dateStr
  /\ JS.split "-" dateStr = [dd; mon; yyyy].
Proof.
  intros Hd Hm Hy dateStr.
  unfold isDayField in Hd; apply andb_true_iff in Hd as [Dd Ld].
  unfold isYearField in Hy; apply andb_true_iff in Hy as [Dy Ly].
  split; [|split].
  - subst dateStr; destruct dd; [discriminate Ld | reflexivity].
  - apply noWhite_trim; subst dateStr.
    rewrite !noWhite_app, (allDigits_noWhite _ Dd), (allDigits_noWhite _ Dy).
    rewrite (forallb_noWhite _ _ isLetter_not_white Hm); reflexivity.
  - subst dateStr.
    change ("-" ++ mon ++ "-" ++ yyyy) with (String "-" (mon ++ String "-" yyyy)).
    rewrite split_app by (now apply allDigits_countChar).
    rewrite split_app by (now apply (forallb_countChar JS.isLetter)).
    rewrite split_none by (now apply allDigits_countChar).
    reflexivity.
Qed.

(** On a string [D[D]-MMM-YYYY] whose month is one of the twelve, in any
    case, the date decoder returns the eight digits as soon as the day is
    between 1 and 31: the length of the month is not looked at. *)
Lemma parseBannerDate_fields (dd mon yyyy mm : string) :
  isDayField dd = true -> allLetters mon = true -> isYearField yyyy = true ->
  lookupKey MONTH_MAP (JS.toUpperCase mon) = Some mm ->
  1 <= JS.digitsValue 0 dd <= 31 ->
  parseBannerDate legacyParse (dd ++ "-" ++ mon ++ "-" ++ yyyy)
  = Some (yyyy ++ mm ++ JS.padStart 2 "0" dd).
Proof.
  intros Hd Hm Hy Hk Hv.
  destruct (banner_date_split dd mon yyyy Hd Hm Hy) as (T & R & S).
  unfold parseBannerDate; rewrite T, R, S, Hk.
  cbn [negb]; cbv iota.
  destruct (monthValue _ _ Hk) as (m1 & m2 & E & _).
  replace (JS.truthy mm) with true by now rewrite E.
  cbn [negb]; cbv iota.
  destruct (parse_fields yyyy mm dd _ Hy Hk Hd Hv) as [t ->].
  reflexivity.
Qed.

(** An abbreviation that is not in the table of months is refused. *)
Lemma parseBannerDate_unknown_month (dateStr p0 p1 p2 : string) :
  JS.split "-" (JS.trim dateStr) = [p0; p1; p2] ->
  lookupKey MONTH_MAP (JS.toUpperCase p1) = None ->
  parseBannerDate legacyParse dateStr = None.
Proof.
  intros S K; unfold parseBannerDate.
  destruct (JS.truthy dateStr); [|reflexivity].
  cbn [negb]; cbv iota; now rewrite S, K.
Qed.

(** A string that does not split into three parts at the hyphens is
    refused. *)
Lemma parseBannerDate_not_three_parts (dateStr : string) :
  length (JS.split "-" dateStr) <> 3%nat ->
  parseBannerDate legacyParse dateStr = None.
Proof.
  intros H; unfold parseBannerDate.
  destruct (JS.truthy dateStr); [|reflexivity].
  cbn [negb]; cbv iota.
  assert (L : length (JS.split "-" (JS.trim dateStr)) <> 3%nat).
  { rewrite split_length, countChar_trim by reflexivity.
    now rewrite <- split_length. }
  destruct (JS.split "-" (JS.trim dateStr)) as [|p0 [|p1 [|p2 [|p3 l]]]];
    try reflexivity.
  now contradiction L.
Qed.

(** A valid date of the calendar, written [D[D]-MMM-YYYY] with a known
    month, is decoded to its eight digits. *)
Lemma parseBannerDate_valid_date (dd mon yyyy mm : string) :
  isDayField dd = true -> allLetters mon = true -> isYearField yyyy = true ->
  lookupKey MONTH_MAP (JS.toUpperCase mon) = Some mm ->
  calendarValid (JS.digitsValue 0 yyyy) (JS.digitsValue 0 mm)
    (JS.digitsValue 0 dd) = true ->
  parseBannerDate legacyParse (dd ++ "-" ++ mon ++ "-" ++ yyyy)
  = Some (yyyy ++ mm ++ JS.padStart 2 "0" dd).
Proof.
  intros Hd Hm Hy Hk Hv.
  apply parseBannerDate_fields; try assumption.
  unfold calendarValid in Hv.
  repeat (apply andb_true_iff in Hv as [Hv ?]).
  assert (B : daysInMonth (JS.digitsValue 0 yyyy) (JS.digitsValue 0 mm) <= 31).
  { unfold daysInMonth.
    repeat match goal with |- context [match ?x with _ => _ end] => destruct x end;
      lia. }
  lia.
Qed.

(** C2. The date decoder does not refuse every impossible date: the 30th
    of February 2024 is not a date of the calendar, the row parser takes
    [30-FEB-2024] for a date, and the decoder returns [20240230] for it,
    whatever the engine does with the strings its ISO parser leaves
    aside. *)
Theorem parseBannerDate_30_FEB_2024 :
  calendarValid 2024 2 30 = false
  /\ isDate "30-FEB-2024" = true
  /\ parseBannerDate legacyParse "30-FEB-2024" = Some "20240230".
Proof.
  split; [reflexivity|].
  split; [reflexivity|].
  apply (parseBannerDate_fields "30" "FEB" "2024" "02"); try reflexivity.
  change (JS.digitsValue 0 "30") with 30; lia.
Qed.

End DateDecoder.

(** ** Lines of a calendar document *)

Lemma noLF_app (a b : string) : noLF (a ++ b) = noLF a && noLF b.
Proof.
  induction a as [|x a IH]; simpl; [reflexivity|].
  now rewrite IH, andb_assoc.
Qed.

Lemma noLF_escapeChar (c : ascii) : noLF (escapeChar c) = true.
Proof.
  unfold escapeChar.
  repeat match goal with
         | |- context [if ?b then _ else _] => destruct b eqn:?; try reflexivity
         end.
  simpl; now rewrite Heqb2.
Qed.

(** An escaped text holds no line feed, hence no line break. *)
Lemma noLF_escapeICSText (text : string) : noLF (escapeICSText text) = true.
Proof.
  rewrite escapeICSText_onePass.
  induction text as [|c text IH]; [reflexivity|].
  cbn [escapeOnePass]; now rewrite noLF_app, noLF_escapeChar, IH.
Qed.

Lemma lines_line (a rest : string) :
  noLF a = true -> lines (a ++ CRLF ++ rest) = a :: lines rest.
Proof.
  induction a as [|c a IH]; [reflexivity|].
  intros H; cbn [noLF] in H; apply andb_true_iff in H as [Hc Ha].
  apply negb_true_iff in Hc.
  specialize (IH Ha).
  destruct a as [|d a].
  - cbn [append lines CRLF] in *.
    change (Ascii.eqb CR LF) with false; rewrite andb_false_r.
    now rewrite IH.
  - cbn [noLF] in Ha; apply andb_true_iff in Ha as [Hd _].
    apply negb_true_iff in Hd.
    change (lines (String c (String d a) ++ CRLF ++ rest))
      with (if Ascii.eqb c CR && Ascii.eqb d LF
            then "" :: lines (a ++ CRLF ++ rest)
            else consHead c (lines (String d a ++ CRLF ++ rest))).
    now rewrite Hd, andb_false_r, IH.
Qed.

Lemma lines_unlines (ls : list string) :
  Forall (fun l => noLF l = true) ls -> lines (unlines ls) = (ls ++ [""])%list.
Proof.
  induction 1 as [|l ls Hl _ IH]; [reflexivity|].
  cbn [unlines]; now rewrite lines_line, IH.
Qed.

(** ** The recurrence end *)

(** Setting the UTC hours of a time value to its hours plus eight moves it
    forward by eight hours: the day is carried. *)
Lemma setUTCHours_plus_8 (t : Z) :
  JSDate.setUTCHours (Some t) ((fun h => h + 8) <$> JSDate.getUTCHours (Some t))
  = JSDate.TimeClip (t + 8 * JSDate.msPerHour).
Proof.
  unfold JSDate.setUTCHours, JSDate.getUTCHours; cbn [fmap option_fmap option_map mbind option_bind].
  f_equal.
  unfold JSDate.MakeDate, JSDate.MakeTime, JSDate.Day, JSDate.HourFromTime,
    JSDate.MinFromTime, JSDate.SecFromTime, JSDate.msFromTime,
    JSDate.msPerDay, JSDate.msPerHour, JSDate.msPerMinute, JSDate.msPerSecond.
  Z.div_mod_to_equations; lia.
Qed.

(** ** The calendar generator *)

Lemma split_at_least_two (c : ascii) (a b : string) :
  exists h m rest, JS.split c (a ++ String c b) = h :: m :: rest.
Proof.
  pose proof (split_length c (a ++ String c b)) as L.
  rewrite countChar_app in L; cbn [countChar] in L.
  rewrite Ascii.eqb_refl in L.
  destruct (JS.split c (a ++ String c b)) as [|h [|m rest]]; simpl in L; try lia.
  eauto.
Qed.

Lemma formatICSDateTime_formatTime (dateStr time : string) :
  exists r, formatICSDateTime dateStr (formatTime time) = Some r.
Proof.
  unfold formatICSDateTime.
  destruct (negb (JS.truthy dateStr) || negb (JS.truthy (formatTime time))); [eauto|].
  unfold formatTime.
  match goal with |- context [JS.split ":" (?a ++ ":" ++ ?b)] =>
    destruct (split_at_least_two ":" a b) as (h & m & rest & E);
    change (a ++ ":" ++ b) with (a ++ String ":" b)
  end.
  rewrite E. eauto.
Qed.

Lemma replace_after_begin (pat' repl s : string) :
  exists r, JS.replace (String "D" pat') repl (beginEvent ++ s) = beginEvent ++ r.
Proof.
  unfold JS.replace, beginEvent.
  cbn [append CRLF CR LF JS.indexOf JS.startsWith].
  cbn [Ascii.eqb Bool.eqb andb].
  destruct (JS.indexOf (String "D" pat') s) as [i|].
  - cbn [fmap option_fmap option_map String.substring].
    eexists. cbn [append]. reflexivity.
  - cbn [fmap option_fmap option_map]. eauto.
Qed.

Lemma parseBannerTime_formatTime (timeStr : string) (timeData : TimeData) :
  parseBannerTime timeStr = Some timeData ->
  exists x y, timeData = {| td_start := formatTime x; td_end := formatTime y |}.
Proof.
  unfold parseBannerTime.
  destruct (negb (JS.truthy timeStr)); [discriminate|].
  destruct (JS.split "-" (JS.trim timeStr)) as [|p0 [|p1 [|p2 l]]]; try discriminate.
  intros [= <-]; eauto.
Qed.

Lemma truthy_app_r (a b : string) : JS.truthy b = true -> JS.truthy (a ++ b) = true.
Proof. destruct a; simpl; auto. Qed.
Lemma truthy_app_l (a b : string) : JS.truthy a = true -> JS.truthy (a ++ b) = true.
Proof. destruct a; simpl; [discriminate | auto]. Qed.

Section Calendar.

Variable legacyParse : string -> option Z.

Lemma parseBannerDate_truthy (dateStr d : string) :
  parseBannerDate legacyParse dateStr = Some d -> JS.truthy d = true.
Proof.
  unfold parseBannerDate.
  destruct (negb (JS.truthy dateStr)); [discriminate|].
  destruct (JS.split "-" (JS.trim dateStr)) as [|p0 [|p1 [|p2 [|p3 l]]]]; try discriminate.
  destruct (lookupKey MONTH_MAP (JS.toUpperCase p1)) as [month|]; [|discriminate].
  destruct (JS.truthy month) eqn:T; [|discriminate].
  cbn [negb].
  destruct (JSDate.parse _ _); [|discriminate].
  intros [= <-]. apply truthy_app_r, truthy_app_l, T.
Qed.

Lemma startsBegin_app (x y : string) : startsBegin x -> startsBegin (x ++ y).
Proof. intros [r ->]. exists (r ++ y). now rewrite append_assoc. Qed.

Lemma startsBegin_block (x : string) : startsBegin x -> isEventBlock (x ++ endEvent).
Proof. intros [r ->]. exists r. now rewrite append_assoc. Qed.

Lemma buildEvent_block (courseData : CourseData) (startDate : string)
    (endDate : option string) (x y : string) :
  exists event,
    buildEvent courseData startDate endDate
      {| td_start := formatTime x; td_end := formatTime y |} = Some event
    /\ isEventBlock event.
Proof.
  unfold buildEvent; cbn [td_start td_end].
  destruct (formatICSDateTime_formatTime startDate x) as [dtStart ->].
  destruct (formatICSDateTime_formatTime startDate y) as [dtEnd ->].
  cbn [mbind option_bind].
  change ("BEGIN:VEVENT" ++ CRLF) with beginEvent.
  set (head := ((beginEvent ++ "DTSTART;TZID=America/Los_Angeles:" ++ dtStart ++ CRLF)
                  ++ "DTEND;TZID=America/Los_Angeles:" ++ dtEnd ++ CRLF)).
  assert (Hhead : startsBegin head).
  { apply startsBegin_app. eexists; reflexivity. }
  match goal with
  | |- exists event, ?o ≫= _ = Some event /\ _ =>
      assert (Hics : exists ics, o = Some ics /\ startsBegin ics)
  end.
  { destruct (negb (String.eqb (cd_type courseData) "EXAM")).
    - destruct endDate as [endDate|]; [|eauto].
      destruct (_ && _); [|eauto].
      eexists; split; [reflexivity|]. now apply startsBegin_app.
    - destruct endDate as [endDate|]; [|eauto].
      destruct (_ && _); [|eauto].
      destruct (formatICSDateTime_formatTime endDate y) as [examEnd ->].
      cbn [mbind option_bind].
      destruct Hhead as [r ->].
      destruct (replace_after_begin ("TEND;TZID=America/Los_Angeles:" ++ dtEnd)
                  ("DTEND;TZID=America/Los_Angeles:" ++ examEnd) r) as [r' E].
      change (String "D" ("TEND;TZID=America/Los_Angeles:" ++ dtEnd))
        with ("DTEND;TZID=America/Los_Angeles:" ++ dtEnd) in E.
      rewrite E.
      eexists; split; [reflexivity|]. eexists; reflexivity. }
  destruct Hics as (ics & -> & Hics).
  cbn [mbind option_bind].
  eexists; split; [reflexivity|].
  change ("END:VEVENT" ++ CRLF) with endEvent.
  apply startsBegin_block. now repeat apply startsBegin_app.
Qed.

(** A session is skipped when its start date or its time range does not
    decode, and yields a VEVENT block otherwise; no exception escapes. *)
Lemma createEvent_result (course : CourseData) :
  exists event,
    createEvent legacyParse course = Some event
    /\ (if decodes legacyParse course then isEventBlock event else event = "").
Proof.
  unfold createEvent, decodes.
  destruct (parseBannerDate legacyParse (cd_start course)) as [startDate|] eqn:D;
    [|eauto].
  destruct (parseBannerTime (cd_time course)) as [timeData|] eqn:T; [|eauto].
  rewrite (parseBannerDate_truthy _ _ D); cbn [negb].
  destruct (parseBannerTime_formatTime _ _ T) as (x & y & ->).
  apply buildEvent_block.
Qed.

Lemma isEventBlock_truthy (event : string) :
  isEventBlock event -> JS.truthy event = true.
Proof. intros [body ->]; reflexivity. Qed.

Lemma icsStep_appends (ics : string) (course : CourseData) :
  exists event,
    createEvent legacyParse course = Some event
    /\ (if decodes legacyParse course then isEventBlock event else event = "")
    /\ icsStep legacyParse (Some ics) course = Some (ics ++ event).
Proof.
  destruct (createEvent_result course) as (event & E & H).
  exists event; repeat split; try assumption.
  unfold icsStep; cbn [mbind option_bind]; rewrite E; cbn [mbind option_bind].
  destruct (JS.truthy event) eqn:T; [reflexivity|].
  apply truthy_false in T; subst event; now rewrite append_nil_r.
Qed.

Lemma icsLoop_appends (courses : list CourseData) (ics : string) :
  exists events : list string,
    Forall2 (fun course event =>
               createEvent legacyParse course = Some event
               /\ (if decodes legacyParse course then isEventBlock event
                   else event = ""))
      courses events
    /\ fold_left (icsStep legacyParse) courses (Some ics)
       = Some (ics ++ concatStrings events).
Proof.
  revert ics; induction courses as [|course courses IH]; intros ics.
  - exists []; split; [constructor|]. cbn; now rewrite append_nil_r.
  - destruct (icsStep_appends ics course) as (event & E & H & Step).
    destruct (IH (ics ++ event)) as (events & F & Loop).
    exists (event :: events); split; [constructor; auto|].
    cbn [fold_left concatStrings fold_right]; rewrite Step, Loop.
    now rewrite append_assoc.
Qed.

(** C5. Whatever the sessions, the calendar generator returns a document:
    the header, then for each session in order either nothing, when its
    start date or its time range does not decode, or its VEVENT block, then
    the footer.  A session that does not decode neither stops the others
    from being emitted nor raises an error. *)
Theorem generateICS_skips_undecodable (courses : list CourseData) :
  exists events : list string,
    Forall2 (fun course event =>
               createEvent legacyParse course = Some event
               /\ (if decodes legacyParse course then isEventBlock event
                   else event = ""))
      courses events
    /\ generateICS legacyParse courses
       = Some (calendarHeader ++ concatStrings events ++ calendarFooter).
Proof.
  destruct (icsLoop_appends courses calendarHeader) as (events & F & Loop).
  exists events; split; [exact F|].
  unfold generateICS; rewrite Loop; cbn [mbind option_bind].
  now rewrite append_assoc.
Qed.

End Calendar.

(** ** The round-trip example *)

Section Lecture.

Variable legacyParse : string -> option Z.

Lemma lecture_createEvent (subject course section title room : string) :
  exists summary description location,
    createEvent legacyParse (lectureSession subject course section title room)
    = Some (unlines
              ["BEGIN:VEVENT";
               "DTSTART;TZID=America/Los_Angeles:20240506T123000";
               "DTEND;TZID=America/Los_Angeles:20240506T142000";
               "RRULE:FREQ=WEEKLY;BYDAY=TU,TH;UNTIL=20240810T075900Z";
               "SUMMARY:" ++ escapeICSText summary;
               "DESCRIPTION:" ++ escapeICSText description;
               "LOCATION:" ++ escapeICSText location;
               "END:VEVENT"]).
Proof.
  unfold createEvent, lectureSession; cbn [cd_start cd_end cd_time].
  assert (E1 : parseBannerDate legacyParse "06-MAY-2024" = Some "20240506").
  { apply (parseBannerDate_fields legacyParse "06" "MAY" "2024" "05");
      try reflexivity.
    change (JS.digitsValue 0 "06") with 6; lia. }
  assert (E2 : parseBannerDate legacyParse "09-AUG-2024" = Some "20240809").
  { apply (parseBannerDate_fields legacyParse "09" "AUG" "2024" "08");
      try reflexivity.
    change (JS.digitsValue 0 "09") with 9; lia. }
  rewrite E1, E2.
  change (parseBannerTime "1230-1420")
    with (Some {| td_start := "12:30"; td_end := "14:20" |}).
  cbn [append JS.padStart JS.repeatChar String.length Nat.sub JS.truthy negb].
  unfold buildEvent.
  cbn [cd_subject cd_course cd_section cd_title cd_type cd_days cd_room
       td_start td_end].
  change (formatICSDateTime "20240506" "12:30") with (Some "20240506T123000").
  change (formatICSDateTime "20240506" "14:20") with (Some "20240506T142000").
  change (String.eqb "LECTURE" "EXAM") with false.
  change (parseBannerDays "-T-R---") with ["TU"; "TH"].
  change (formatICSDateTimeUTC "20240809" "23:59") with "20240810T075900Z".
  cbn [mbind option_bind negb length Nat.ltb Nat.leb andb JS.truthy JS.join String.concat].
  do 3 eexists.
  apply (f_equal Some); cbn [unlines].
  rewrite !append_assoc.
  reflexivity.
Qed.

(** C1. The lecture of Tuesdays and Thursdays, 12:30 to 14:20, from
    6 May to 9 August 2024, whatever its subject, course, section, title
    and room, gives a document with exactly one VEVENT block, whose lines
    include DTSTART at 20240506T123000, DTEND at 20240506T142000 and the
    weekly rule on TU,TH until 20240810T075900Z: the end date at 23:59,
    eight hours later. *)
Theorem lecture_session_calendar (subject course section title room : string) :
  exists doc summary description location,
    generateICS legacyParse [lectureSession subject course section title room]
    = Some doc
    /\ lines doc
       = ["BEGIN:VCALENDAR"; "VERSION:2.0";
          "PRODID:-//Langara Swing Schedule Exporter//EN";
          "CALSCALE:GREGORIAN"; "X-WR-TIMEZONE:America/Los_Angeles";
          "BEGIN:VEVENT";
          "DTSTART;TZID=America/Los_Angeles:20240506T123000";
          "DTEND;TZID=America/Los_Angeles:20240506T142000";
          "RRULE:FREQ=WEEKLY;BYDAY=TU,TH;UNTIL=20240810T075900Z";
          "SUMMARY:" ++ summary; "DESCRIPTION:" ++ description;
          "LOCATION:" ++ location; "END:VEVENT"; "END:VCALENDAR"; ""]
    /\ countLines "BEGIN:VEVENT" doc = 1%nat
    /\ countLines "END:VEVENT" doc = 1%nat
    /\ parseBannerDate legacyParse "09-AUG-2024" = Some "20240809"
    /\ JSDate.UTC (Some 2024) (Some 7) (Some 9) (Some 23) (Some 59) (Some 0)
       = Some 1723247940000
    /\ JSDate.UTC (Some 2024) (Some 7) (Some 10) (Some 7) (Some 59) (Some 0)
       = Some (1723247940000 + 8 * JSDate.msPerHour)
    /\ formatICSDateTimeUTC "20240809" "23:59" = "20240810T075900Z".
Proof.
  destruct (lecture_createEvent subject course section title room)
    as (summary & description & location & E).
  set (event := ["BEGIN:VEVENT";
                 "DTSTART;TZID=America/Los_Angeles:20240506T123000";
                 "DTEND;TZID=America/Los_Angeles:20240506T142000";
                 "RRULE:FREQ=WEEKLY;BYDAY=TU,TH;UNTIL=20240810T075900Z";
                 "SUMMARY:" ++ escapeICSText summary;
                 "DESCRIPTION:" ++ escapeICSText description;
                 "LOCATION:" ++ escapeICSText location;
                 "END:VEVENT"]) in E.
  set (header := ["BEGIN:VCALENDAR"; "VERSION:2.0";
                  "PRODID:-//Langara Swing Schedule Exporter//EN";
                  "CALSCALE:GREGORIAN"; "X-WR-TIMEZONE:America/Los_Angeles"]).
  assert (G : generateICS legacyParse
                [lectureSession subject course section title room]
              = Some (unlines (header ++ event ++ ["END:VCALENDAR"])%list)).
  { unfold generateICS; cbn [fold_left]; unfold icsStep.
    cbn [mbind option_bind]; rewrite E; cbn [mbind option_bind].
    replace (JS.truthy (unlines event)) with true by reflexivity.
    f_equal; subst header event; cbn [unlines app].
    unfold calendarHeader, calendarFooter.
    rewrite !append_assoc; reflexivity. }
  assert (L : lines (unlines (header ++ event ++ ["END:VCALENDAR"])%list)
              = ((header ++ event ++ ["END:VCALENDAR"]) ++ [""])%list).
  { apply lines_unlines; subst header event; cbn [app].
    repeat (apply Forall_cons_2;
            [ first [ reflexivity
                    | rewrite noLF_app, noLF_escapeICSText; reflexivity ] |]).
    apply Forall_nil_2. }
  exists (unlines (header ++ event ++ ["END:VCALENDAR"])%list),
    (escapeICSText summary), (escapeICSText description),
    (escapeICSText location).
  split; [exact G|].
  split; [exact L|].
  unfold countLines; rewrite L.
  repeat split; reflexivity.
Qed.

End Lecture.

(** ** The row parser *)

Lemma code_upperChar (c : ascii) :
  JS.isLower c || JS.isLatinLower c = true ->
  JS.code (JS.upperChar c) = (JS.code c - 32)%N.
Proof.
  intros H; unfold JS.upperChar; rewrite H.
  unfold JS.code; apply N_ascii_embedding.
  pose proof (N_ascii_bounded c); lia.
Qed.

Lemma isWhiteSpace_upperChar (c : ascii) :
  JS.isWhiteSpace (JS.upperChar c) = JS.isWhiteSpace c.
Proof.
  destruct (JS.isLower c || JS.isLatinLower c) eqn:E.
  - unfold JS.isWhiteSpace; rewrite (code_upperChar _ E).
    revert E; unfold JS.isLower, JS.isLatinLower; compare_codes.
  - unfold JS.upperChar; now rewrite E.
Qed.

Lemma upperChar_white (c : ascii) :
  JS.isWhiteSpace c = true -> JS.upperChar c = c.
Proof.
  intros W; unfold JS.upperChar.
  destruct (JS.isLower c || JS.isLatinLower c) eqn:E; [|reflexivity].
  exfalso; revert W E.
  unfold JS.isWhiteSpace, JS.isLower, JS.isLatinLower; compare_codes.
Qed.

Lemma upperUnit_white (c : ascii) :
  JS.isWhiteSpace c = true -> JS.upperUnit c = String c "".
Proof.
  intros W; unfold JS.upperUnit; rewrite (upperChar_white _ W).
  destruct (N.eqb_spec (JS.code c) 223) as [E|]; [|reflexivity].
  exfalso; revert W; unfold JS.isWhiteSpace; rewrite E; discriminate.
Qed.

(** The upper case of a code unit that is not white space is a text: it is
    not empty and holds no white space. *)
Lemma upperUnit_text (c : ascii) :
  JS.isWhiteSpace c = false ->
  JS.upperUnit c <> "" /\ noWhite (JS.upperUnit c) = true.
Proof.
  intros W; unfold JS.upperUnit.
  destruct (JS.code c =? 223)%N; (split; [discriminate|]); [reflexivity|].
  cbn; now rewrite isWhiteSpace_upperChar, W.
Qed.

Lemma upperUnit_not_empty (c : ascii) : JS.upperUnit c <> "".
Proof. unfold JS.upperUnit; destruct (JS.code c =? 223)%N; discriminate. Qed.

Lemma text_allWhite (u t : string) :
  u <> "" -> noWhite u = true -> JS.allWhite (u ++ t) = false.
Proof.
  destruct u as [|a u]; [contradiction|].
  intros _ H; cbn in *. now destruct (JS.isWhiteSpace a).
Qed.

Lemma text_trimStart (u t : string) :
  u <> "" -> noWhite u = true -> JS.trimStart (u ++ t) = u ++ t.
Proof.
  destruct u as [|a u]; [contradiction|].
  intros _ H; cbn in *. now destruct (JS.isWhiteSpace a).
Qed.

Lemma text_trimEnd (u t : string) :
  noWhite u = true -> JS.trimEnd (u ++ t) = u ++ JS.trimEnd t.
Proof.
  induction u as [|a u IH]; [reflexivity|].
  intros H; cbn [noWhite] in H; apply andb_true_iff in H as [A H].
  cbn [append JS.trimEnd JS.allWhite].
  apply negb_true_iff in A; rewrite A; cbn [andb]. now rewrite (IH H).
Qed.

Lemma toUpperCase_empty (s : string) : JS.toUpperCase s = "" -> s = "".
Proof.
  destruct s as [|c s]; [reflexivity|].
  cbn [JS.toUpperCase]; intros E; exfalso.
  destruct (JS.upperUnit c) eqn:U; [|discriminate E].
  now apply (upperUnit_not_empty c).
Qed.

Lemma allWhite_toUpperCase (s : string) :
  JS.allWhite (JS.toUpperCase s) = JS.allWhite s.
Proof.
  induction s as [|c s IH]; [reflexivity|].
  cbn [JS.toUpperCase JS.allWhite].
  destruct (JS.isWhiteSpace c) eqn:W.
  - rewrite (upperUnit_white _ W); cbn [append JS.allWhite]; now rewrite W, IH.
  - destruct (upperUnit_text _ W) as [A B]; now rewrite (text_allWhite _ _ A B).
Qed.

Lemma trimStart_toUpperCase (s : string) :
  JS.trimStart (JS.toUpperCase s) = JS.toUpperCase (JS.trimStart s).
Proof.
  induction s as [|c s IH]; [reflexivity|].
  cbn [JS.toUpperCase JS.trimStart].
  destruct (JS.isWhiteSpace c) eqn:W.
  - rewrite (upperUnit_white _ W); cbn [append JS.trimStart]; now rewrite W.
  - destruct (upperUnit_text _ W) as [A B]; now rewrite (text_trimStart _ _ A B).
Qed.

Lemma trimEnd_toUpperCase (s : string) :
  JS.trimEnd (JS.toUpperCase s) = JS.toUpperCase (JS.trimEnd s).
Proof.
  induction s as [|c s IH]; [reflexivity|].
  cbn [JS.trimEnd JS.allWhite].
  destruct (JS.isWhiteSpace c) eqn:W; cbn [andb].
  - cbn [JS.toUpperCase]; rewrite (upperUnit_white _ W).
    cbn [append JS.trimEnd JS.allWhite]; rewrite W, allWhite_toUpperCase.
    cbn [andb]; destruct (JS.allWhite s); [reflexivity|].
    cbn [JS.toUpperCase]; rewrite (upperUnit_white _ W); cbn [append].
    now rewrite IH.
  - cbn [JS.toUpperCase]; destruct (upperUnit_text _ W) as [_ B].
    now rewrite (text_trimEnd _ _ B), IH.
Qed.

Lemma trim_toUpperCase (s : string) :
  JS.trim (JS.toUpperCase s) = JS.toUpperCase (JS.trim s).
Proof.
  unfold JS.trim; now rewrite trimStart_toUpperCase, trimEnd_toUpperCase.
Qed.

Lemma eqb_empty (s : string) : String.eqb s "" = negb (JS.truthy s).
Proof. now destruct s. Qed.

Lemma allWhite_trimEnd (s : string) :
  JS.allWhite s = false -> JS.allWhite (JS.trimEnd s) = false.
Proof.
  induction s as [|c s IH]; [discriminate|].
  intros H; cbn [JS.trimEnd]; rewrite H.
  cbn [JS.allWhite] in *.
  destruct (JS.isWhiteSpace c); [|reflexivity].
  cbn [andb] in *; now apply IH.
Qed.

Lemma trimEnd_idempotent (s : string) :
  JS.trimEnd (JS.trimEnd s) = JS.trimEnd s.
Proof.
  induction s as [|c s IH]; [reflexivity|].
  cbn [JS.trimEnd].
  destruct (JS.allWhite (String c s)) eqn:W; [reflexivity|].
  cbn [JS.trimEnd JS.allWhite] in *.
  destruct (JS.isWhiteSpace c); cbn [andb] in *; [|now rewrite IH].
  now rewrite (allWhite_trimEnd _ W), IH.
Qed.

Lemma trimStart_trimEnd_trimStart (s : string) :
  JS.trimStart (JS.trimEnd (JS.trimStart s)) = JS.trimEnd (JS.trimStart s).
Proof.
  induction s as [|c s IH]; [reflexivity|].
  cbn [JS.trimStart].
  destruct (JS.isWhiteSpace c) eqn:W; [exact IH|].
  cbn [JS.trimEnd JS.allWhite]; rewrite W; cbn [andb JS.trimStart].
  now rewrite W.
Qed.

Lemma trim_idempotent (s : string) : JS.trim (JS.trim s) = JS.trim s.
Proof.
  unfold JS.trim.
  now rewrite trimStart_trimEnd_trimStart, trimEnd_idempotent.
Qed.

Lemma firstCell_trimmed (test : string -> bool) (cells : list string) :
  JS.trim (firstCell test cells) = firstCell test cells.
Proof.
  unfold firstCell; destruct (List.find _ cells);
    [apply trim_idempotent | reflexivity].
Qed.

Lemma getCellText_trimmed (cells : list string) (idx fallbackIdx : Z) :
  JS.trim (getCellText cells idx fallbackIdx) = getCellText cells idx fallbackIdx.
Proof.
  unfold getCellText, cellAt.
  repeat match goal with |- context [if ?b then _ else _] => destruct b end;
    try apply trim_idempotent; reflexivity.
Qed.

(** The type read from a row carries no white space around it. *)
Lemma rowType_trimmed (cells : list string) (table : list Row) :
  JS.trim (rowType cells table) = rowType cells table.
Proof.
  unfold rowType.
  destruct (negb _); [apply getCellText_trimmed | apply firstCell_trimmed].
Qed.

(** C4. The row parser returns a record only when the type read from the
    row is not empty and the start date or the time range is present; the
    record then has a type, and a start date or a time range.  When the
    type is missing, or the start date and the time range are both missing,
    it returns no record.  (A row of three cells or more with a type and a
    start date or time range does give a record.) *)
Theorem parseTableRow_record_invariant (row : Row) (table : list Row)
    (info : CourseInfo) :
  let type := rowType (tds row) table in
  let start := fst (rowStartEnd (tds row) table) in
  let time := rowTime (tds row) table in
  (forall record : CourseData,
     parseTableRow row table info = Some record ->
     type <> "" /\ (start <> "" \/ time <> "")
     /\ cd_type record <> ""
     /\ (cd_start record <> "" \/ cd_time record <> ""))
  /\ (type = "" \/ (start = "" /\ time = "") ->
      parseTableRow row table info = None)
  /\ (isShort row = false -> type <> "" -> start <> "" \/ time <> "" ->
      exists record, parseTableRow row table info = Some record).
Proof.
  intros type start time.
  pose proof (rowType_trimmed (tds row) table) as Trim; fold type in Trim.
  subst start time; unfold parseTableRow, isShort.
  destruct (length (tds row) <? 3)%nat.
  { split; [discriminate|]. split; [intros _; reflexivity | discriminate]. }
  destruct (rowStartEnd (tds row) table) as [start end_]; cbn [fst].
  fold type; set (time := rowTime (tds row) table).
  rewrite eqb_empty, Trim, orb_diag.
  destruct (JS.truthy type) eqn:T; cbn [negb].
  2: { apply truthy_false in T.
       split; [discriminate|]. split; [intros _; reflexivity | contradiction]. }
  apply truthy_true in T.
  assert (Up : JS.toUpperCase type <> "").
  { intros E; apply toUpperCase_empty in E; contradiction. }
  destruct (JS.truthy start) eqn:S, (JS.truthy time) eqn:M; cbn [negb andb];
    try apply truthy_true in S; try apply truthy_true in M;
    try apply truthy_false in S; try apply truthy_false in M.
  4: { split; [discriminate|]. split; [intros _; reflexivity|].
       intros _ _ [|]; contradiction. }
  all: split;
    [ intros record [= <-]; cbn [cd_type cd_start cd_time];
      rewrite trim_toUpperCase, Trim; repeat split; auto
    | split; [ intros [E | [E1 E2]]; contradiction | intros _ _ _; eauto ] ].
Qed.

(** ** The column resolver *)

Lemma findIndex_list_find {A} (p : A -> bool) (l : list A) :
  findIndex p l = fst <$> list_find (fun x => p x = true) l.
Proof.
  induction l as [|x l IH]; [reflexivity|].
  cbn [findIndex list_find].
  destruct (p x) eqn:E.
  - rewrite decide_True by reflexivity. reflexivity.
  - rewrite decide_False by discriminate.
    rewrite IH. now destruct (list_find _ l) as [[i y]|].
Qed.

Lemma findIndex_firstMatching (name : string) (cells : list string) :
  findIndex (headerMatches (JS.toUpperCase name)) cells = firstMatching name cells.
Proof. apply findIndex_list_find. Qed.

Lemma firstMatching_Some (name : string) (cells : list string) (i : nat) :
  firstMatching name cells = Some i <->
  exists cell, cells !! i = Some cell /\ containsIgnoringCase cell name = true
    /\ forall j cell', cells !! j = Some cell' -> (j < i)%nat ->
         containsIgnoringCase cell' name = false.
Proof.
  unfold firstMatching; split.
  - destruct (list_find _ cells) as [[k cell]|] eqn:E; [|discriminate].
    intros [= <-]. apply list_find_Some in E as (L & M & N).
    exists cell; repeat split; try assumption.
    intros j cell' Hj Hlt. specialize (N j cell' Hj Hlt).
    now destruct (containsIgnoringCase cell' name).
  - intros (cell & L & M & N).
    assert (E : list_find (fun c => containsIgnoringCase c name = true) cells
                = Some (i, cell)).
    { apply list_find_Some; repeat split; try assumption.
      intros j y Hj Hlt. rewrite (N j y Hj Hlt). discriminate. }
    now rewrite E.
Qed.

Lemma firstMatching_None (name : string) (cells : list string) :
  firstMatching name cells = None <->
  Forall (fun cell => containsIgnoringCase cell name = false) cells.
Proof.
  unfold firstMatching; split.
  - destruct (list_find _ cells) as [[k cell]|] eqn:E; [discriminate|].
    intros _. apply list_find_None in E.
    eapply Forall_impl; [exact E|]. intros cell H; cbn in H.
    now destruct (containsIgnoringCase cell name).
  - intros H.
    assert (E : list_find (fun c => containsIgnoringCase c name = true) cells = None).
    { apply list_find_None. eapply Forall_impl; [exact H|].
      intros cell Hc; cbn; rewrite Hc; discriminate. }
    now rewrite E.
Qed.

Lemma scanHeaderRows_leading (name : string) (rows : list Row) :
  scanHeaderRows (JS.toUpperCase name) rows =
  match head (omap (fun row => firstMatching name (ths row))
                (leadingHeaderRows rows)) with
  | Some i => Z.of_nat i
  | None => -1
  end.
Proof.
  unfold leadingHeaderRows.
  induction rows as [|row rows IH]; [reflexivity|].
  cbn [scanHeaderRows countHeaderRows].
  destruct (hasTh row); [|reflexivity].
  cbn [take omap list_omap].
  rewrite findIndex_firstMatching.
  destruct (firstMatching name (ths row)); [reflexivity|exact IH].
Qed.

Lemma getColumnIndex_resolveColumn (table : list Row) (name : string) :
  getColumnIndex table name = resolveColumn table name.
Proof.
  unfold getColumnIndex, resolveColumn.
  destruct (List.find hasTh table) as [row|]; cbn [mbind option_bind].
  - rewrite findIndex_firstMatching.
    destruct (firstMatching name (ths row)); [reflexivity|].
    apply scanHeaderRows_leading.
  - apply scanHeaderRows_leading.
Qed.

Lemma head_omap_None {A B} (f : A -> option B) (l : list A) :
  head (omap f l) = None <-> Forall (fun x => f x = None) l.
Proof.
  induction l as [|x l IH]; cbn [omap list_omap].
  - split; [constructor | reflexivity].
  - destruct (f x) eqn:E; cbn [head].
    + split; [discriminate|]. intros H; apply Forall_cons_1 in H as [H _]; congruence.
    + rewrite IH; split; [now constructor|]. intros H; now apply Forall_cons_1 in H as [_ H].
Qed.

Lemma head_omap_Some {A B} (f : A -> option B) (l : list A) (y : B) :
  head (omap f l) = Some y <->
  exists pre x post, l = (pre ++ x :: post)%list
    /\ Forall (fun x => f x = None) pre /\ f x = Some y.
Proof.
  induction l as [|x l IH]; cbn [omap list_omap].
  - split; [discriminate|]. intros (pre & x & post & E & _). now destruct pre.
  - destruct (f x) eqn:E; cbn [head].
    + split.
      * intros [= <-]. exists [], x, l; repeat split; [constructor|assumption].
      * intros (pre & x' & post & L & F & Y).
        destruct pre as [|p pre]; cbn in L; injection L as <- ->; [congruence|].
        apply Forall_cons_1 in F as [F _]; congruence.
    + rewrite IH; split.
      * intros (pre & x' & post & -> & F & Y).
        exists (x :: pre), x', post; repeat split; [now constructor|assumption].
      * intros (pre & x' & post & L & F & Y).
        destruct pre as [|p pre]; cbn in L; injection L as <- ->; [congruence|].
        apply Forall_cons_1 in F as [_ F]. eauto 6.
Qed.

Lemma endsNonWhite_tail (a : ascii) (n : string) :
  endsNonWhite (String a n) = true -> endsNonWhite n = true.
Proof. destruct n; [reflexivity | exact id]. Qed.

Lemma endsNonWhite_not_allWhite (a : ascii) (n : string) :
  endsNonWhite (String a n) = true -> JS.allWhite (String a n) = false.
Proof.
  revert a; induction n as [|b n IH]; intros a H.
  - cbn in *. now destruct (JS.isWhiteSpace a).
  - change (JS.allWhite (String a (String b n)))
      with (JS.isWhiteSpace a && JS.allWhite (String b n)).
    rewrite (IH b H); apply andb_false_r.
Qed.

Lemma startsWith_allWhite (n s : string) :
  JS.startsWith n s = true -> JS.allWhite s = true -> JS.allWhite n = true.
Proof.
  revert s; induction n as [|a n IH]; intros s; [reflexivity|].
  destruct s as [|c s]; [discriminate|].
  cbn [JS.startsWith JS.allWhite]; intros H W.
  apply andb_true_iff in H as [E H]; apply andb_true_iff in W as [Wc W].
  apply Ascii.eqb_eq in E; subst c.
  now rewrite Wc, (IH s H W).
Qed.

Lemma startsWith_white_false (a : ascii) (n s : string) :
  endsNonWhite (String a n) = true -> JS.allWhite s = true ->
  JS.startsWith (String a n) s = false.
Proof.
  intros E W; destruct (JS.startsWith (String a n) s) eqn:H; [|reflexivity].
  pose proof (startsWith_allWhite _ _ H W) as A.
  now rewrite (endsNonWhite_not_allWhite _ _ E) in A.
Qed.

Lemma includes_white_false (a : ascii) (n s : string) :
  endsNonWhite (String a n) = true -> JS.allWhite s = true ->
  JS.includes s (String a n) = false.
Proof.
  intros E; induction s as [|c s IH]; intros W.
  - reflexivity.
  - cbn [JS.includes]; rewrite (startsWith_white_false _ _ _ E W).
    cbn [JS.allWhite] in W; apply andb_true_iff in W as [_ W]; now apply IH.
Qed.

Lemma startsWith_trimEnd (n s : string) :
  endsNonWhite n = true -> JS.startsWith n (JS.trimEnd s) = JS.startsWith n s.
Proof.
  revert s; induction n as [|a n IH]; intros s E; [reflexivity|].
  destruct s as [|c s]; [reflexivity|].
  cbn [JS.trimEnd].
  destruct (JS.allWhite (String c s)) eqn:W.
  - now rewrite (startsWith_white_false _ _ _ E W).
  - cbn [JS.startsWith]; now rewrite (IH s (endsNonWhite_tail _ _ E)).
Qed.

Lemma includes_trimEnd (n s : string) :
  endsNonWhite n = true -> JS.includes (JS.trimEnd s) n = JS.includes s n.
Proof.
  intros E; induction s as [|c s IH]; [reflexivity|].
  pose proof (startsWith_trimEnd n (String c s) E) as P.
  cbn [JS.trimEnd] in *.
  destruct (JS.allWhite (String c s)) eqn:W.
  - destruct n as [|a n]; [reflexivity|].
    now rewrite (includes_white_false _ _ _ E W).
  - cbn [JS.includes]; now rewrite P, IH.
Qed.

Lemma includes_trimStart (n s : string) :
  startsNonWhite n = true -> JS.includes (JS.trimStart s) n = JS.includes s n.
Proof.
  intros E; induction s as [|c s IH]; [reflexivity|].
  cbn [JS.trimStart].
  destruct (JS.isWhiteSpace c) eqn:W; [|reflexivity].
  rewrite IH; cbn [JS.includes].
  destruct n as [|a n]; [now destruct s|].
  cbn [JS.startsWith startsNonWhite] in *.
  destruct (Ascii.eqb a c) eqn:A; [|reflexivity].
  apply Ascii.eqb_eq in A; subst a; now rewrite W in E.
Qed.

Lemma includes_trim (n s : string) :
  startsNonWhite n = true -> endsNonWhite n = true ->
  JS.includes (JS.trim s) n = JS.includes s n.
Proof.
  intros S E; unfold JS.trim.
  now rewrite (includes_trimEnd _ _ E), (includes_trimStart _ _ S).
Qed.

Lemma startsNonWhite_toUpperCase (n : string) :
  startsNonWhite (JS.toUpperCase n) = startsNonWhite n.
Proof.
  destruct n as [|c s]; [reflexivity|].
  cbn [JS.toUpperCase startsNonWhite].
  destruct (JS.isWhiteSpace c) eqn:W.
  - rewrite (upperUnit_white _ W); cbn; now rewrite W.
  - destruct (upperUnit_text _ W) as [A B].
    destruct (JS.upperUnit c) as [|a u]; [contradiction|].
    cbn in *; now apply andb_true_iff in B as [B _].
Qed.

Lemma append_empty (u t : string) : u ++ t = "" -> u = "" /\ t = "".
Proof. destruct u; [now split | discriminate]. Qed.

Lemma endsNonWhite_app (u t : string) :
  t <> "" -> endsNonWhite (u ++ t) = endsNonWhite t.
Proof.
  intros T; induction u as [|a u IH]; [reflexivity|].
  cbn [append]; rewrite <- IH.
  destruct (u ++ t) eqn:E; [|reflexivity].
  apply append_empty in E as [_ E]; contradiction.
Qed.

Lemma noWhite_endsNonWhite (u : string) :
  noWhite u = true -> endsNonWhite u = true.
Proof.
  induction u as [|a u IH]; [reflexivity|].
  cbn [noWhite]; intros H; apply andb_true_iff in H as [A H].
  destruct u as [|b u]; [exact A | exact (IH H)].
Qed.

Lemma endsNonWhite_toUpperCase (n : string) :
  endsNonWhite (JS.toUpperCase n) = endsNonWhite n.
Proof.
  induction n as [|c s IH]; [reflexivity|].
  cbn [JS.toUpperCase].
  destruct s as [|x s].
  - cbn [JS.toUpperCase]; rewrite append_nil_r.
    destruct (JS.isWhiteSpace c) eqn:W.
    + rewrite (upperUnit_white _ W); cbn; now rewrite W.
    + destruct (upperUnit_text _ W) as [_ B].
      rewrite (noWhite_endsNonWhite _ B); cbn; now rewrite W.
  - rewrite endsNonWhite_app; [exact IH|].
    intros E; apply toUpperCase_empty in E; discriminate.
Qed.

(** For a field name without white space at its ends, the test of the
    column resolver is containment in the whole text of the cell. *)
Lemma containsIgnoringCase_whole (cell name : string) :
  startsNonWhite name = true -> endsNonWhite name = true ->
  containsIgnoringCase cell name
  = JS.includes (JS.toUpperCase cell) (JS.toUpperCase name).
Proof.
  intros S E; unfold containsIgnoringCase.
  rewrite <- trim_toUpperCase.
  apply includes_trim;
    [now rewrite startsNonWhite_toUpperCase | now rewrite endsNonWhite_toUpperCase].
Qed.

(** The leading header rows are the rows before the first row that has no
    header cell. *)
Lemma leadingHeaderRows_spec (table : list Row) :
  exists rest,
    table = (leadingHeaderRows table ++ rest)%list
    /\ Forall (fun row => hasTh row = true) (leadingHeaderRows table)
    /\ match rest with row :: _ => hasTh row = false | [] => True end.
Proof.
  unfold leadingHeaderRows.
  induction table as [|row table (rest & E & F & R)]; [exists []; now repeat split|].
  cbn [countHeaderRows].
  destruct (hasTh row) eqn:H.
  - exists rest; cbn [take]; repeat split;
      [cbn; now rewrite <- E | now constructor | exact R].
  - exists (row :: table); cbn [take]; now repeat split.
Qed.

(** C8. The column resolver does what the specification says: the first
    row that has header cells is checked first, and the index of its first
    cell whose trimmed text contains the field name, case ignored, is
    returned; failing that, the header rows that lead the table are checked
    from the top, up to the first row without a header cell; the field is
    not found exactly when no checked cell matches.  For a field name
    without white space at its ends, as all those of the script are,
    trimming the cell makes no difference to the test. *)
Theorem getColumnIndex_resolution (table : list Row) (name : string) :
  getColumnIndex table name = resolveColumn table name
  /\ (forall row i,
        List.find hasTh table = Some row ->
        firstMatching name (ths row) = Some i ->
        getColumnIndex table name = Z.of_nat i)
  /\ (forall pre row post i,
        List.find hasTh table ≫= (fun r => firstMatching name (ths r)) = None ->
        leadingHeaderRows table = (pre ++ row :: post)%list ->
        Forall (fun r => firstMatching name (ths r) = None) pre ->
        firstMatching name (ths row) = Some i ->
        getColumnIndex table name = Z.of_nat i)
  /\ (getColumnIndex table name = -1 <->
      List.find hasTh table ≫= (fun r => firstMatching name (ths r)) = None
      /\ Forall (fun r => firstMatching name (ths r) = None)
           (leadingHeaderRows table))
  /\ (startsNonWhite name = true -> endsNonWhite name = true ->
      forall cell : string,
        containsIgnoringCase cell name
        = JS.includes (JS.toUpperCase cell) (JS.toUpperCase name)).
Proof.
  split; [apply getColumnIndex_resolveColumn|].
  rewrite getColumnIndex_resolveColumn; unfold resolveColumn.
  split; [|split; [|split]].
  4: { intros S E cell; now apply containsIgnoringCase_whole. }
  - intros row i -> E; cbn [mbind option_bind]; now rewrite E.
  - intros pre row post i -> L F E.
    assert (H : head (omap (fun r => firstMatching name (ths r))
                        (leadingHeaderRows table)) = Some i).
    { apply head_omap_Some; eauto 7. }
    now rewrite H.
  - destruct (List.find hasTh table ≫= _) as [i|].
    + split; [lia | intros [? _]; discriminate].
    + rewrite <- head_omap_None.
      destruct (head _) as [i|]; split; try lia; try tauto.
      intros [_ ?]; discriminate.
Qed.

(** ** The session aggregator *)

Lemma scrapeStep_short (table : list Row) (st : Scrape) (row : Row) :
  isShort row = true ->
  scrapeStep table st row
  = {| courses := courses st; skippedRows := S (skippedRows st);
       invalidRows := invalidRows st;
       currentCourseInfo := currentCourseInfo st;
       parserCalls := parserCalls st |}.
Proof. unfold scrapeStep, isShort; now intros ->. Qed.

Lemma scrapeStep_long (table : list Row) (st : Scrape) (row : Row) :
  isShort row = false ->
  exists info,
    let result := parseTableRow row table info in
    let st' := scrapeStep table st row in
    parserCalls st' = (parserCalls st ++ [(row, info, result)])%list
    /\ skippedRows st' = skippedRows st
    /\ invalidRows st' = (invalidRows st + match result with Some _ => 0 | None => 1 end)%nat
    /\ courses st' = (courses st ++ match result with Some cd => [cd] | None => [] end)%list.
Proof.
  unfold scrapeStep, isShort; intros ->.
  eexists; cbv zeta.
  match goal with |- context [parseTableRow row table ?i] =>
    destruct (parseTableRow row table i) eqn:E end; cbn.
  - rewrite E; repeat split; lia.
  - rewrite E; repeat split; try lia. now rewrite app_nil_r.
Qed.

Lemma filter_app_bool {A} (p : A -> bool) (l1 l2 : list A) :
  List.filter p (l1 ++ l2) = (List.filter p l1 ++ List.filter p l2)%list.
Proof. apply List.filter_app. Qed.

Lemma scrapeStep_invariant (table : list Row) (st : Scrape) (row : Row) :
  scrapeInvariant table st -> scrapeInvariant table (scrapeStep table st row).
Proof.
  intros (I & C & F).
  destruct (isShort row) eqn:S.
  - rewrite (scrapeStep_short _ _ _ S); now repeat split.
  - destruct (scrapeStep_long table st row S) as (info & Hc & _ & Hi & Hk).
    cbv zeta in *. unfold scrapeInvariant. rewrite Hc, Hi, Hk.
    rewrite filter_app_bool, length_app, omap_app, I, C.
    repeat split;
      try (cbn; destruct (parseTableRow row table info); reflexivity).
    apply Forall_app; split; [exact F|].
    constructor; [|constructor]. now split.
Qed.

Lemma scrapeLoop_invariant (table rows : list Row) (st : Scrape) :
  scrapeInvariant table st -> scrapeInvariant table (scrapeLoop table rows st).
Proof.
  revert st; induction rows as [|row rows IH]; intros st H; [exact H|].
  cbn [scrapeLoop fold_left]. apply IH, scrapeStep_invariant, H.
Qed.

Lemma scrapeLoop_rows (table rows : list Row) (st : Scrape) :
  let st' := scrapeLoop table rows st in
  skippedRows st' = (skippedRows st + length (List.filter isShort rows))%nat
  /\ callRow <$> parserCalls st'
     = ((callRow <$> parserCalls st)
          ++ List.filter (fun row => negb (isShort row)) rows)%list.
Proof.
  revert st; induction rows as [|row rows IH]; intros st; cbv zeta.
  - cbn; split; [lia | now rewrite app_nil_r].
  - cbn [scrapeLoop fold_left List.filter].
    destruct (IH (scrapeStep table st row)) as [A B]; unfold scrapeLoop in *.
    rewrite A, B; clear A B IH.
    destruct (isShort row) eqn:S; cbn [negb].
    + rewrite (scrapeStep_short _ _ _ S); cbn; split; [lia | reflexivity].
    + destruct (scrapeStep_long table st row S) as (info & Hc & Hs & _).
      cbv zeta in *; rewrite Hc, Hs, fmap_app; cbn.
      split; [reflexivity | now rewrite <- app_assoc].
Qed.

(** C6. In the aggregation of a table, the rows after the leading header
    rows that have fewer than three cells are counted as skipped and are
    the only ones so counted; the row parser is called on the other rows,
    in order, and on no other row; the invalid rows are the calls of the
    row parser that returned no record.  A short row changes nothing but
    the count of skipped rows. *)
Theorem scrapeCourseData_counters (table : list Row) :
  let dataRows := drop (countHeaderRows table) table in
  let st := scrapeRows table in
  skippedRows st = length (List.filter isShort dataRows)
  /\ callRow <$> parserCalls st
     = List.filter (fun row => negb (isShort row)) dataRows
  /\ Forall (fun call =>
               isShort (callRow call) = false
               /\ callResult call
                  = parseTableRow (callRow call) table (callInfo call))
       (parserCalls st)
  /\ invalidRows st = length (List.filter noRecord (parserCalls st))
  /\ courses st = omap callResult (parserCalls st)
  /\ (forall (st0 : Scrape) (row : Row),
        isShort row = true ->
        scrapeStep table st0 row
        = {| courses := courses st0; skippedRows := S (skippedRows st0);
             invalidRows := invalidRows st0;
             currentCourseInfo := currentCourseInfo st0;
             parserCalls := parserCalls st0 |}).
Proof.
  intros dataRows st.
  destruct (scrapeLoop_rows table dataRows scrapeStart) as [A B].
  assert (I : scrapeInvariant table st).
  { apply scrapeLoop_invariant; repeat split; constructor. }
  destruct I as (I & C & F).
  split; [exact A|]. split; [exact B|].
  split; [exact F|]. split; [exact I|]. split; [exact C|].
  apply scrapeStep_short.
Qed.

(** ** Further properties of the code *)

Lemma matchRep_true (cls : ascii -> bool) (k : string -> bool) (hi lo : nat)
    (s : string) :
  Regex.matchRep cls lo hi k s = true ->
  exists a rest,
    s = a ++ rest /\ (lo <= String.length a <= hi)%nat
    /\ forallb cls (list_ascii_of_string a) = true /\ k rest = true.
Proof.
  revert lo s; induction hi as [|hi IH]; intros lo s H.
  - cbn [Regex.matchRep] in H; rewrite orb_false_r in H.
    apply andb_true_iff in H as [L K]; apply Nat.eqb_eq in L; subst lo.
    exists "", s; repeat split; auto.
  - cbn [Regex.matchRep] in H; apply orb_true_iff in H as [H|H].
    + apply andb_true_iff in H as [L K]; apply Nat.eqb_eq in L; subst lo.
      exists "", s; repeat split; auto; simpl; lia.
    + destruct s as [|c s]; [discriminate|].
      apply andb_true_iff in H as [C H].
      destruct (IH _ _ H) as (a & rest & -> & L & F & K).
      exists (String c a), rest; repeat split; auto.
      * simpl; lia.
      * simpl; lia.
      * cbn [list_ascii_of_string forallb]; now rewrite C, F.
Qed.

Lemma forallb_chr (c : ascii) (a : string) :
  String.length a = 1%nat ->
  forallb (Regex.chr c) (list_ascii_of_string a) = true -> a = String c "".
Proof.
  destruct a as [|x [|y a]]; try discriminate; intros _.
  cbn; rewrite andb_true_r; unfold Regex.chr; intros E.
  now apply Ascii.eqb_eq in E as ->.
Qed.

(** A text matched by the time pattern is two sides of three or four
    digits around a hyphen. *)
Lemma isTime_sides (t : string) :
  isTime t = true ->
  exists a b, t = a ++ "-" ++ b /\ isSide a = true /\ isSide b = true.
Proof.
  unfold isTime, Regex.matches, Regex.timePattern; cbn [fold_right Regex.cls Regex.lo Regex.hi].
  intros H.
  apply matchRep_true in H as (a & r1 & -> & La & Fa & H).
  apply matchRep_true in H as (h & r2 & -> & Lh & Fh & H).
  apply matchRep_true in H as (b & r3 & -> & Lb & Fb & H).
  apply negb_true_iff, truthy_false in H; subst r3.
  rewrite (forallb_chr "-" h) by (auto; lia).
  rewrite append_nil_r.
  exists a, b; split; [reflexivity|].
  unfold isSide, JS.allDigits; rewrite Fa, Fb; cbn [andb].
  split; apply orb_true_iff.
  - destruct (Nat.eq_dec (String.length a) 3%nat) as [->|]; [now left|right].
    apply Nat.eqb_eq; lia.
  - destruct (Nat.eq_dec (String.length b) 3%nat) as [->|]; [now left|right].
    apply Nat.eqb_eq; lia.
Qed.

Lemma hoursMinutes_shape (a : string) :
  isSide a = true -> Regex.matches hhmmPattern (hoursMinutes a) = true.
Proof.
  unfold isSide; intros H; apply andb_true_iff in H as [D L].
  destruct a as [|c1 [|c2 [|c3 [|c4 [|c5 r]]]]]; try discriminate L.
  - rewrite !allDigits_cons in D.
    apply andb_true_iff in D as [D1 D]; apply andb_true_iff in D as [D2 D].
    apply andb_true_iff in D as [D3 _].
    cbn -[JS.isDigit]; rewrite D1, D2, D3; reflexivity.
  - rewrite !allDigits_cons in D.
    apply andb_true_iff in D as [D1 D]; apply andb_true_iff in D as [D2 D].
    apply andb_true_iff in D as [D3 D]; apply andb_true_iff in D as [D4 _].
    cbn -[JS.isDigit]; rewrite D1, D2, D3, D4; reflexivity.
Qed.

Lemma split_sides (a b : string) :
  isSide a = true -> isSide b = true -> JS.split "-" (a ++ "-" ++ b) = [a; b].
Proof.
  intros Ha Hb.
  change ("-" ++ b) with (String "-" b).
  rewrite split_app by (apply allDigits_countChar; [reflexivity | now apply isSide_digits]).
  rewrite split_none by (apply allDigits_countChar; [reflexivity | now apply isSide_digits]).
  reflexivity.
Qed.

(** X1. A text that the row parser takes for a time range is two sides of
    three or four digits around a hyphen, and the time decoder reads it:
    each side gives its hours and minutes, of the shape HH:MM. *)
Theorem isTime_parseBannerTime (t : string) :
  isTime t = true ->
  exists a b,
    t = a ++ "-" ++ b
    /\ parseBannerTime t
       = Some {| td_start := hoursMinutes a; td_end := hoursMinutes b |}
    /\ Regex.matches hhmmPattern (hoursMinutes a) = true
    /\ Regex.matches hhmmPattern (hoursMinutes b) = true.
Proof.
  intros H; destruct (isTime_sides t H) as (a & b & -> & Ha & Hb).
  exists a, b; repeat split.
  - apply parseBannerTime_two_sides; auto using split_sides.
  - now apply hoursMinutes_shape.
  - now apply hoursMinutes_shape.
Qed.

Lemma length_append (a b : string) :
  String.length (a ++ b) = (String.length a + String.length b)%nat.
Proof. induction a; simpl; congruence. Qed.

Lemma allDigits_app (a b : string) :
  JS.allDigits (a ++ b) = JS.allDigits a && JS.allDigits b.
Proof.
  induction a as [|c a IH]; [reflexivity|].
  cbn [append]; rewrite !allDigits_cons, IH; apply andb_assoc.
Qed.

(** The two halves of the reading of a side: two digits each, which
    together are the side padded to four characters. *)
Lemma hoursMinutes_parts (a : string) :
  isSide a = true ->
  exists hh mm,
    hoursMinutes a = hh ++ ":" ++ mm
    /\ JS.allDigits hh = true /\ String.length hh = 2%nat
    /\ JS.allDigits mm = true /\ String.length mm = 2%nat
    /\ hh ++ mm = JS.padStart 4 "0" a.
Proof.
  unfold isSide; intros H; apply andb_true_iff in H as [D L].
  destruct a as [|c1 [|c2 [|c3 [|c4 [|c5 r]]]]]; try discriminate L;
    rewrite !allDigits_cons in D;
    repeat (let X := fresh "D" in apply andb_true_iff in D as [X D]).
  - exists (String "0" (String c1 "")), (String c2 (String c3 "")).
    repeat split; try reflexivity; rewrite !allDigits_cons;
      rewrite ?D0, ?D1, ?D2; reflexivity.
  - exists (String c1 (String c2 "")), (String c3 (String c4 "")).
    repeat split; try reflexivity; rewrite !allDigits_cons;
      rewrite ?D0, ?D1, ?D2, ?D3; reflexivity.
Qed.

Lemma padStart_full (n : nat) (c : ascii) (s : string) :
  (n <= String.length s)%nat -> JS.padStart n c s = s.
Proof.
  intros H; unfold JS.padStart.
  replace (n - String.length s)%nat with 0%nat by lia; reflexivity.
Qed.

(** The time decoder followed by the calendar formatter: a side of three
    or four digits becomes [date T HHMM 00]. *)
Lemma formatICSDateTime_side (dateStr a : string) :
  JS.truthy dateStr = true -> isSide a = true ->
  formatICSDateTime dateStr (hoursMinutes a)
  = Some (dateStr ++ "T" ++ JS.padStart 4 "0" a ++ "00").
Proof.
  intros T H.
  destruct (hoursMinutes_parts a H) as (hh & mm & -> & Dh & Lh & Dm & Lm & <-).
  unfold formatICSDateTime; rewrite T.
  replace (JS.truthy (hh ++ ":" ++ mm)) with true
    by (destruct hh; [discriminate Lh | reflexivity]).
  cbn [negb orb].
  change (":" ++ mm) with (String ":" mm).
  rewrite split_app by (now apply allDigits_countChar).
  rewrite split_none by (now apply allDigits_countChar).
  rewrite !padStart_full by lia.
  now rewrite append_assoc.
Qed.

Lemma unlines_app (l1 l2 : list string) :
  unlines (l1 ++ l2)%list = unlines l1 ++ unlines l2.
Proof.
  induction l1 as [|l l1 IH]; [reflexivity|].
  cbn [app unlines]; now rewrite IH, !append_assoc.
Qed.

Section Anatomy.
Variable legacyParse : string -> option Z.

(** X4. The event of a session that is not an exam, once its start date
    and its time range decode: BEGIN, the start and the end on the start
    date at the two times of the range, the weekly recurrence when the
    session has days and an end date that decodes, then the summary (the
    course label and the type), the description, the location and END,
    each line closed by CR LF. *)
Theorem createEvent_weekly (c : CourseData) (startDate a b : string) :
  String.eqb (cd_type c) "EXAM" = false ->
  parseBannerDate legacyParse (cd_start c) = Some startDate ->
  cd_time c = a ++ "-" ++ b -> isSide a = true -> isSide b = true ->
  createEvent legacyParse c
  = Some (unlines
            (["BEGIN:VEVENT"; dateTimeLine "DTSTART" startDate a;
              dateTimeLine "DTEND" startDate b]
             ++ rruleLines (parseBannerDays (cd_days c))
                  (parseBannerDate legacyParse (cd_end c))
             ++ textLines c (courseLabel c ++ " " ++ cd_type c))%list).
Proof.
  intros X D E Ha Hb.
  pose proof (parseBannerDate_truthy legacyParse _ _ D) as T.
  unfold createEvent; rewrite D, E.
  rewrite (parseBannerTime_two_sides (a ++ "-" ++ b) a b)
    by auto using split_sides.
  rewrite T; cbn [negb].
  unfold buildEvent; cbn [td_start td_end].
  rewrite !formatICSDateTime_side by assumption.
  cbn [mbind option_bind]; rewrite X; cbn [negb].
  fold (courseLabel c).
  assert (R : forall ics : string,
             match parseBannerDate legacyParse (cd_end c) with
             | Some endDate =>
                 if (0 <? length (parseBannerDays (cd_days c)))%nat
                    && JS.truthy endDate
                 then Some (ics ++ "RRULE:FREQ=WEEKLY;BYDAY="
                              ++ JS.join "," (parseBannerDays (cd_days c))
                              ++ ";UNTIL=" ++ formatICSDateTimeUTC endDate "23:59"
                              ++ CRLF)
                 else Some ics
             | None => Some ics
             end
             = Some (ics ++ unlines (rruleLines (parseBannerDays (cd_days c))
                                      (parseBannerDate legacyParse (cd_end c))))).
  { intros ics; unfold rruleLines.
    destruct (parseBannerDate legacyParse (cd_end c)) as [endDate|] eqn:De;
      [|now rewrite append_nil_r].
    rewrite (parseBannerDate_truthy legacyParse _ _ De), andb_true_r.
    destruct (parseBannerDays (cd_days c)); cbn [length Nat.ltb Nat.leb];
      [now rewrite append_nil_r|].
    cbn [unlines]; now rewrite !append_assoc. }
  rewrite R; cbn [mbind option_bind].
  apply (f_equal Some).
  rewrite !unlines_app; unfold textLines, dateTimeLine; cbn [unlines].
  rewrite !append_assoc; reflexivity.
Qed.
End Anatomy.

(** A text matched by the date pattern is a day field, three letters and a
    year field around two hyphens. *)
Lemma isDate_fields (s : string) :
  isDate s = true ->
  exists dd mon yyyy,
    s = dd ++ "-" ++ mon ++ "-" ++ yyyy
    /\ isDayField dd = true /\ allLetters mon = true
    /\ String.length mon = 3%nat /\ isYearField yyyy = true.
Proof.
  unfold isDate, Regex.matches, Regex.datePattern;
    cbn [fold_right Regex.cls Regex.lo Regex.hi].
  intros H.
  apply matchRep_true in H as (dd & r1 & -> & Ld & Fd & H).
  apply matchRep_true in H as (h1 & r2 & -> & L1 & F1 & H).
  apply matchRep_true in H as (mon & r3 & -> & Lm & Fm & H).
  apply matchRep_true in H as (h2 & r4 & -> & L2 & F2 & H).
  apply matchRep_true in H as (yyyy & r5 & -> & Ly & Fy & H).
  apply negb_true_iff, truthy_false in H; subst r5.
  rewrite (forallb_chr "-" h1), (forallb_chr "-" h2) by (auto; lia).
  rewrite append_nil_r.
  exists dd, mon, yyyy; split; [reflexivity|].
  unfold isDayField, isYearField, allLetters, JS.allDigits; rewrite Fd, Fm, Fy.
  cbn [andb]; repeat split.
  - apply orb_true_iff.
    destruct (Nat.eq_dec (String.length dd) 1%nat) as [->|]; [now left|right].
    apply Nat.eqb_eq; lia.
  - lia.
  - apply Nat.eqb_eq; lia.
Qed.

Section DateShape.
Variable legacyParse : string -> option Z.

(** A text that the row parser takes for a date either fails to decode or
    decodes to eight digits. *)
Lemma isDate_decoded_digits (s d : string) :
  isDate s = true -> parseBannerDate legacyParse s = Some d ->
  JS.allDigits d = true /\ String.length d = 8%nat.
Proof.
  intros H P.
  destruct (isDate_fields s H) as (dd & mon & yyyy & -> & Hd & Hm & _ & Hy).
  destruct (banner_date_split dd mon yyyy Hd Hm Hy) as (T & R & S).
  unfold parseBannerDate in P; rewrite T, R, S in P; cbn [negb] in P.
  destruct (lookupKey MONTH_MAP (JS.toUpperCase mon)) as [mm|] eqn:K;
    [|discriminate].
  destruct (negb (JS.truthy mm)); [discriminate|].
  destruct (JSDate.parse _ _); [|discriminate].
  injection P as <-.
  destruct (monthValue _ _ K) as (m1 & m2 & -> & M1 & M2 & _).
  destruct (digitsValue_padded _ Hd) as (d1 & d2 & -> & D1 & D2 & _).
  destruct (yearField_shape _ Hy) as (y1 & y2 & y3 & y4 & -> & Y1 & Y2 & Y3 & Y4 & _).
  cbn [append]; rewrite !allDigits_cons, Y1, Y2, Y3, Y4, M1, M2, D1, D2.
  split; reflexivity.
Qed.
End DateShape.

Lemma startsWith_refl_app (p s : string) : JS.startsWith p (p ++ s) = true.
Proof. induction p as [|c p IH]; [reflexivity|]. cbn. now rewrite Ascii.eqb_refl. Qed.

Lemma indexOf_here (p s : string) : JS.indexOf p (p ++ s) = Some 0%nat.
Proof.
  destruct p as [|c p]; [now destruct s|].
  cbn [append JS.indexOf].
  change (String c (p ++ s)) with (String c p ++ s).
  now rewrite startsWith_refl_app.
Qed.

Lemma indexOf_skip (c : ascii) (p x s : string) :
  countChar c x = 0%nat ->
  JS.indexOf (String c p) (x ++ s)
  = (fun i => (String.length x + i)%nat) <$> JS.indexOf (String c p) s.
Proof.
  induction x as [|a x IH]; intros H.
  - cbn [append String.length]. now destruct (JS.indexOf _ s).
  - cbn [countChar] in H. destruct (Ascii.eqb a c) eqn:E; [discriminate|].
    cbn [append JS.indexOf JS.startsWith].
    rewrite Ascii.eqb_sym, E; cbn [andb].
    rewrite (IH H). now destruct (JS.indexOf _ s).
Qed.

Lemma getSubstitution_plain (m b a repl : string) :
  countChar "$" repl = 0%nat -> JS.getSubstitution m b a repl = repl.
Proof.
  induction repl as [|c r IH]; [reflexivity|].
  cbn [countChar JS.getSubstitution].
  destruct (Ascii.eqb c "$"); [discriminate|].
  intros H; now rewrite (IH H).
Qed.

Lemma substring_prefix (u v : string) :
  String.substring 0 (String.length u) (u ++ v) = u.
Proof. induction u as [|c u IH]; [now destruct v|]. cbn. now rewrite IH. Qed.

Lemma substring_whole (v : string) : String.substring 0 (String.length v) v = v.
Proof. rewrite <- (append_nil_r v) at 2. apply substring_prefix. Qed.

Lemma substringFrom_suffix (u v : string) :
  JS.substringFrom (String.length u) (u ++ v) = v.
Proof.
  unfold JS.substringFrom, JS.substring.
  rewrite length_append.
  rewrite (Nat.min_l (String.length u)) by lia.
  rewrite Nat.min_id, Nat.min_l, Nat.max_r by lia.
  replace (String.length u + String.length v - String.length u)%nat
    with (String.length v) by lia.
  induction u as [|c u IH]; [apply substring_whole | exact IH].
Qed.

(** Replacing a pattern whose first occurrence is known, by a text
    without dollar sign. *)
Lemma replace_at (pat repl u v : string) :
  JS.indexOf pat (u ++ pat ++ v) = Some (String.length u) ->
  countChar "$" repl = 0%nat ->
  JS.replace pat repl (u ++ pat ++ v) = u ++ repl ++ v.
Proof.
  intros I D; unfold JS.replace; rewrite I.
  cbv zeta; rewrite substring_prefix, (getSubstitution_plain _ _ _ _ D).
  assert (A : JS.substringFrom (String.length u + String.length pat)
                (u ++ pat ++ v) = v).
  { rewrite <- length_append, <- append_assoc. apply substringFrom_suffix. }
  now rewrite A.
Qed.

Lemma allDigits_count (c : ascii) (s : string) :
  JS.isDigit c = false -> JS.allDigits s = true -> countChar c s = 0%nat.
Proof. apply allDigits_countChar. Qed.

Lemma padStart_digits (a : string) :
  isSide a = true -> JS.allDigits (JS.padStart 4 "0" a) = true.
Proof.
  intros H; destruct (hoursMinutes_parts a H) as (hh & mm & _ & Dh & _ & Dm & _ & <-).
  now rewrite allDigits_app, Dh, Dm.
Qed.

Lemma indexOf_skip3 (c1 c2 c3 : ascii) (p x s : string) :
  noTriple c1 c2 c3 x = true ->
  JS.indexOf (String c1 (String c2 (String c3 p))) (x ++ s)
  = (fun i => (String.length x + i)%nat)
      <$> JS.indexOf (String c1 (String c2 (String c3 p))) s.
Proof.
  induction x as [|a x IH]; intros H.
  - cbn [append String.length]. now destruct (JS.indexOf _ s).
  - cbn [noTriple] in H; apply andb_true_iff in H as [H N].
    apply negb_true_iff in H.
    cbn [append JS.indexOf].
    assert (F : JS.startsWith (String c1 (String c2 (String c3 p)))
                  (String a (x ++ s)) = false).
    { cbn [JS.startsWith].
      destruct (Ascii.eqb c1 a); [|reflexivity].
      destruct x as [|b x]; [discriminate H|].
      cbn [append andb] in *.
      destruct (Ascii.eqb c2 b); [|reflexivity].
      destruct x as [|d x]; [discriminate H|].
      cbn [append andb] in *. now rewrite H. }
    rewrite F, (IH N). now destruct (JS.indexOf _ s).
Qed.

Section Exam.
Variable legacyParse : string -> option Z.

Lemma exam_replace (sd ed a b : string) :
  JS.allDigits sd = true -> JS.allDigits ed = true ->
  isSide a = true -> isSide b = true ->
  JS.replace ("DTEND;TZID=America/Los_Angeles:" ++ sd ++ "T" ++ JS.padStart 4 "0" b ++ "00")
    ("DTEND;TZID=America/Los_Angeles:" ++ ed ++ "T" ++ JS.padStart 4 "0" b ++ "00")
    ((("BEGIN:VEVENT" ++ CRLF) ++ "DTSTART;TZID=America/Los_Angeles:"
        ++ (sd ++ "T" ++ JS.padStart 4 "0" a ++ "00") ++ CRLF)
       ++ "DTEND;TZID=America/Los_Angeles:"
       ++ (sd ++ "T" ++ JS.padStart 4 "0" b ++ "00") ++ CRLF)
  = unlines ["BEGIN:VEVENT"; dateTimeLine "DTSTART" sd a; dateTimeLine "DTEND" ed b].
Proof.
  intros Ds De Ha Hb.
  pose proof (padStart_digits a Ha) as Pa.
  pose proof (padStart_digits b Hb) as Pb.
  set (pa := JS.padStart 4 "0" a) in *; set (pb := JS.padStart 4 "0" b) in *.
  set (pat := "DTEND;TZID=America/Los_Angeles:" ++ sd ++ "T" ++ pb ++ "00").
  set (lit := "BEGIN:VEVENT" ++ CRLF ++ "DTSTART;TZID=America/Los_Angeles:").
  set (x := sd ++ "T" ++ pa ++ "00" ++ CRLF).
  replace ((("BEGIN:VEVENT" ++ CRLF) ++ "DTSTART;TZID=America/Los_Angeles:"
              ++ (sd ++ "T" ++ pa ++ "00") ++ CRLF)
             ++ "DTEND;TZID=America/Los_Angeles:" ++ (sd ++ "T" ++ pb ++ "00") ++ CRLF)
    with ((lit ++ x) ++ pat ++ CRLF)
    by (subst lit x pat; rewrite !append_assoc; reflexivity).
  rewrite replace_at.
  - subst lit x; unfold dateTimeLine; cbn [unlines]; fold pa pb.
    rewrite !append_assoc; reflexivity.
  - rewrite append_assoc.
    change pat with (String "D" (String "T" (String "E"
                       ("ND;TZID=America/Los_Angeles:" ++ sd ++ "T" ++ pb ++ "00")))).
    rewrite (indexOf_skip3 "D" "T" "E" _ lit) by reflexivity.
    rewrite (indexOf_skip "D" _ x).
    + change (String "D" (String "T" (String "E"
                ("ND;TZID=America/Los_Angeles:" ++ sd ++ "T" ++ pb ++ "00"))))
        with pat.
      rewrite indexOf_here; cbn [fmap option_fmap option_map].
      now rewrite length_append, Nat.add_0_r.
    + subst x; rewrite !countChar_app.
      rewrite (allDigits_count "D" sd), (allDigits_count "D" pa) by auto.
      reflexivity.
  - rewrite !countChar_app.
    rewrite (allDigits_count "$" ed), (allDigits_count "$" pb) by auto.
    reflexivity.
Qed.

Lemma createEvent_exam_digits (c : CourseData) (startDate a b : string) :
  cd_type c = "EXAM" ->
  parseBannerDate legacyParse (cd_start c) = Some startDate ->
  JS.allDigits startDate = true ->
  (forall endDate, parseBannerDate legacyParse (cd_end c) = Some endDate ->
                   JS.allDigits endDate = true) ->
  cd_time c = a ++ "-" ++ b -> isSide a = true -> isSide b = true ->
  createEvent legacyParse c
  = Some (unlines
            (["BEGIN:VEVENT"; dateTimeLine "DTSTART" startDate a;
              dateTimeLine "DTEND"
                (default startDate (parseBannerDate legacyParse (cd_end c))) b]
             ++ textLines c ("FINAL EXAM - " ++ courseLabel c))%list).
Proof.
  intros X D Ds De E Ha Hb.
  pose proof (parseBannerDate_truthy legacyParse _ _ D) as T.
  unfold createEvent; rewrite D, E.
  rewrite (parseBannerTime_two_sides (a ++ "-" ++ b) a b)
    by auto using split_sides.
  rewrite T; cbn [negb].
  unfold buildEvent; cbn [td_start td_end].
  rewrite !formatICSDateTime_side by assumption.
  cbn [mbind option_bind]; rewrite X.
  change (String.eqb "EXAM" "EXAM") with true; cbn [negb].
  fold (courseLabel c).
  assert (R : match parseBannerDate legacyParse (cd_end c) with
              | Some endDate =>
                  if JS.truthy endDate && negb (String.eqb endDate startDate)
                  then
                    formatICSDateTime endDate (hoursMinutes b)
                    ≫= (fun examEnd =>
                          Some (JS.replace
                                  ("DTEND;TZID=America/Los_Angeles:"
                                   ++ startDate ++ "T" ++ JS.padStart 4 "0" b ++ "00")
                                  ("DTEND;TZID=America/Los_Angeles:" ++ examEnd)
                                  ((("BEGIN:VEVENT" ++ CRLF)
                                    ++ "DTSTART;TZID=America/Los_Angeles:"
                                    ++ (startDate ++ "T" ++ JS.padStart 4 "0" a ++ "00")
                                    ++ CRLF)
                                   ++ "DTEND;TZID=America/Los_Angeles:"
                                   ++ (startDate ++ "T" ++ JS.padStart 4 "0" b ++ "00")
                                   ++ CRLF)))
                  else
                    Some ((("BEGIN:VEVENT" ++ CRLF)
                           ++ "DTSTART;TZID=America/Los_Angeles:"
                           ++ (startDate ++ "T" ++ JS.padStart 4 "0" a ++ "00")
                           ++ CRLF)
                          ++ "DTEND;TZID=America/Los_Angeles:"
                          ++ (startDate ++ "T" ++ JS.padStart 4 "0" b ++ "00")
                          ++ CRLF)
              | None =>
                  Some ((("BEGIN:VEVENT" ++ CRLF)
                         ++ "DTSTART;TZID=America/Los_Angeles:"
                         ++ (startDate ++ "T" ++ JS.padStart 4 "0" a ++ "00")
                         ++ CRLF)
                        ++ "DTEND;TZID=America/Los_Angeles:"
                        ++ (startDate ++ "T" ++ JS.padStart 4 "0" b ++ "00")
                        ++ CRLF)
              end
              = Some (unlines
                        ["BEGIN:VEVENT"; dateTimeLine "DTSTART" startDate a;
                         dateTimeLine "DTEND"
                           (default startDate
                              (parseBannerDate legacyParse (cd_end c))) b])).
  { assert (Same : Some ((("BEGIN:VEVENT" ++ CRLF)
                         ++ "DTSTART;TZID=America/Los_Angeles:"
                         ++ (startDate ++ "T" ++ JS.padStart 4 "0" a ++ "00")
                         ++ CRLF)
                        ++ "DTEND;TZID=America/Los_Angeles:"
                        ++ (startDate ++ "T" ++ JS.padStart 4 "0" b ++ "00")
                        ++ CRLF)
                   = Some (unlines
                        ["BEGIN:VEVENT"; dateTimeLine "DTSTART" startDate a;
                         dateTimeLine "DTEND" startDate b])).
    { apply (f_equal Some); unfold dateTimeLine; cbn [unlines].
      rewrite !append_assoc; reflexivity. }
    destruct (parseBannerDate legacyParse (cd_end c)) as [endDate|] eqn:Dn;
      cbn [default]; [|exact Same].
    rewrite (parseBannerDate_truthy legacyParse _ _ Dn); cbn [andb].
    destruct (String.eqb_spec endDate startDate) as [->|Ne]; cbn [negb];
      [exact Same|].
    rewrite formatICSDateTime_side
      by (auto; apply (parseBannerDate_truthy legacyParse _ _ Dn)).
    cbn [mbind option_bind]; apply (f_equal Some).
    apply exam_replace; auto. }
  rewrite R; cbn [mbind option_bind].
  apply (f_equal Some).
  rewrite unlines_app; unfold textLines; cbn [unlines].
  rewrite !append_assoc; reflexivity.
Qed.

(** X5. The event of an exam: no recurrence; the end is on the end date
    when there is one that decodes, on the start date otherwise, at the end
    time; the summary is FINAL EXAM and the course label. *)
Theorem createEvent_exam (c : CourseData) (startDate a b : string) :
  cd_type c = "EXAM" ->
  isDate (cd_start c) = true ->
  cd_end c = "" \/ isDate (cd_end c) = true ->
  parseBannerDate legacyParse (cd_start c) = Some startDate ->
  cd_time c = a ++ "-" ++ b -> isSide a = true -> isSide b = true ->
  createEvent legacyParse c
  = Some (unlines
            (["BEGIN:VEVENT"; dateTimeLine "DTSTART" startDate a;
              dateTimeLine "DTEND"
                (default startDate (parseBannerDate legacyParse (cd_end c))) b]
             ++ textLines c ("FINAL EXAM - " ++ courseLabel c))%list).
Proof.
  intros X Is Ie D E Ha Hb.
  apply createEvent_exam_digits; try assumption.
  - exact (proj1 (isDate_decoded_digits legacyParse _ _ Is D)).
  - intros endDate De; destruct Ie as [Ie|Ie].
    + rewrite Ie in De; discriminate De.
    + exact (proj1 (isDate_decoded_digits legacyParse _ _ Ie De)).
Qed.
End Exam.

Lemma parseInt_digits (c : ascii) (s : string) :
  JS.allDigits (String c s) = true ->
  JS.parseInt (String c s) = Some (JS.digitsValue 0 (String c s)).
Proof.
  rewrite allDigits_cons; intros H; apply andb_true_iff in H as [D _].
  unfold JS.parseInt; cbn [JS.trimStart].
  rewrite (isDigit_not_white _ D).
  rewrite (isDigit_not_char c "-"), (isDigit_not_char c "+") by auto.
  rewrite D. f_equal. lia.
Qed.

Lemma MakeDay_month (y m d : Z) :
  1 <= m <= 12 ->
  JSDate.MakeDay y (m - 1) d
  = JSDate.DayFromYear y
    + JSDate.monthStart (if JSDate.DaysInYear y =? 366 then 1 else 0) (m - 1)
    + d - 1.
Proof.
  intros H; unfold JSDate.MakeDay.
  now rewrite (Z.div_small (m - 1) 12), (Z.mod_small (m - 1) 12), Z.add_0_r by lia.
Qed.

Lemma daysInMonth_range (y m : Z) : 28 <= daysInMonth y m <= 31.
Proof.
  unfold daysInMonth.
  repeat match goal with |- context [match ?x with _ => _ end] => destruct x end;
    lia.
Qed.

Lemma nextDay_valid (y m d : Z) :
  calendarValid y m d = true ->
  let '(y', m', d') := nextDay y m d in
  calendarValid y' m' d' = true
  /\ JSDate.MakeDay y' (m' - 1) d' = JSDate.MakeDay y (m - 1) d + 1.
Proof.
  unfold calendarValid; intros V.
  repeat (apply andb_true_iff in V as [V ?]).
  assert (Hm : 1 <= m <= 12) by lia.
  assert (Hd : 1 <= d <= daysInMonth y m) by lia.
  clear V H H0 H1.
  unfold nextDay.
  destruct (Z.ltb_spec d (daysInMonth y m)) as [L|L].
  - split; [|rewrite !MakeDay_month by lia; lia].
    repeat (apply andb_true_iff; split); lia.
  - assert (d = daysInMonth y m) by lia; subst d.
    destruct (monthStart_next y (m - 1) ltac:(lia)) as (N & _ & Q).
    cbv zeta in N, Q. replace (m - 1 + 1) with m in * by lia.
    destruct (Z.ltb_spec m 12) as [M|M].
    + pose proof (daysInMonth_range y (m + 1)).
      split; [repeat (apply andb_true_iff; split); lia|].
      rewrite !MakeDay_month by lia.
      replace (m + 1 - 1) with m by lia. lia.
    + assert (m = 12) by lia; subst m.
      pose proof (daysInMonth_range (y + 1) 1).
      split; [repeat (apply andb_true_iff; split); lia|].
      rewrite !MakeDay_month by lia.
      rewrite DayFromYear_next.
      change (1 - 1) with 0; change (12 - 1) with 11 in *.
      cbn [JSDate.monthStart] in *.
      assert (365 + (if JSDate.DaysInYear y =? 366 then 1 else 0)
              = JSDate.DaysInYear y).
      { unfold JSDate.DaysInYear.
        destruct (y mod 4 =? 0), (y mod 100 =? 0), (y mod 400 =? 0); reflexivity. }
      lia.
Qed.

Lemma MakeFullYear_range (y : Z) :
  0 <= y <= 9999 -> 0 <= JSDate.MakeFullYear y <= 9999.
Proof.
  unfold JSDate.MakeFullYear; intros H.
  destruct ((0 <=? y) && (y <=? 99)) eqn:E; [|lia].
  apply andb_true_iff in E as [A B]; lia.
Qed.

Lemma MakeDay_range (y m d : Z) :
  0 <= y <= 10000 -> 1 <= m <= 12 -> 1 <= d <= 31 ->
  -720000 <= JSDate.MakeDay y (m - 1) d <= 2940000.
Proof.
  intros Hy Hm Hd; rewrite MakeDay_month by lia.
  set (leap := if JSDate.DaysInYear y =? 366 then 1 else 0).
  assert (Hl : 0 <= leap <= 1) by (subst leap; destruct (_ =? _); lia).
  pose proof (monthStart_range leap (m - 1) Hl ltac:(lia)).
  unfold JSDate.DayFromYear. Z.div_mod_to_equations; lia.
Qed.

Lemma timeOfDay_fields (day tod : Z) :
  0 <= tod < JSDate.msPerDay ->
  JSDate.HourFromTime (JSDate.MakeDate day tod) = tod / JSDate.msPerHour
  /\ JSDate.MinFromTime (JSDate.MakeDate day tod)
     = (tod / JSDate.msPerMinute) mod 60.
Proof.
  unfold JSDate.HourFromTime, JSDate.MinFromTime, JSDate.MakeDate,
    JSDate.msPerDay, JSDate.msPerHour, JSDate.msPerMinute.
  intros H; split; Z.div_mod_to_equations; lia.
Qed.


Lemma filter_split_length {A} (p : A -> bool) (l : list A) :
  (length (List.filter p l) + length (List.filter (fun x => negb (p x)) l))%nat
  = length l.
Proof.
  induction l as [|x l IH]; [reflexivity|].
  cbn [List.filter]; destruct (p x); cbn [negb length]; lia.
Qed.

Lemma noRecord_split (calls : list (Row * CourseInfo * option CourseData)) :
  (length (List.filter noRecord calls) + length (omap callResult calls))%nat
  = length calls.
Proof.
  induction calls as [|[[row info] [cd|]] calls IH]; cbn in *; lia.
Qed.

Lemma countHeaderRows_le (table : list Row) :
  (countHeaderRows table <= length table)%nat.
Proof.
  induction table as [|row table IH]; cbn; [lia|].
  destruct (hasTh row); cbn; lia.
Qed.

(** X9. No row is lost in the aggregation: the rows of the table are the
    leading header rows, the skipped rows, the invalid rows and the rows
    that gave a session, so the four numbers of the error message of
    [scrapeCourseData] add up to the number of rows whenever no session is
    found. *)
Theorem scrapeRows_accounting (table : list Row) :
  length table
  = (countHeaderRows table + skippedRows (scrapeRows table)
     + invalidRows (scrapeRows table) + length (courses (scrapeRows table)))%nat.
Proof.
  destruct (scrapeLoop_rows table (drop (countHeaderRows table) table)
              scrapeStart) as [A B].
  change (scrapeLoop table (drop (countHeaderRows table) table) scrapeStart)
    with (scrapeRows table) in A, B.
  set (dataRows := drop (countHeaderRows table) table) in *.
  assert (I : scrapeInvariant table (scrapeRows table)).
  { apply scrapeLoop_invariant; repeat split; constructor. }
  destruct I as (I & C & _).
  rewrite A, I, C; cbn [skippedRows scrapeStart Nat.add].
  pose proof (noRecord_split (parserCalls (scrapeRows table))) as S.
  pose proof (f_equal length B) as Lb.
  rewrite length_fmap in Lb; cbn [parserCalls scrapeStart fmap list_fmap app] in Lb.
  pose proof (filter_split_length isShort dataRows) as F.
  pose proof (countHeaderRows_le table) as H.
  assert (D : length dataRows = (length table - countHeaderRows table)%nat)
    by (subst dataRows; apply length_drop).
  lia.
Qed.

Lemma toUpperCase_app (a b : string) :
  JS.toUpperCase (a ++ b) = JS.toUpperCase a ++ JS.toUpperCase b.
Proof.
  induction a as [|c a IH]; [reflexivity|].
  cbn [append JS.toUpperCase]; now rewrite IH, append_assoc.
Qed.

Lemma upperChar_capital (c : ascii) :
  JS.isLower c || JS.isLatinLower c = true ->
  JS.isLower (JS.upperChar c) || JS.isLatinLower (JS.upperChar c) = false
  /\ (JS.code (JS.upperChar c) =? 223)%N = false.
Proof.
  intros E; unfold JS.isLower, JS.isLatinLower at 1.
  rewrite (code_upperChar _ E).
  revert E; unfold JS.isLower, JS.isLatinLower; compare_codes; split; reflexivity.
Qed.

Lemma upperUnit_idempotent (c : ascii) :
  JS.toUpperCase (JS.upperUnit c) = JS.upperUnit c.
Proof.
  unfold JS.upperUnit.
  destruct (JS.code c =? 223)%N eqn:S; [reflexivity|].
  cbn [JS.toUpperCase]; rewrite append_nil_r; unfold JS.upperUnit.
  destruct (JS.isLower c || JS.isLatinLower c) eqn:E.
  - destruct (upperChar_capital c E) as [A B].
    rewrite B; unfold JS.upperChar at 1; now rewrite A.
  - unfold JS.upperChar; rewrite E, S, E; reflexivity.
Qed.

Lemma toUpperCase_idempotent (s : string) :
  JS.toUpperCase (JS.toUpperCase s) = JS.toUpperCase s.
Proof.
  induction s as [|c s IH]; [reflexivity|].
  cbn [JS.toUpperCase]; now rewrite toUpperCase_app, upperUnit_idempotent, IH.
Qed.

(** What a record returned by the row parser always has. *)
Lemma parseTableRow_Some (row : Row) (table : list Row) (info : CourseInfo)
    (r : CourseData) :
  parseTableRow row table info = Some r ->
  isShort row = false
  /\ cd_type r <> "" /\ (cd_start r <> "" \/ cd_time r <> "")
  /\ JS.toUpperCase (cd_type r) = cd_type r /\ JS.trim (cd_type r) = cd_type r.
Proof.
  unfold parseTableRow, isShort.
  destruct (length (tds row) <? 3)%nat; [discriminate|].
  pose proof (rowType_trimmed (tds row) table) as Trim.
  destruct (rowStartEnd (tds row) table) as [start end_].
  set (type := rowType (tds row) table) in *.
  set (time := rowTime (tds row) table).
  rewrite eqb_empty, Trim, orb_diag.
  destruct (JS.truthy type) eqn:T; cbn [negb]; [|discriminate].
  assert (N : JS.trim (JS.toUpperCase type) = JS.toUpperCase type)
    by now rewrite trim_toUpperCase, Trim.
  destruct (JS.truthy start) eqn:S, (JS.truthy time) eqn:M; cbn [negb andb];
    try discriminate;
    intros [= <-]; cbn [cd_type cd_start cd_time];
    rewrite !N, toUpperCase_idempotent;
    (split; [reflexivity|]);
    (split; [intros E; apply toUpperCase_empty in E; now rewrite E in T|]);
    (split; [|split; reflexivity]);
    try (left; now apply truthy_true); try (right; now apply truthy_true).
Qed.

Lemma filter_In_bool {A} (p : A -> bool) (l : list A) (x : A) :
  In x (List.filter p l) -> In x l /\ p x = true.
Proof. apply List.filter_In. Qed.

(** X10. What [scrapeCourseData] returns when it returns: at least one
    record, and only records that the row parser made from a data row of
    the table, each with a type in upper case and a start date or a time
    range. *)
Theorem scrapeCourseData_returned (table : list Row) (cs : list CourseData) :
  scrapeCourseData (Some table) = Returned cs ->
  cs <> []
  /\ Forall (fun r =>
               cd_type r <> "" /\ JS.toUpperCase (cd_type r) = cd_type r
               /\ (cd_start r <> "" \/ cd_time r <> "")
               /\ exists row info,
                    In row (drop (countHeaderRows table) table)
                    /\ parseTableRow row table info = Some r) cs.
Proof.
  unfold scrapeCourseData.
  destruct (length (courses (scrapeRows table)) =? 0)%nat eqn:E; [discriminate|].
  intros [= <-]; split.
  { intros Z; rewrite Z in E; discriminate. }
  destruct (scrapeLoop_rows table (drop (countHeaderRows table) table)
              scrapeStart) as [_ B].
  change (scrapeLoop table (drop (countHeaderRows table) table) scrapeStart)
    with (scrapeRows table) in B.
  assert (I : scrapeInvariant table (scrapeRows table)).
  { apply scrapeLoop_invariant; repeat split; constructor. }
  destruct I as (_ & C & F).
  rewrite C; apply Forall_forall; intros r Hr.
  apply list_elem_of_omap in Hr as (call & Hc & Hres).
  rewrite Forall_forall in F; destruct (F call Hc) as [_ P].
  rewrite Hres in P; symmetry in P.
  destruct (parseTableRow_Some _ _ _ _ P) as (_ & T & S & U & _).
  repeat split; try assumption.
  exists (callRow call), (callInfo call); split; [|exact P].
  assert (M : callRow call ∈ callRow <$> parserCalls (scrapeRows table))
    by (apply list_elem_of_fmap; eauto).
  rewrite B in M; cbn [parserCalls scrapeStart fmap list_fmap app] in M.
  apply list_elem_of_In, filter_In_bool in M as [M _]; exact M.
Qed.

Lemma parseTableRow_hasSession (row : Row) (table : list Row) (info : CourseInfo) :
  match parseTableRow row table info with
  | Some r => hasSession table row = true /\ ownFields r = rowFields table row
  | None => hasSession table row = false
  end.
Proof.
  unfold parseTableRow, hasSession, rowFields, ownFields, isShort.
  destruct (length (tds row) <? 3)%nat; [reflexivity|].
  pose proof (rowType_trimmed (tds row) table) as Trim.
  destruct (rowStartEnd (tds row) table) as [start end_]; cbn [fst snd].
  rewrite eqb_empty, Trim, orb_diag.
  destruct (JS.truthy (rowType (tds row) table)); cbn [negb andb]; [|reflexivity].
  destruct (JS.truthy start), (JS.truthy (rowTime (tds row) table));
    cbn [negb andb orb]; try reflexivity; now split.
Qed.

Lemma scrapeLoop_ownFields (table rows : list Row) (st : Scrape) :
  ownFields <$> courses (scrapeLoop table rows st)
  = ((ownFields <$> courses st)
       ++ (rowFields table <$> List.filter (hasSession table) rows))%list.
Proof.
  revert st; induction rows as [|row rows IH]; intros st.
  - cbn; now rewrite app_nil_r.
  - cbn [scrapeLoop fold_left List.filter].
    pose proof (IH (scrapeStep table st row)) as E; unfold scrapeLoop in E.
    rewrite E; clear E IH.
    destruct (isShort row) eqn:S.
    + rewrite (scrapeStep_short _ _ _ S).
      unfold hasSession; rewrite S; reflexivity.
    + destruct (scrapeStep_long table st row S) as (info & _ & _ & _ & Hk).
      cbv zeta in Hk; rewrite Hk, fmap_app, <- app_assoc; f_equal.
      pose proof (parseTableRow_hasSession row table info) as P.
      destruct (parseTableRow row table info) as [r|].
      * destruct P as [P1 P2]; rewrite P1; cbn; now rewrite P2.
      * rewrite P; reflexivity.
Qed.

(** X11. The records of a table are, in the order of the rows, one for
    each data row of three cells or more that has a type and a start date
    or a time range; the type, days, time, dates and room of a record are
    those of its own row, whatever was carried over from the rows
    before. *)
Theorem scrapeRows_own_fields (table : list Row) :
  ownFields <$> courses (scrapeRows table)
  = rowFields table
      <$> List.filter (hasSession table) (drop (countHeaderRows table) table).
Proof. unfold scrapeRows; now rewrite scrapeLoop_ownFields. Qed.

(** X12. [scrapeCourseData] raises its error on a table exactly when no
    data row of the table has three cells or more, a type, and a start date
    or a time range. *)
Theorem scrapeCourseData_throws_iff (table : list Row) :
  (exists message, scrapeCourseData (Some table) = Thrown message)
  <-> Forall (fun row => hasSession table row = false)
        (drop (countHeaderRows table) table).
Proof.
  pose proof (f_equal length (scrapeLoop_ownFields table
                (drop (countHeaderRows table) table) scrapeStart)) as L.
  change (scrapeLoop table (drop (countHeaderRows table) table) scrapeStart)
    with (scrapeRows table) in L.
  rewrite length_app, !length_fmap in L; cbn [courses scrapeStart length] in L.
  unfold scrapeCourseData.
  set (rows := drop (countHeaderRows table) table) in *.
  destruct (length (courses (scrapeRows table)) =? 0)%nat eqn:E.
  - apply Nat.eqb_eq in E; split; [intros _ | eauto].
    rewrite E in L; symmetry in L; cbn in L.
    apply length_zero_iff_nil in L.
    apply Forall_forall; intros row Hr.
    destruct (hasSession table row) eqn:H; [|reflexivity].
    assert (In row (List.filter (hasSession table) rows)).
    { apply List.filter_In; split; [now apply list_elem_of_In | exact H]. }
    rewrite L in *; contradiction.
  - apply Nat.eqb_neq in E; split; [intros [m [=]]|].
    intros F; exfalso; apply E; rewrite L; cbn.
    apply length_zero_iff_nil.
    clear L E; induction F as [|row l H _ IH]; [reflexivity|].
    cbn [List.filter]; now rewrite H.
Qed.

Lemma or_empty_r (s : string) : JS.or s "" = s.
Proof. now destruct s. Qed.

Lemma scrapeStep_context (table : list Row) (st : Scrape) (row : Row) :
  isShort row = false ->
  let info := rowContext st row in
  match parseTableRow row table info with
  | Some cd =>
      courses (scrapeStep table st row) = (courses st ++ [cd])%list
      /\ currentCourseInfo (scrapeStep table st row)
         = if JS.truthy (cd_subject cd) && JS.truthy (cd_course cd) then
             {| ci_subject := cd_subject cd; ci_course := cd_course cd;
                ci_section := cd_section cd; ci_title := cd_title cd |}
           else info
  | None =>
      courses (scrapeStep table st row) = courses st
      /\ currentCourseInfo (scrapeStep table st row) = info
  end.
Proof.
  unfold isShort, scrapeStep, rowContext; intros ->; cbv zeta.
  match goal with |- context [parseTableRow row table ?i] =>
    destruct (parseTableRow row table i) eqn:E end; cbn; now split.
Qed.

Lemma parseTableRow_names (row : Row) (table : list Row) (info : CourseInfo)
    (r : CourseData) :
  parseTableRow row table info = Some r ->
  cd_subject r
  = JS.or (getCellText (tds row) (getColumnIndex table "Subj") 1)
      (ci_subject info)
  /\ cd_course r
     = JS.or (getCellText (tds row) (getColumnIndex table "Crse") 2)
         (ci_course info).
Proof.
  unfold parseTableRow.
  destruct (_ <? _)%nat; [discriminate|].
  destruct (rowStartEnd (tds row) table) as [start end_].
  destruct (_ || _); [discriminate|].
  destruct (_ && _); [discriminate|].
  intros [= <-]; cbn [cd_subject cd_course]; now rewrite !or_empty_r.
Qed.

Lemma scrapeStep_continuation (table : list Row) (st : Scrape) (row : Row) :
  continuation table row = true ->
  let st' := scrapeStep table st row in
  ci_subject (currentCourseInfo st') = ci_subject (currentCourseInfo st)
  /\ ci_course (currentCourseInfo st') = ci_course (currentCourseInfo st)
  /\ exists new,
       courses st' = (courses st ++ new)%list
       /\ Forall (fun r => cd_subject r = ci_subject (currentCourseInfo st)
                           /\ cd_course r = ci_course (currentCourseInfo st)) new.
Proof.
  unfold continuation; cbv zeta.
  destruct (isShort row) eqn:S; cbn [orb].
  { intros _; rewrite (scrapeStep_short _ _ _ S); cbn.
    split; [reflexivity|]. split; [reflexivity|].
    exists []; now rewrite app_nil_r. }
  intros H; apply andb_true_iff in H as [H C]; apply andb_true_iff in H as [H B].
  apply negb_true_iff in H, B, C; apply truthy_false in B, C.
  pose proof (scrapeStep_context table st row S) as P; cbv zeta in P.
  assert (I : rowContext st row = currentCourseInfo st)
    by (unfold rowContext; now rewrite H).
  rewrite I in P.
  destruct (parseTableRow row table (currentCourseInfo st)) as [cd|] eqn:E.
  - destruct P as [P1 P2].
    destruct (parseTableRow_names _ _ _ _ E) as [N1 N2].
    rewrite B in N1; rewrite C in N2; cbn in N1, N2.
    rewrite P1, P2.
    destruct (JS.truthy (cd_subject cd) && JS.truthy (cd_course cd));
      cbn [ci_subject ci_course].
    all: split; [first [exact N1 | reflexivity]|].
    all: split; [first [exact N2 | reflexivity]|].
    all: exists [cd]; split; [reflexivity|]; repeat constructor; assumption.
  - destruct P as [P1 P2]; rewrite P1, P2.
    split; [reflexivity|]. split; [reflexivity|].
    exists []; now rewrite app_nil_r.
Qed.

(** Over rows that name no course, the subject and the course last seen are
    kept: every record made from these rows carries them, and they are
    still the current ones after the rows. *)
Lemma scrapeLoop_carries_course (table rows : list Row) (st : Scrape) :
  Forall (fun row => continuation table row = true) rows ->
  let st' := scrapeLoop table rows st in
  ci_subject (currentCourseInfo st') = ci_subject (currentCourseInfo st)
  /\ ci_course (currentCourseInfo st') = ci_course (currentCourseInfo st)
  /\ exists new,
       courses st' = (courses st ++ new)%list
       /\ Forall (fun r => cd_subject r = ci_subject (currentCourseInfo st)
                           /\ cd_course r = ci_course (currentCourseInfo st)) new.
Proof.
  intros F; revert st; induction F as [|row rows H _ IH]; intros st; cbv zeta.
  - cbn; split; [reflexivity|]. split; [reflexivity|].
    exists []; now rewrite app_nil_r.
  - cbn [scrapeLoop fold_left].
    destruct (scrapeStep_continuation table st row H) as (A & B & n1 & C1 & F1).
    destruct (IH (scrapeStep table st row)) as (A' & B' & n2 & C2 & F2).
    unfold scrapeLoop in *; rewrite A', B', C2, C1, A, B.
    split; [reflexivity|]. split; [reflexivity|].
    exists (n1 ++ n2)%list; split; [now rewrite app_assoc|].
    apply Forall_app; split; [exact F1|].
    rewrite A, B in F2; exact F2.
Qed.

Section DateOutcome.
Variable legacyParse : string -> option Z.


End DateOutcome.

Lemma firstCell_found (test : string -> bool) (cells : list string) :
  test "" = false ->
  Exists (fun cell => test (JS.trim cell) = true) cells ->
  test (firstCell test cells) = true /\ JS.truthy (firstCell test cells) = true.
Proof.
  intros E X; unfold firstCell.
  destruct (List.find (fun cell => test (JS.trim cell)) cells) as [cell|] eqn:F.
  - apply List.find_some in F as [_ F]; split; [exact F|].
    destruct (JS.trim cell); [congruence | reflexivity].
  - apply Exists_exists in X as (cell & I & C).
    apply list_elem_of_In in I.
    pose proof (List.find_none _ _ F cell I) as N; cbv beta in N; congruence.
Qed.

Lemma scanStartEnd_found (cells : list string) :
  Exists (fun cell => isDate (JS.trim cell) = true) cells ->
  isDate (fst (scanStartEnd cells)) = true
  /\ (snd (scanStartEnd cells) = "" \/ isDate (snd (scanStartEnd cells)) = true).
Proof.
  induction cells as [|cell rest IH]; intros X; [inversion X|].
  cbn [scanStartEnd].
  destruct (isDate (JS.trim cell)) eqn:D; cbn [fst snd].
  - split; [exact D|].
    destruct rest as [|next rest']; [now left|].
    destruct (isDate (JS.trim next)) eqn:D'; [now right | now left].
  - apply IH; inversion X; subst; [congruence | assumption].
Qed.

Lemma isTypeWord_trimmed (s : string) : isTypeWord s = true -> JS.trim s = s.
Proof.
  unfold isTypeWord; intros H.
  repeat (apply orb_true_iff in H as [H|H]);
    apply String.eqb_eq in H; subst s; reflexivity.
Qed.

(** X3. A cell that reads as a time, a date, a weekday mask or a type word
    is taken before any column is looked up: a record made from a row with
    such a cell holds a time, a start date, a mask or a type of that form,
    and its end date is then empty or of the form of a date. *)
Theorem parseTableRow_pattern_cells (row : Row) (table : list Row)
    (info : CourseInfo) (r : CourseData) :
  parseTableRow row table info = Some r ->
  let found test := Exists (fun cell => test (JS.trim cell) = true) (tds row) in
  (found isTime -> isTime (cd_time r) = true)
  /\ (found isDate ->
      isDate (cd_start r) = true
      /\ (cd_end r = "" \/ isDate (cd_end r) = true))
  /\ (found isDays -> isDays (cd_days r) = true)
  /\ (found (fun t => isTypeWord (JS.toUpperCase t)) ->
      isTypeWord (cd_type r) = true).
Proof.
  intros P found.
  pose proof (parseTableRow_hasSession row table info) as H; rewrite P in H.
  destruct H as [_ H]; unfold ownFields, rowFields in H; cbv zeta in H.
  injection H as Ety Eda Eti Est Een _.
  subst found; cbv beta.
  split; [|split; [|split]].
  - intros X; rewrite Eti; unfold rowTime.
    destruct (firstCell_found isTime (tds row) eq_refl X) as [A B].
    now rewrite B.
  - intros X; rewrite Est, Een; unfold rowStartEnd.
    destruct (scanStartEnd_found (tds row) X) as [A B].
    destruct (scanStartEnd (tds row)) as [start end_]; cbn [fst snd] in *.
    assert (T : JS.truthy start = true) by (destruct start; [discriminate A | reflexivity]).
    rewrite T; cbn [negb fst snd]; now split.
  - intros X; rewrite Eda; unfold rowDays.
    destruct (firstCell_found isDays (tds row) eq_refl X) as [A B].
    now rewrite B.
  - intros X; rewrite Ety; unfold rowType.
    destruct (firstCell_found (fun t => isTypeWord (JS.toUpperCase t))
                (tds row) eq_refl X) as [A B].
    rewrite B; cbn [negb]; cbv beta in A.
    now rewrite (isTypeWord_trimmed _ A).
Qed.

(** X7. [formatICSDateTime] gives the empty string exactly when the date
    or the time is empty, and raises its error exactly when both are given
    and the time holds no colon. *)
Theorem formatICSDateTime_outcomes (dateStr timeStr : string) :
  (formatICSDateTime dateStr timeStr = Some "" <-> dateStr = "" \/ timeStr = "")
  /\ (formatICSDateTime dateStr timeStr = None <->
      dateStr <> "" /\ timeStr <> "" /\ countChar ":" timeStr = 0%nat).
Proof.
  unfold formatICSDateTime.
  destruct dateStr as [|c d]; [cbn; split; split; intuition congruence|].
  destruct timeStr as [|c' t]; [cbn; split; split; intuition congruence|].
  cbn [JS.truthy negb orb].
  pose proof (split_length ":" (String c' t)) as L.
  destruct (JS.split ":" (String c' t)) as [|h [|m rest]].
  - discriminate L.
  - cbn [length] in L; split; split.
    + discriminate.
    + intros [|]; discriminate.
    + intros _; repeat split; try discriminate. lia.
    + reflexivity.
  - cbn [length] in L; split; split.
    + intros [= E]; destruct d; discriminate E.
    + intros [|]; discriminate.
    + discriminate.
    + intros (_ & _ & Z); lia.
Qed.

Lemma escapeOnePass_app (a b : string) :
  escapeOnePass (a ++ b) = escapeOnePass a ++ escapeOnePass b.
Proof.
  induction a as [|c a IH]; [reflexivity|].
  cbn [append escapeOnePass]; now rewrite IH, append_assoc.
Qed.

Lemma escapeChar_length (c : ascii) :
  (1 <= String.length (escapeChar c) <= 2)%nat.
Proof.
  unfold escapeChar.
  repeat match goal with
         | |- context [if ?b then _ else _] => destruct b
         end; cbn; lia.
Qed.

(** X8. The escaping works character by character: the escape of a text
    in two pieces is the escapes of the pieces put together; a text without
    backslash, semicolon, comma and line feed is left as it is; an escaped
    text holds no line feed and is at most twice as long as the text. *)
Theorem escapeICSText_by_character :
  (forall a b : string,
     escapeICSText (a ++ b) = escapeICSText a ++ escapeICSText b)
  /\ (forall text : string,
        forallb isPlain (list_ascii_of_string text) = true ->
        escapeICSText text = text)
  /\ (forall text : string,
        noLF (escapeICSText text) = true
        /\ (String.length text <= String.length (escapeICSText text)
            <= 2 * String.length text)%nat).
Proof.
  split; [|split].
  - intros a b; rewrite !escapeICSText_onePass; apply escapeOnePass_app.
  - intros text; rewrite escapeICSText_onePass.
    induction text as [|c text IH]; [reflexivity|].
    cbn [list_ascii_of_string forallb escapeOnePass].
    intros H; apply andb_true_iff in H as [C H]; rewrite (IH H).
    unfold isPlain in C; apply negb_true_iff in C.
    repeat (apply orb_false_iff in C as [C ?]).
    unfold escapeChar.
    repeat match goal with E : Ascii.eqb _ _ = false |- _ => rewrite E; clear E end.
    reflexivity.
  - intros text; split; [apply noLF_escapeICSText|].
    rewrite escapeICSText_onePass.
    induction text as [|c text IH]; [cbn; lia|].
    cbn [escapeOnePass String.length]; rewrite length_append.
    pose proof (escapeChar_length c); lia.
Qed.

(** X13. A row that names its course and gives a session, followed by
    rows that name no course: every session of the rows that follow carries
    the subject and the course of the first. *)
Theorem scrapeLoop_course_block (table : list Row) (first : Row)
    (rows : list Row) (st : Scrape) (cd : CourseData) :
  isShort first = false ->
  parseTableRow first table (rowContext st first) = Some cd ->
  JS.truthy (cd_subject cd) && JS.truthy (cd_course cd) = true ->
  Forall (fun row => continuation table row = true) rows ->
  exists new,
    courses (scrapeLoop table (first :: rows) st)
    = (courses st ++ cd :: new)%list
    /\ Forall (fun r => cd_subject r = cd_subject cd
                        /\ cd_course r = cd_course cd) new.
Proof.
  intros S P T F.
  pose proof (scrapeStep_context table st first S) as C; cbv zeta in C.
  rewrite P, T in C; destruct C as [C1 C2].
  destruct (scrapeLoop_carries_course table rows (scrapeStep table st first) F)
    as (_ & _ & new & N & G).
  exists new; split.
  - change (scrapeLoop table (first :: rows) st)
      with (scrapeLoop table rows (scrapeStep table st first)).
    now rewrite N, C1, <- app_assoc.
  - rewrite C2 in G; exact G.
Qed.

(** * The properties on examples *)

Lemma parseBannerDays_placeholders :
  parseBannerDays "-------" = []
  /\ parseBannerDays "M-W-F--" = ["MO"; "WE"; "FR"]
  /\ parseBannerDays " tr " = ["TU"; "TH"].
Proof.
  destruct parseBannerDays_letters as (_ & L & E).
  split; [apply E; repeat constructor|].
  split; [exact (L "M-W-F--") | exact (L " tr ")].
Defined.

Lemma parseBannerTime_examples :
  parseBannerTime "830-1025" = Some {| td_start := "08:30"; td_end := "10:25" |}
  /\ parseBannerTime "1230" = None.
Proof.
  destruct parseBannerTime_decodes as (A & B & _).
  split.
  - apply (A "830-1025" "830" "1025"); reflexivity.
  - apply B; simpl; lia.
Defined.

Lemma escapeICSText_example :
  escapeICSText ("A; B, C" ++ String LF "D\") = "A\; B\, C\nD\\"
  /\ unescapeICSText (escapeICSText ("A; B, C" ++ String LF "D\"))
     = "A; B, C" ++ String LF "D\".
Proof. split; [reflexivity | apply (proj1 escapeICSText_roundtrip)]. Defined.

Lemma parseTableRow_sample :
  (exists record,
     parseTableRow sampleRow sampleTable emptyCourseInfo = Some record
     /\ cd_type record <> ""
     /\ (cd_start record <> "" \/ cd_time record <> ""))
  /\ parseTableRow spacerRow sampleTable emptyCourseInfo = None.
Proof.
  pose proof (parseTableRow_record_invariant sampleRow sampleTable
                emptyCourseInfo) as H.
  cbv zeta in H; destruct H as (A & _ & C).
  pose proof (parseTableRow_record_invariant spacerRow sampleTable
                emptyCourseInfo) as H.
  cbv zeta in H; destruct H as (_ & B & _).
  split; [|apply B; left; reflexivity].
  destruct C as [record E].
  - reflexivity.
  - vm_compute; discriminate.
  - left; vm_compute; discriminate.
  - exists record; split; [exact E|].
    destruct (A record E) as (_ & _ & T & S); split; assumption.
Defined.

Lemma getColumnIndex_sample :
  getColumnIndex sampleTable "Subj" = 1
  /\ getColumnIndex sampleTable "Start" = 7
  /\ getColumnIndex sampleTable "Campus" = -1.
Proof.
  destruct (getColumnIndex_resolution sampleTable "Subj") as (_ & A & _).
  destruct (getColumnIndex_resolution sampleTable "Start") as (_ & _ & B & _).
  destruct (getColumnIndex_resolution sampleTable "Campus")
    as (_ & _ & _ & C & _).
  split; [|split].
  - apply (A (hd sampleRow sampleTable) 1%nat); reflexivity.
  - apply (B [hd sampleRow sampleTable] (hd sampleRow (tl sampleTable)) [] 7%nat);
      try reflexivity.
    repeat constructor.
  - apply C; split; [reflexivity|].
    repeat constructor.
Defined.

Lemma scrapeCourseData_sample :
  skippedRows (scrapeRows sampleTable) = 1%nat
  /\ invalidRows (scrapeRows sampleTable) = 1%nat
  /\ length (courses (scrapeRows sampleTable)) = 1%nat.
Proof.
  pose proof (scrapeCourseData_counters sampleTable) as H.
  cbv zeta in H; destruct H as (A & _ & _ & I & C & _).
  rewrite A, I, C; repeat split; reflexivity.
Defined.

Lemma isTime_parseBannerTime_example :
  exists a b,
    "830-1025" = a ++ "-" ++ b
    /\ parseBannerTime "830-1025"
       = Some {| td_start := hoursMinutes a; td_end := hoursMinutes b |}
    /\ Regex.matches hhmmPattern (hoursMinutes a) = true
    /\ Regex.matches hhmmPattern (hoursMinutes b) = true.
Proof. apply (isTime_parseBannerTime "830-1025"); reflexivity. Defined.


Lemma parseTableRow_pattern_cells_example :
  exists r,
    parseTableRow sampleRow sampleTable emptyCourseInfo = Some r
    /\ isTime (cd_time r) = true /\ isDate (cd_start r) = true
    /\ isDays (cd_days r) = true /\ isTypeWord (cd_type r) = true.
Proof.
  eexists; split; [vm_compute; reflexivity|].
  match goal with |- context [cd_time ?r] =>
    pose proof (parseTableRow_pattern_cells sampleRow sampleTable
                  emptyCourseInfo r eq_refl) as H end.
  cbv zeta in H; destruct H as (A & B & C & D).
  assert (F : forall test : string -> bool,
             test "1230-1420" || test "06-MAY-2024" || test "-T-R---"
             || test "Lecture" = true ->
             Exists (fun cell => test (JS.trim cell) = true) (tds sampleRow)).
  { intros test T; apply Exists_exists.
    repeat (apply orb_true_iff in T as [T|T]);
      [ exists "1230-1420" | exists "06-MAY-2024" | exists "-T-R---"
      | exists "Lecture" ];
      (split; [|exact T]); unfold sampleRow; cbn [tds];
      rewrite !elem_of_cons; tauto. }
  split; [apply A, F; reflexivity|].
  split; [apply B, F; reflexivity|].
  split; [apply C, F; reflexivity|].
  apply D, (F (fun t => isTypeWord (JS.toUpperCase t))); reflexivity.
Defined.

Lemma createEvent_weekly_example :
  createEvent noEngine (lectureSession "CPSC" "1150" "001" "Program Design" "A123")
  = Some (unlines
            ["BEGIN:VEVENT";
             "DTSTART;TZID=America/Los_Angeles:20240506T123000";
             "DTEND;TZID=America/Los_Angeles:20240506T142000";
             "RRULE:FREQ=WEEKLY;BYDAY=TU,TH;UNTIL=20240810T075900Z";
             "SUMMARY:CPSC 1150 001 LECTURE";
             "DESCRIPTION:Program Design";
             "LOCATION:Langara College\, Room A123";
             "END:VEVENT"]).
Proof.
  rewrite (createEvent_weekly noEngine
             (lectureSession "CPSC" "1150" "001" "Program Design" "A123")
             "20240506" "1230" "1420"); reflexivity.
Defined.

Lemma createEvent_exam_example :
  createEvent noEngine examSession
  = Some (unlines
            ["BEGIN:VEVENT";
             "DTSTART;TZID=America/Los_Angeles:20240812T090000";
             "DTEND;TZID=America/Los_Angeles:20240813T120000";
             "SUMMARY:FINAL EXAM - CPSC 1150 001";
             "DESCRIPTION:Program Design";
             "LOCATION:Langara College\, Room A123";
             "END:VEVENT"]).
Proof.
  rewrite (createEvent_exam noEngine examSession "20240812" "900" "1200");
    try reflexivity.
  now right.
Defined.


Lemma scrapeCourseData_returned_example :
  exists cs,
    scrapeCourseData (Some sampleTable) = Returned cs
    /\ cs <> []
    /\ Forall (fun r => cd_type r <> "" /\ JS.toUpperCase (cd_type r) = cd_type r) cs.
Proof.
  eexists; split; [vm_compute; reflexivity|].
  match goal with |- ?cs <> [] /\ _ =>
    destruct (scrapeCourseData_returned sampleTable cs eq_refl) as [A B] end.
  split; [exact A|].
  eapply Forall_impl; [exact B|].
  intros r (T & U & _); now split.
Defined.

Lemma scrapeLoop_course_block_example :
  exists cd new,
    courses (scrapeLoop sampleTable [sampleRow; labRow] scrapeStart)
    = ([] ++ cd :: new)%list
    /\ cd_subject cd = "CPSC" /\ cd_course cd = "1150"
    /\ Forall (fun r => cd_subject r = cd_subject cd
                        /\ cd_course r = cd_course cd) new.
Proof.
  destruct (parseTableRow sampleRow sampleTable (rowContext scrapeStart sampleRow))
    as [cd|] eqn:P; [|vm_compute in P; discriminate P].
  assert (S : cd_subject cd = "CPSC" /\ cd_course cd = "1150").
  { vm_compute in P; injection P as <-; now split. }
  destruct (scrapeLoop_course_block sampleTable sampleRow [labRow] scrapeStart cd)
    as (new & C & F).
  - reflexivity.
  - exact P.
  - destruct S as [-> ->]; reflexivity.
  - repeat constructor.
  - exists cd, new; split; [exact C|]. destruct S; now repeat split.
Defined.
